(** * EasyBuild easyblocks [JuliaBundle] and [EB_NEURON]: a shallow embedding

    The two easyblocks are Python classes that override a few methods of
    the generic easyblocks [Bundle] and [CMakeMake].  Their methods mutate
    the easyblock object, call into the EasyBuild framework and raise
    exceptions.  They are embedded here as computations in a state and
    exception monad over the attributes of the object; what the framework
    and the operating system answer (environment variables, results of
    shell commands, the parent classes' methods) is gathered in a record
    that every method takes as its first argument.  Calls of [self.log]
    are left out: they change nothing that the methods read.

    Strings are strings of code points below 256. *)

From Stdlib Require Import ZArith String Ascii List DecimalString.
From stdpp Require Import gmap strings list fin_maps.

Set Warnings "-register-all".
Local Open Scope Z_scope.

(** ** Python values and built-ins *)

Module Py.

(** The values that occur as easyconfig parameters. *)
Inductive val :=
| VNone
| VBool (b : bool)
| VInt (z : Z)
| VStr (s : string)
| VList (l : list val)
| VDict (d : gmap string val).

(** The exceptions that the two easyblocks raise or let through. *)
Inductive exc :=
| EasyBuildError (msg : string)
| OSError (msg : string)
| KeyError (key : string)
| IndexError (msg : string)
| AttributeError (msg : string)
| TypeError (msg : string)
| UnboundLocalError (name : string)
| ReError (pattern : string)
| RunShellCmdError (cmd : string) (exit_code : Z).

(** Truth value of [None] or a string, as tested by [if x:]. *)
Definition truthy (o : option string) : bool :=
  match o with
  | Some (String _ _) => true
  | _ => false
  end.

Definition newline : ascii := "010"%char.
Definition sep : ascii := "/"%char.

(** [sep.join(l)] *)
Fixpoint join (sp : string) (l : list string) : string :=
  match l with
  | [] => ""
  | [x] => x
  | x :: r => x +:+ sp +:+ join sp r
  end.

(** [s.split(c)] for a separator of one character: one piece more than
    there are separators in [s]. *)
Fixpoint split (c : ascii) (s : string) : list string :=
  match s with
  | EmptyString => [""]
  | String a r =>
      if Ascii.eqb a c then "" :: split c r
      else match split c r with
           | p :: ps => String a p :: ps
           | [] => [String a ""]
           end
  end.

(** [format(z, 'd')] *)
Definition format_d (z : Z) : string := NilEmpty.string_of_int (Z.to_int z).

(** [range(0, n)] *)
Definition range (n : Z) : list Z := map Z.of_nat (seq 0 (Z.to_nat n)).

(** *** [posixpath] *)

Definition startswith_sep (s : string) : bool :=
  match s with
  | String a _ => Ascii.eqb a sep
  | EmptyString => false
  end.

Fixpoint endswith_sep (s : string) : bool :=
  match s with
  | EmptyString => false
  | String a EmptyString => Ascii.eqb a sep
  | String _ r => endswith_sep r
  end.

(** One round of the loop of [posixpath.join]. *)
Definition join_component (path b : string) : string :=
  if startswith_sep b then b
  else if (String.eqb path "" || endswith_sep path)%bool then path +:+ b
  else path +:+ "/" +:+ b.

(** [os.path.join(a, *p)] *)
Definition path_join (a : string) (p : list string) : string :=
  fold_left join_component p a.

(** [s.rfind('/')], counted from [i], with [last] the answer so far. *)
Fixpoint rfind_sep_from (i last : Z) (s : string) : Z :=
  match s with
  | EmptyString => last
  | String a r => rfind_sep_from (i + 1) (if Ascii.eqb a sep then i else last) r
  end.

Definition rfind_sep (s : string) : Z := rfind_sep_from 0 (-1) s.

(** [s[:i]] for [0 <= i] *)
Definition slice_to (i : Z) (s : string) : string :=
  String.substring 0 (Z.to_nat i) s.

Fixpoint all_sep (s : string) : bool :=
  match s with
  | EmptyString => true
  | String a r => Ascii.eqb a sep && all_sep r
  end.

(** [s.rstrip('/')] *)
Fixpoint rstrip_sep (s : string) : string :=
  match s with
  | EmptyString => ""
  | String a r => if all_sep (String a r) then "" else String a (rstrip_sep r)
  end.

(** [os.path.dirname(p)] *)
Definition dirname (p : string) : string :=
  let i := rfind_sep p + 1 in
  let head := slice_to i p in
  if (negb (String.eqb head "") && negb (all_sep head))%bool
  then rstrip_sep head else head.

(** [s[i:]] for [0 <= i] *)
Definition slice_from (i : Z) (s : string) : string :=
  String.substring (Z.to_nat i) (String.length s - Z.to_nat i) s.

(** [os.path.split(p)] *)
Definition path_split (p : string) : string * string :=
  let i := rfind_sep p + 1 in
  let head := slice_to i p in
  let tail := slice_from i p in
  (if (negb (String.eqb head "") && negb (all_sep head))%bool
   then rstrip_sep head else head,
   tail).

(** The directories that [os.makedirs(name)] creates, outermost first,
    where [exists_] tells which paths exist: the missing parents are
    made by a recursive call on the head of [name], then [name] itself,
    unless its last component is [.].  Every call is on a shorter path, so
    a number of rounds as large as the length of [name] is enough. *)
Fixpoint makedirs_from (rounds : nat) (exists_ : string -> bool)
    (name : string) : list string :=
  match rounds with
  | O => [name]
  | S r =>
      let '(head, tail) := path_split name in
      let '(head, tail) :=
        if String.eqb tail "" then path_split head else (head, tail) in
      if (negb (String.eqb head "") && negb (String.eqb tail "")
          && negb (exists_ head))%bool
      then makedirs_from r exists_ head ++
           (if String.eqb tail "." then [] else [name])
      else [name]
  end.

Definition makedirs (exists_ : string -> bool) (name : string) : list string :=
  makedirs_from (String.length name) exists_ name.

End Py.

(** ** The fragment of Python's [re] that the easyblocks use

    Patterns are sequences of one-character atoms (a literal, [\s], [.]),
    each possibly under [*] or [+], and the anchor [^].  A pattern outside
    this fragment does not compile. *)

Module Re.

Inductive charset :=
| Lit (c : ascii)
| Space            (* \s *)
| AnyButNewline.   (* .  without re.DOTALL *)

Inductive quant := One | Star | Plus.

Inductive item :=
| Bol                               (* ^ *)
| Atom (cs : charset) (q : quant).

Definition pattern := list item.

Inductive token :=
| TBol
| TSet (cs : charset)
| TStar
| TPlus.

(** Whitespace of [str.isspace] among the code points below 256. *)
Definition is_space (c : ascii) : bool :=
  let n := N_of_ascii c in
  ((9 <=? n) && (n <=? 13) || (28 <=? n) && (n <=? 32) || (n =? 133) || (n =? 160))%N.

Definition cs_mem (cs : charset) (c : ascii) : bool :=
  match cs with
  | Lit a => Ascii.eqb a c
  | Space => is_space c
  | AnyButNewline => negb (Ascii.eqb c Py.newline)
  end.

(** The characters with a meaning of their own in a pattern. *)
Definition special : list ascii :=
  ["."; "^"; "$"; "*"; "+"; "?"; "{"; "}"; "["; "]"; "\"; "|"; "("; ")"]%char.

Definition is_special (c : ascii) : bool :=
  existsb (Ascii.eqb c) special.

Definition escape (e : ascii) : option charset :=
  if Ascii.eqb e "s" then Some Space
  else if Ascii.eqb e "n" then Some (Lit Py.newline)
  else if Ascii.eqb e "t" then Some (Lit "009"%char)
  else if is_special e then Some (Lit e)
  else None.

Fixpoint tokenize (s : string) : option (list token) :=
  match s with
  | EmptyString => Some []
  | String c r =>
      if Ascii.eqb c "\" then
        match r with
        | String e r' =>
            match escape e, tokenize r' with
            | Some cs, Some ts => Some (TSet cs :: ts)
            | _, _ => None
            end
        | EmptyString => None
        end
      else
        let tok :=
          if Ascii.eqb c "^" then Some TBol
          else if Ascii.eqb c "." then Some (TSet AnyButNewline)
          else if Ascii.eqb c "*" then Some TStar
          else if Ascii.eqb c "+" then Some TPlus
          else if is_special c then None
          else Some (TSet (Lit c)) in
        match tok, tokenize r with
        | Some t, Some ts => Some (t :: ts)
        | _, _ => None
        end
  end.

Fixpoint group (ts : list token) : option pattern :=
  match ts with
  | [] => Some []
  | TBol :: r => cons Bol <$> group r
  | TSet cs :: r =>
      match r with
      | TStar :: r' => cons (Atom cs Star) <$> group r'
      | TPlus :: r' => cons (Atom cs Plus) <$> group r'
      | _ => cons (Atom cs One) <$> group r
      end
  | TStar :: _ | TPlus :: _ => None
  end.

(** [re.compile(s)]; [None] stands for a pattern that is rejected or is
    not in the fragment. *)
Definition compile (s : string) : option pattern :=
  tokenize s ≫= group.

(** The anchor [^] holds at the start of the subject and, under
    [re.MULTILINE], after every newline; [prev] is the character before
    the current position. *)
Definition at_bol (multiline : bool) (prev : option ascii) : bool :=
  match prev with
  | None => true
  | Some c => multiline && Ascii.eqb c Py.newline
  end.

(** Zero or more characters of [cs], then [k]. *)
Fixpoint star (cs : charset) (k : option ascii -> string -> bool)
    (prev : option ascii) (s : string) : bool :=
  k prev s ||
  match s with
  | String c r => cs_mem cs c && star cs k (Some c) r
  | EmptyString => false
  end.

(** Does [p] match a prefix of [s]? *)
Fixpoint match_here (multiline : bool) (p : pattern)
    : option ascii -> string -> bool :=
  match p with
  | [] => fun _ _ => true
  | Bol :: rest => fun prev s =>
      at_bol multiline prev && match_here multiline rest prev s
  | Atom cs One :: rest => fun _ s =>
      match s with
      | String c r => cs_mem cs c && match_here multiline rest (Some c) r
      | EmptyString => false
      end
  | Atom cs Star :: rest => star cs (match_here multiline rest)
  | Atom cs Plus :: rest => fun _ s =>
      match s with
      | String c r => cs_mem cs c && star cs (match_here multiline rest) (Some c) r
      | EmptyString => false
      end
  end.

Fixpoint search_from (multiline : bool) (p : pattern)
    (prev : option ascii) (s : string) : bool :=
  match_here multiline p prev s ||
  match s with
  | String c r => search_from multiline p (Some c) r
  | EmptyString => false
  end.

(** Truth value of [p.search(s)]. *)
Definition search (multiline : bool) (p : pattern) (s : string) : bool :=
  search_from multiline p None s.

(** The pattern that matches the string [s] as it stands, and the
    strings without a special character, whose pattern that is. *)
Fixpoint literal (s : string) : pattern :=
  match s with
  | EmptyString => []
  | String c r => Atom (Lit c) One :: literal r
  end.

Fixpoint plain (s : string) : bool :=
  match s with
  | EmptyString => true
  | String c r => negb (is_special c) && plain r
  end.

End Re.

(** ** Methods as computations

    A method runs on the state of the easyblock object and of its
    surroundings, and either returns or raises; what it did to the state
    before raising stays done. *)

Module Eff.

Inductive outcome (A : Type) :=
| Returned (a : A)
| Raised (e : Py.exc).
Arguments Returned {A} a.
Arguments Raised {A} e.

Definition M (S A : Type) : Type := S -> outcome A * S.

Definition ret {S A} (a : A) : M S A := fun s => (Returned a, s).

Definition bind {S A B} (m : M S A) (k : A -> M S B) : M S B :=
  fun s =>
    match m s with
    | (Returned a, s') => k a s'
    | (Raised e, s') => (Raised e, s')
    end.

Definition raise {S A} (e : Py.exc) : M S A := fun s => (Raised e, s).

Definition gets {S A} (f : S -> A) : M S A := fun s => (Returned (f s), s).

Definition modify {S} (f : S -> S) : M S unit := fun s => (Returned tt, f s).

(** The outcome of a call that does not touch the state. *)
Definition lift {S A} (r : Py.exc + A) : M S A :=
  match r with
  | inl e => raise e
  | inr a => ret a
  end.

(** [try: m  except <the exceptions that handles accepts>: handler] *)
Definition try_except {S A} (m : M S A) (handles : Py.exc -> bool)
    (handler : Py.exc -> M S A) : M S A :=
  fun s =>
    match m s with
    | (Raised e, s') => if handles e then handler e s' else (Raised e, s')
    | r => r
    end.

(** [try: m  finally: fin] *)
Definition try_finally {S A} (m : M S A) (fin : M S unit) : M S A :=
  fun s =>
    match m s with
    | (r, s') =>
        match fin s' with
        | (Returned _, s'') => (r, s'')
        | (Raised e, s'') => (Raised e, s'')
        end
    end.

(** [for x in l: body x] *)
Fixpoint for_each {S A} (l : list A) (body : A -> M S unit) : M S unit :=
  match l with
  | [] => ret tt
  | x :: r => bind (body x) (fun _ => for_each r body)
  end.

#[global] Instance M_ret {S} : MRet (M S) := @ret S.
#[global] Instance M_bind {S} : MBind (M S) := fun A B k m => bind m k.

Definition is_EasyBuildError (e : Py.exc) : bool :=
  match e with
  | Py.EasyBuildError _ => true
  | _ => false
  end.

Definition is_OSError (e : Py.exc) : bool :=
  match e with
  | Py.OSError _ => true
  | _ => false
  end.

(** [str(err)] *)
Definition exc_str (e : Py.exc) : string :=
  match e with
  | Py.EasyBuildError m | Py.OSError m | Py.KeyError m | Py.IndexError m
  | Py.AttributeError m | Py.TypeError m | Py.UnboundLocalError m
  | Py.ReError m => m
  | Py.RunShellCmdError c _ => c
  end.

End Eff.

(** ** What the easyblocks use of the EasyBuild framework *)

Module Framework.
Import Py Eff.

(** An entry of [extra_options]: default value, description, category. *)
Record opt_spec := {
  opt_default : val;
  opt_descr : string;
  opt_category : string;
}.

Definition CUSTOM : string := "CUSTOM".

(** The [custom_paths] argument of [sanity_check_step]. *)
Record custom_paths := {
  files : list string;
  dirs : list string;
}.

(** The result of [run_shell_cmd]. *)
Record RunShellCmdResult := {
  exit_code : Z;
  output : string;
}.

(** The methods of an easyblock class, as functions of the object's state
    [S].  [other_step] stands for every method that has no field of its
    own, looked up by its name. *)
Record easyblock_class (S : Type) := {
  extra_options : option (gmap string opt_spec) -> gmap string opt_spec;
  init : M S unit;
  prepare_step : M S unit;
  configure_step : M S val;
  sanity_check_step : option custom_paths -> M S unit;
  make_module_step : M S val;
  make_module_extra : M S string;
  load_fake_module : M S val;
  clean_up_fake_module : val -> M S unit;
  other_step : string -> M S val;
}.
Arguments extra_options {S}.
Arguments init {S}.
Arguments prepare_step {S}.
Arguments configure_step {S}.
Arguments sanity_check_step {S}.
Arguments make_module_step {S}.
Arguments make_module_extra {S}.
Arguments load_fake_module {S}.
Arguments clean_up_fake_module {S}.
Arguments other_step {S}.

(** Truth value of an easyconfig value. *)
Definition val_truthy (v : val) : bool :=
  match v with
  | VNone => false
  | VBool b => b
  | VInt z => negb (z =? 0)
  | VStr s => negb (String.eqb s "")
  | VList l => match l with [] => false | _ => true end
  | VDict d => negb (bool_decide (d = ∅))
  end.

(** [cfg[key]] without templating; an unknown parameter is an error. *)
Definition getitem (cfg : gmap string val) (key : string) : exc + val :=
  match cfg !! key with
  | Some v => inr v
  | None => inl (EasyBuildError ("Use of unknown easyconfig parameter '" +:+ key +:+ "'"))
  end.

(** [cfg.update(key, item)] for a string [item]: a parameter that is a
    string, as [configopts] usually is, gets the item appended between two
    spaces; one that is a list gets it appended as an element; a parameter
    of another type cannot be updated by a string. *)
Definition update (cfg : gmap string val) (key item : string)
    : exc + gmap string val :=
  match cfg !! key with
  | Some (VStr s) => inr (<[key := VStr (s +:+ " " +:+ item +:+ " ")]> cfg)
  | Some (VList l) => inr (<[key := VList (l ++ [VStr item])]> cfg)
  | Some (VDict _) =>
      inl (EasyBuildError ("Can't update configuration value for " +:+ key +:+
                           ", because the attempted update value is not a dictionary."))
  | Some _ =>
      inl (EasyBuildError ("Can't update configuration value for " +:+ key +:+
                           ", because it's not a string, list, tuple or dictionary."))
  | None => inl (EasyBuildError ("Use of unknown easyconfig parameter '" +:+ key +:+ "'"))
  end.

(** What an f-string puts for a value that is a string or [None]. *)
Definition fstr (o : option string) : string :=
  match o with
  | Some s => s
  | None => "None"
  end.

End Framework.

(** ** easyblocks/n/neuron.py *)

Module EB_NEURON.
Import Py Eff Framework.

(** The object: the easyconfig [self.cfg], the attributes that the
    methods read or write, the working directory of the process and the
    shell commands run so far (command and standard input, latest last). *)
Record state := {
  cfg : gmap string val;
  installdir : string;
  version : string;
  with_python : bool;
  pylibdir : string;
  module_load_environment : gmap string (list string);
  cwd : string;
  shell_log : list (string * option string);
}.

Definition set_cfg (c : gmap string val) (s : state) : state :=
  {| cfg := c; installdir := installdir s; version := version s;
     with_python := with_python s; pylibdir := pylibdir s;
     module_load_environment := module_load_environment s;
     cwd := cwd s; shell_log := shell_log s |}.

Definition set_with_python (b : bool) (s : state) : state :=
  {| cfg := cfg s; installdir := installdir s; version := version s;
     with_python := b; pylibdir := pylibdir s;
     module_load_environment := module_load_environment s;
     cwd := cwd s; shell_log := shell_log s |}.

Definition set_pylibdir (d : string) (s : state) : state :=
  {| cfg := cfg s; installdir := installdir s; version := version s;
     with_python := with_python s; pylibdir := d;
     module_load_environment := module_load_environment s;
     cwd := cwd s; shell_log := shell_log s |}.

Definition set_module_load_environment (e : gmap string (list string))
    (s : state) : state :=
  {| cfg := cfg s; installdir := installdir s; version := version s;
     with_python := with_python s; pylibdir := pylibdir s;
     module_load_environment := e;
     cwd := cwd s; shell_log := shell_log s |}.

Definition set_cwd (d : string) (s : state) : state :=
  {| cfg := cfg s; installdir := installdir s; version := version s;
     with_python := with_python s; pylibdir := pylibdir s;
     module_load_environment := module_load_environment s;
     cwd := d; shell_log := shell_log s |}.

Definition log_cmd (c : string * option string) (s : state) : state :=
  {| cfg := cfg s; installdir := installdir s; version := version s;
     with_python := with_python s; pylibdir := pylibdir s;
     module_load_environment := module_load_environment s;
     cwd := cwd s; shell_log := shell_log s ++ [c] |}.

(** What the surroundings answer: the framework's functions, the
    operating system, the module generator and the parent class. *)
Record env := {
  get_software_root : string -> option string;
  det_pylibdir : exc + string;
  get_shared_lib_ext : string;
  build_option : string -> val;
  (** exit code and output of a command, by working directory, command
      and standard input *)
  shell : string -> string -> option string -> RunShellCmdResult;
  getcwd_error : option string;
  chdir_error : string -> option string;
  mpi_cmd_for : string -> val -> exc + string;
  LooseVersion_lt : string -> string -> bool;
  getenv : string -> option string;
  set_environment : string -> string -> string;
  CMakeMake : easyblock_class state;
}.

(** *** Calls into the framework and the operating system *)

Definition cfg_getitem (key : string) : M state val :=
  c ← gets cfg; lift (getitem c key).

Definition cfg_update (key item : string) : M state unit :=
  c ← gets cfg; c' ← lift (update c key item); modify (set_cfg c').

(** [run_shell_cmd(cmd, stdin=stdin, fail_on_error=fail_on_error)] *)
Definition run_shell_cmd (E : env) (cmd : string) (stdin : option string)
    (fail_on_error : bool) : M state RunShellCmdResult :=
  d ← gets cwd;
  modify (log_cmd (cmd, stdin));;
  let res := shell E d cmd stdin in
  if fail_on_error && negb (exit_code res =? 0)
  then raise (RunShellCmdError cmd (exit_code res))
  else ret res.

Definition getcwd (E : env) : M state string :=
  match getcwd_error E with
  | Some m => raise (OSError m)
  | None => gets cwd
  end.

Definition chdir (E : env) (path : string) : M state unit :=
  match chdir_error E path with
  | Some m => raise (OSError m)
  | None => d ← gets cwd; modify (set_cwd (path_join d [path]))
  end.

(** [os.path.join(a, ...)] where [a] comes from the easyconfig. *)
Definition path_join_val (a : val) (p : list string) : M state string :=
  match a with
  | VStr s => ret (path_join s p)
  | _ => raise (TypeError "expected str, bytes or os.PathLike object")
  end.

(** *** The class *)

(** The methods defined in the body of the class, in the order of the
    source. *)
Definition defined_methods : list string :=
  ["extra_options"; "__init__"; "configure_step"; "sanity_check_step";
   "make_module_step"; "make_module_extra"].

Definition extra_options (E : env) : gmap string opt_spec :=
  let extra_vars : gmap string opt_spec :=
    {[ "paranrn" := {| opt_default := VBool true;
                       opt_descr := "Enable support for distributed simulations.";
                       opt_category := CUSTOM |} ]} in
  Framework.extra_options (CMakeMake E) (Some extra_vars).

Definition __init__ (E : env) : M state unit :=
  init (CMakeMake E);;
  modify (set_with_python false);;
  modify (set_pylibdir "UNKNOWN").

(** The body of [configure_step] up to the call of the parent's method. *)
Definition configure_options (E : env) : M state unit :=
  (* enable support for distributed simulations if desired *)
  paranrn ← cfg_getitem "paranrn";
  (if val_truthy paranrn
   then cfg_update "configopts" "-DNRN_ENABLE_MPI=ON"
   else cfg_update "configopts" "-DNRN_ENABLE_MPI=OFF");;
  (* specify path to InterViews if it is available as a dependency *)
  let interviews_root := get_software_root E "InterViews" in
  (if truthy interviews_root
   then cfg_update "configopts"
          ("-DIV_DIR=" +:+ fstr interviews_root +:+ " -DNRN_ENABLE_INTERVIEWS=ON")
   else cfg_update "configopts" "-DNRN_ENABLE_INTERVIEWS=OFF");;
  (* optionally enable support for Python as alternative interpreter *)
  let python_root := get_software_root E "Python" in
  (if truthy python_root
   then
     modify (set_with_python true);;
     cfg_update "configopts"
       ("-DNRN_ENABLE_PYTHON=ON -DPYTHON_EXECUTABLE=" +:+ fstr python_root +:+ "/bin/python");;
     d ← gets installdir;
     cfg_update "configopts"
       ("-DNRN_ENABLE_MODULE_INSTALL=ON " +:+
        "-DNRN_MODULE_INSTALL_OPTIONS='--prefix=" +:+ d +:+ "'")
   else cfg_update "configopts" "-DNRN_ENABLE_PYTHON=OFF");;
  (* determine Python lib dir *)
  p ← lift (det_pylibdir E);
  modify (set_pylibdir p).

Definition configure_step (E : env) : M state val :=
  configure_options E;;
  (* complete configuration with configure_method of parent *)
  Framework.configure_step (CMakeMake E);;
  ret VNone.

(** *** [sanity_check_step] *)

Definition binaries : list string :=
  ["mkthreadsafe"; "modlunit"; "neurondemo"; "nocmodl"; "nrngui"; "nrniv";
   "nrnivmodl"; "nrnmech_makefile"; "nrnpyenv.sh"; "set_nrnpyenv.sh";
   "sortspike"].

Definition libs : list string := ["nrniv"; "rxdmath"].

(** The files and directories handed to the parent's sanity check. *)
Definition sanity_check_paths (E : env) (s : state) : custom_paths :=
  let shlib_ext := get_shared_lib_ext E in
  let sanity_check_dirs := ["include"; "share/nrn"] in
  let sanity_check_dirs :=
    if with_python s then
      let dirs1 := sanity_check_dirs ++ [path_join "lib" ["python"]] in
      if LooseVersion_lt E (version s) "8"
      then dirs1 ++ [path_join "lib" ["python%(pyshortver)s"; "site-packages"]]
      else dirs1
    else sanity_check_dirs in
  let sanity_check_files := map (fun x => path_join "bin" [x]) binaries in
  let sanity_check_files :=
    sanity_check_files ++
    map (fun soname => "lib/lib" +:+ soname +:+ "." +:+ shlib_ext) libs in
  {| files := sanity_check_files; dirs := sanity_check_dirs |}.

(** [try: fake_mod_data = self.load_fake_module()  except EasyBuildError];
    [None] when the variable was left unbound. *)
Definition try_load_fake_module (E : env) : M state (option val) :=
  try_except (d ← load_fake_module (CMakeMake E); ret (Some d))
    is_EasyBuildError (fun _ => ret None).

Definition neurondemo_input : string :=
  join (String newline "") [
    "demo(3) // load the pyramidal cell model.";
    "init()  // initialise the model";
    "t       // should be zero";
    "soma.v  // will print -65";
    "run()   // run the simulation";
    "t       // should be 5, indicating that 5ms were simulated";
    "soma.v  // will print a value other than -65, indicating that the simulation was executed";
    "quit()"
  ].

Definition validate_regexp_source : string :=
  "^\s+-65\s*\n\s+5\s*\n\s+-68.134337".

(** [re.compile(pattern, flags)] *)
Definition re_compile (pattern : string) : M state Re.pattern :=
  match Re.compile pattern with
  | Some p => ret p
  | None => raise (ReError pattern)
  end.

(** test NEURON demo *)
Definition validate_demo (E : env) : M state unit :=
  let inp := neurondemo_input in
  res ← run_shell_cmd E "neurondemo" (Some inp) false;
  validate_regexp ← re_compile validate_regexp_source;
  if negb (exit_code res =? 0) || negb (Re.search true validate_regexp (output res))
  then raise (EasyBuildError "Validation of NEURON demo run failed.")
  else ret tt.

(** The integer that [range(0, nproc)] and the format [d] take out of
    [nproc]; a truth value counts as 1 or 0. *)
Definition as_int (nproc : val) : M state Z :=
  match nproc with
  | VInt n => ret n
  | VBool b => ret (if b then 1 else 0)
  | _ => raise (TypeError "object cannot be interpreted as an integer")
  end.

(** [f"I am {i:d} of {nproc:d}"] *)
Definition rank_line (i nproc : Z) : string :=
  "I am " +:+ format_d i +:+ " of " +:+ format_d nproc.

(** The loop over the ranks; it returns the final value of [valid]. *)
Fixpoint ranks_valid (nproc : Z) (out : string) (ranks : list Z)
    : M state bool :=
  match ranks with
  | [] => ret true
  | i :: r =>
      validate_regexp ← re_compile (rank_line i nproc);
      if negb (Re.search false validate_regexp out)
      then ret false
      else ranks_valid nproc out r
  end.

(** the parallel hello world *)
Definition validate_parallel (E : env) : M state unit :=
  if val_truthy (build_option E "mpi_tests") then
    nproc ← cfg_getitem "parallel";
    res ← try_except
      (cwd0 ← getcwd E;
       start_dir ← cfg_getitem "start_dir";
       dir ← path_join_val start_dir ["src"; "parallel"];
       chdir E dir;;
       cmd ← lift (mpi_cmd_for E "nrniv -mpi test0.hoc" nproc);
       res ← run_shell_cmd E cmd None false;
       chdir E cwd0;;
       ret res)
      is_OSError
      (fun err => raise (EasyBuildError
                           ("Failed to run parallel hello world: " +:+ exc_str err)));
    n ← as_int nproc;
    valid ← ranks_valid n (output res) (range n);
    if negb (exit_code res =? 0) || negb valid
    then raise (EasyBuildError "Validation of parallel hello world run failed.")
    else ret tt
  else ret tt.

Definition test_python (E : env) : M state unit :=
  wp ← gets with_python;
  if (wp : bool) then
    let cmd := "python -c 'import neuron; neuron.test()'" in
    _ ← run_shell_cmd E cmd None true; ret tt
  else ret tt.

(** [self.clean_up_fake_module(fake_mod_data)] *)
Definition cleanup (E : env) (fake_mod_data : option val) : M state unit :=
  match fake_mod_data with
  | Some d => clean_up_fake_module (CMakeMake E) d
  | None => raise (UnboundLocalError "fake_mod_data")
  end.

Definition sanity_check_step (E : env) : M state unit :=
  paths ← gets (sanity_check_paths E);
  Framework.sanity_check_step (CMakeMake E) (Some paths);;
  fake_mod_data ← try_load_fake_module E;
  validate_demo E;;
  validate_parallel E;;
  test_python E;;
  cleanup E fake_mod_data.

(** *** The module file *)

Definition PYTHONPATH : string := "PYTHONPATH".

Definition set_PYTHONPATH (paths : list string) : M state unit :=
  modify (fun s => set_module_load_environment
                     (<[PYTHONPATH := paths]> (module_load_environment s)) s).

Definition make_module_step (E : env) : M state val :=
  wp ← gets with_python;
  (if (wp : bool) then
     (* location of neuron python package *)
     v ← gets version;
     if LooseVersion_lt E v "8"
     then set_PYTHONPATH [path_join "lib" ["python*"; "site-packages"]]
     else set_PYTHONPATH [path_join "lib" ["python"]]
   else ret tt);;
  Framework.make_module_step (CMakeMake E).

Definition compiler_vars : list string :=
  ["CC"; "CXX"; "MPICC"; "MPICXX"; "MPICH_CC"; "MPICH_CXX"].

(** One round of the loop of [make_module_extra] on the text so far. *)
Definition add_compiler_var (E : env) (txt var : string) : string :=
  let val := getenv E var in
  if truthy val
  then txt +:+ set_environment E var (fstr val)
  else txt.

Definition make_module_extra (E : env) : M state string :=
  txt ← Framework.make_module_extra (CMakeMake E);
  (* we need to make sure the correct compiler is set in the environment,
     since NEURON features compilation at runtime *)
  ret (fold_left (add_compiler_var E) compiler_vars txt).

(** The class as seen by its callers. *)
Definition class (E : env) : easyblock_class state :=
  {| Framework.extra_options := fun _ => extra_options E;
     init := __init__ E;
     prepare_step := prepare_step (CMakeMake E);
     Framework.configure_step := configure_step E;
     Framework.sanity_check_step := fun _ => sanity_check_step E;
     Framework.make_module_step := make_module_step E;
     Framework.make_module_extra := make_module_extra E;
     load_fake_module := load_fake_module (CMakeMake E);
     clean_up_fake_module := clean_up_fake_module (CMakeMake E);
     other_step := other_step (CMakeMake E) |}.

End EB_NEURON.

(** ** easyblocks/generic/juliabundle.py *)

Module JuliaBundle.
Import Py Eff Framework.

(** The object: the easyconfig and its templating switch, the attributes
    that the methods read or write (the two [julia_project_*] attributes
    do not exist before [prepare_step] sets them) and the directories
    created so far (latest last). *)
Record state := {
  cfg : gmap string val;
  enable_templating : bool;
  installdir : string;
  name : string;
  julia_project_toml : option string;
  julia_project_env : option string;
  dirs_made : list string;
}.

Definition set_cfg (c : gmap string val) (s : state) : state :=
  {| cfg := c; enable_templating := enable_templating s;
     installdir := installdir s; name := name s;
     julia_project_toml := julia_project_toml s;
     julia_project_env := julia_project_env s; dirs_made := dirs_made s |}.

Definition set_enable_templating (b : bool) (s : state) : state :=
  {| cfg := cfg s; enable_templating := b;
     installdir := installdir s; name := name s;
     julia_project_toml := julia_project_toml s;
     julia_project_env := julia_project_env s; dirs_made := dirs_made s |}.

Definition set_julia_project_toml (p : string) (s : state) : state :=
  {| cfg := cfg s; enable_templating := enable_templating s;
     installdir := installdir s; name := name s;
     julia_project_toml := Some p;
     julia_project_env := julia_project_env s; dirs_made := dirs_made s |}.

Definition set_julia_project_env (p : string) (s : state) : state :=
  {| cfg := cfg s; enable_templating := enable_templating s;
     installdir := installdir s; name := name s;
     julia_project_toml := julia_project_toml s;
     julia_project_env := Some p; dirs_made := dirs_made s |}.

Definition add_dir (p : string) (s : state) : state :=
  {| cfg := cfg s; enable_templating := enable_templating s;
     installdir := installdir s; name := name s;
     julia_project_toml := julia_project_toml s;
     julia_project_env := julia_project_env s;
     dirs_made := dirs_made s ++ [p] |}.

(** What the surroundings answer.  [JuliaPackage_extra_options],
    [EXTS_FILTER_JULIA_PACKAGES] and [JULIA_PATHS_SOFT_INIT] are what
    [juliabundle.py] imports from [juliapackage.py]. *)
Record env := {
  get_software_root : string -> option string;
  get_software_version : string -> option string;
  (** which paths exist before the methods run *)
  path_exists : string -> bool;
  (** the error of the operating system, if any, on creating a directory *)
  mkdir_error : string -> option string;
  resolve_template : val -> val;
  (** the module generator *)
  SYNTAX : option string;
  append_paths : string -> list string -> string;
  JuliaPackage_extra_options : option (gmap string opt_spec) -> gmap string opt_spec;
  EXTS_FILTER_JULIA_PACKAGES : val;
  JULIA_PATHS_SOFT_INIT : gmap string string;
  Bundle : easyblock_class state;
}.

(** *** Calls into the framework *)

(** [self.cfg[key]]: the value is resolved unless templating is off. *)
Definition cfg_getitem (E : env) (key : string) : M state val :=
  c ← gets cfg;
  v ← lift (getitem c key);
  t ← gets enable_templating;
  ret (if (t : bool) then resolve_template E v else v).

(** [self.cfg[key] = v] *)
Definition cfg_setitem (key : string) (v : val) : M state unit :=
  c ← gets cfg; modify (set_cfg (<[key := v]> c)).

(** [with self.cfg.disable_templating(): body] *)
Definition disable_templating {A} (body : M state A) : M state A :=
  old ← gets enable_templating;
  modify (set_enable_templating false);;
  try_finally body (modify (set_enable_templating old)).

(** [os.path.exists(path)]: the path was there from the start or has been
    created since. *)
Definition exists_now (E : env) (s : state) (path : string) : bool :=
  path_exists E path || bool_decide (path ∈ dirs_made s).

(** The calls of [os.mkdir] that [os.makedirs] makes, one directory after
    the other; the first error ends them, and what was created before it
    stays. *)
Fixpoint make_each (E : env) (path : string) (todo : list string)
    : M state unit :=
  match todo with
  | [] => ret tt
  | d :: r =>
      match mkdir_error E d with
      | Some m => raise (EasyBuildError
                           ("Failed to create directory " +:+ path +:+ ": " +:+ m))
      | None => modify (add_dir d);; make_each E path r
      end
  end.

(** [mkdir(path, parents=True)] for an absolute [path]: nothing is done
    when the path exists; otherwise the missing parents and the directory
    are created. *)
Definition mkdir (E : env) (path : string) : M state unit :=
  s ← gets id;
  if exists_now E s path then ret tt
  else make_each E path (makedirs (exists_now E s) path).

(** The dictionary behind [self.cfg['exts_default_options']]. *)
Definition exts_default_options (E : env) : M state (gmap string val) :=
  v ← cfg_getitem E "exts_default_options";
  match v with
  | VDict d => ret d
  | _ => raise (TypeError "argument is not a dictionary")
  end.

(** [self.cfg['exts_default_options'][key] = v], with templating off: the
    dictionary of the easyconfig itself is updated. *)
Definition set_exts_default_option (E : env) (key : string) (v : val)
    : M state unit :=
  d ← exts_default_options E;
  cfg_setitem "exts_default_options" (VDict (<[key := v]> d)).

(** *** The class *)

(** The methods defined in the body of the class, in the order of the
    source. *)
Definition defined_methods : list string :=
  ["extra_options"; "__init__"; "prepare_step"; "make_module_extra";
   "sanity_check_step"].

Definition extra_options (E : env) (extra_vars : option (gmap string opt_spec))
    : gmap string opt_spec :=
  let extra_vars := match extra_vars with None => ∅ | Some v => v end in
  (* combine custom easyconfig parameters of Bundle & JuliaPackage *)
  let extra_vars := Framework.extra_options (Bundle E) (Some extra_vars) in
  JuliaPackage_extra_options E (Some extra_vars).

(** [JuliaPackage.extra_options().keys()] *)
Definition jlpkg_keys (E : env) : list string :=
  (map_to_list (JuliaPackage_extra_options E None)).*1.

Definition default_sources : val :=
  VList [VDict (<["download_filename" := VStr "v%(version)s.tar.gz"]>
                (<["filename" := VStr "%(name)s-%(version)s.tar.gz"]> ∅))].

(** One round of the loop of [__init__]. *)
Definition default_option_from_cfg (E : env) (key : string) : M state unit :=
  d ← exts_default_options E;
  if bool_decide (key ∈ dom d) then ret tt
  else v ← cfg_getitem E key; set_exts_default_option E key v.

Definition __init__ (E : env) : M state unit :=
  init (Bundle E);;
  cfg_setitem "exts_defaultclass" (VStr "JuliaPackage");;
  cfg_setitem "exts_filter" (EXTS_FILTER_JULIA_PACKAGES E);;
  (* need to disable templating to ensure that actual value for
     exts_default_options is updated... *)
  disable_templating (
    (* set default options for extensions according to relevant top-level
       easyconfig parameters *)
    for_each (jlpkg_keys E) (default_option_from_cfg E);;
    d ← exts_default_options E;
    if bool_decide ("sources" ∈ dom d) then ret tt
    else set_exts_default_option E "sources" default_sources).

(** The format [v{}.{}] filled with the first two of [julia_version]. *)
Definition julia_env_dir (julia_version : list string) : M state string :=
  match julia_version with
  | major :: minor :: _ => ret ("v" +:+ major +:+ "." +:+ minor)
  | _ => raise (IndexError "Replacement index out of range for positional args tuple")
  end.

Definition prepare_step (E : env) : M state unit :=
  Framework.prepare_step (Bundle E);;
  match get_software_root E "Julia" with
  | None => raise (EasyBuildError "Julia not included as dependency!")
  | Some _ => ret tt
  end;;
  (* Location of project environments in install dir *)
  julia_version ←
    match get_software_version E "Julia" with
    | Some v => ret (split "." v)
    | None => raise (AttributeError "'NoneType' object has no attribute 'split'")
    end;
  env_dir ← julia_env_dir julia_version;
  let toml := path_join "environments" [env_dir; "Project.toml"] in
  modify (set_julia_project_toml toml);;
  d ← gets installdir;
  let project_env := dirname (path_join d [toml]) in
  modify (set_julia_project_env project_env);;
  mkdir E project_env.

(** [self.julia_project_toml]; the attribute may not exist yet. *)
Definition get_julia_project_toml : M state string :=
  t ← gets julia_project_toml;
  match t with
  | Some p => ret p
  | None => raise (AttributeError
                     "'JuliaBundle' object has no attribute 'julia_project_toml'")
  end.

Definition make_module_extra (E : env) : M state string :=
  mod_ ← Framework.make_module_extra (Bundle E);
  mod_ ← (if truthy (SYNTAX E) then
           match JULIA_PATHS_SOFT_INIT E !! fstr (SYNTAX E) with
           | Some snippet => ret (mod_ +:+ snippet)
           | None => raise (KeyError (fstr (SYNTAX E)))
           end
         else ret mod_);
  let mod_ := mod_ +:+ append_paths E "JULIA_DEPOT_PATH" [""] in
  toml ← get_julia_project_toml;
  let mod_ := mod_ +:+ append_paths E "JULIA_LOAD_PATH" [toml] in
  ret mod_.

Definition sanity_check_step (E : env) : M state unit :=
  n ← gets name;
  let custom_paths :=
    {| files := []; dirs := [path_join "packages" [n]] |} in
  Framework.sanity_check_step (Bundle E) (Some custom_paths).

(** The class as seen by its callers. *)
Definition class (E : env) : easyblock_class state :=
  {| Framework.extra_options := extra_options E;
     init := __init__ E;
     Framework.prepare_step := prepare_step E;
     configure_step := configure_step (Bundle E);
     Framework.sanity_check_step := fun _ => sanity_check_step E;
     make_module_step := make_module_step (Bundle E);
     Framework.make_module_extra := make_module_extra E;
     load_fake_module := load_fake_module (Bundle E);
     clean_up_fake_module := clean_up_fake_module (Bundle E);
     other_step := other_step (Bundle E) |}.

End JuliaBundle.

(** ** Sample surroundings, for evaluating the methods *)

Module Sample.
Import Py Eff Framework.

(** A parent class that does nothing. *)
Definition idle_class (S : Type) : easyblock_class S :=
  {| extra_options := fun o => default ∅ o;
     init := ret tt;
     prepare_step := ret tt;
     configure_step := ret VNone;
     sanity_check_step := fun _ => ret tt;
     make_module_step := ret VNone;
     make_module_extra := ret "";
     load_fake_module := ret VNone;
     clean_up_fake_module := fun _ => ret tt;
     other_step := fun _ => ret VNone |}.

Definition nl : string := String newline "".

(** An order on versions that compares the digits before the first dot
    as numbers; enough for the versions of the samples. *)
Definition major_of (v : string) : Z :=
  match split "." v with
  | m :: _ =>
      match NilEmpty.int_of_string m with
      | Some i => Z.of_int i
      | None => 0
      end
  | [] => 0
  end.

Definition major_lt (a b : string) : bool := major_of a <? major_of b.

Definition neuron_output : string :=
  "	0 " +:+ nl +:+ "	-65 " +:+ nl +:+ "	5 " +:+ nl +:+ "	-68.134337 " +:+ nl.

Definition neuron_shell (cwd cmd : string) (stdin : option string)
    : RunShellCmdResult :=
  if String.eqb cmd "neurondemo"
  then {| exit_code := 0; output := "  0 " +:+ nl +:+ "  -65 " +:+ nl +:+
                                    "  5 " +:+ nl +:+ "  -68.134337 " +:+ nl |}
  else if String.eqb cmd "mpirun -np 2 nrniv -mpi test0.hoc"
  then {| exit_code := 0; output := "I am 1 of 2" +:+ nl +:+ "I am 0 of 2" +:+ nl |}
  else {| exit_code := 0; output := "" |}.

Definition neuron_env : EB_NEURON.env :=
  {| EB_NEURON.get_software_root := fun n =>
       if String.eqb n "Python" then Some "/sw/Python/3.11" else None;
     EB_NEURON.det_pylibdir := inr "lib/python3.11/site-packages";
     EB_NEURON.get_shared_lib_ext := "so";
     EB_NEURON.build_option := fun k =>
       if String.eqb k "mpi_tests" then VBool true else VNone;
     EB_NEURON.shell := neuron_shell;
     EB_NEURON.getcwd_error := None;
     EB_NEURON.chdir_error := fun _ => None;
     EB_NEURON.mpi_cmd_for := fun cmd n =>
       match n with
       | VInt n => inr ("mpirun -np " +:+ format_d n +:+ " " +:+ cmd)
       | _ => inl (EasyBuildError "number of processes is not an integer")
       end;
     EB_NEURON.LooseVersion_lt := major_lt;
     EB_NEURON.getenv := fun v =>
       if String.eqb v "CC" then Some "gcc"
       else if String.eqb v "MPICC" then Some "mpicc"
       else if String.eqb v "CXX" then Some ""
       else None;
     EB_NEURON.set_environment := fun var val =>
       "setenv " +:+ var +:+ " " +:+ val +:+ nl;
     EB_NEURON.CMakeMake := idle_class EB_NEURON.state |}.

(** The same without the MPI tests. *)
Definition neuron_env_no_mpi : EB_NEURON.env :=
  {| EB_NEURON.get_software_root := EB_NEURON.get_software_root neuron_env;
     EB_NEURON.det_pylibdir := EB_NEURON.det_pylibdir neuron_env;
     EB_NEURON.get_shared_lib_ext := "so";
     EB_NEURON.build_option := fun _ => VBool false;
     EB_NEURON.shell := neuron_shell;
     EB_NEURON.getcwd_error := None;
     EB_NEURON.chdir_error := fun _ => None;
     EB_NEURON.mpi_cmd_for := EB_NEURON.mpi_cmd_for neuron_env;
     EB_NEURON.LooseVersion_lt := major_lt;
     EB_NEURON.getenv := EB_NEURON.getenv neuron_env;
     EB_NEURON.set_environment := EB_NEURON.set_environment neuron_env;
     EB_NEURON.CMakeMake := idle_class EB_NEURON.state |}.

Definition neuron_cfg : gmap string val :=
  <["paranrn" := VBool true]>
  (<["parallel" := VInt 2]>
  (<["start_dir" := VStr "/build/nrn-8.2.2"]>
  (<["configopts" := VList [VStr "-DCMAKE_BUILD_TYPE=Release"]]> ∅))).

Definition neuron_state : EB_NEURON.state :=
  {| EB_NEURON.cfg := neuron_cfg;
     EB_NEURON.installdir := "/sw/NEURON/8.2.2";
     EB_NEURON.version := "8.2.2";
     EB_NEURON.with_python := false;
     EB_NEURON.pylibdir := "UNKNOWN";
     EB_NEURON.module_load_environment := ∅;
     EB_NEURON.cwd := "/build";
     EB_NEURON.shell_log := [] |}.

Definition julia_option_keys : gmap string opt_spec :=
  <["download_pkg_deps" := {| opt_default := VBool false;
                              opt_descr := "Let Julia download and bundle all needed dependencies";
                              opt_category := CUSTOM |}]> ∅.

Definition julia_env (root : option string) : JuliaBundle.env :=
  {| JuliaBundle.get_software_root := fun n =>
       if String.eqb n "Julia" then root else None;
     JuliaBundle.get_software_version := fun n =>
       if String.eqb n "Julia" then Some "1.9.3" else None;
     JuliaBundle.path_exists := fun p =>
       existsb (String.eqb p) ["/"; "/sw"; "/sw/JuliaBundle"; "/sw/JuliaBundle/1.0"];
     JuliaBundle.mkdir_error := fun _ => None;
     JuliaBundle.resolve_template := fun v => v;
     JuliaBundle.SYNTAX := Some "Lua";
     JuliaBundle.append_paths := fun var paths =>
       "append_path(" +:+ var +:+ ", " +:+ join ":" paths +:+ ")" +:+ nl;
     JuliaBundle.JuliaPackage_extra_options := fun o =>
       julia_option_keys ∪ default ∅ o;
     JuliaBundle.EXTS_FILTER_JULIA_PACKAGES := VStr "julia -e 'using %(ext_name)s'";
     JuliaBundle.JULIA_PATHS_SOFT_INIT :=
       <["Lua" := "-- soft init" +:+ nl]> (<["Tcl" := "# soft init" +:+ nl]> ∅);
     JuliaBundle.Bundle := idle_class JuliaBundle.state |}.

Definition julia_cfg : gmap string val :=
  <["exts_default_options" := VDict (<["source_urls" := VList [VStr "https://github.com/"]]> ∅)]>
  (<["download_pkg_deps" := VBool false]>
  (<["exts_defaultclass" := VNone]>
  (<["exts_filter" := VNone]> ∅))).

Definition julia_state : JuliaBundle.state :=
  {| JuliaBundle.cfg := julia_cfg;
     JuliaBundle.enable_templating := true;
     JuliaBundle.installdir := "/sw/JuliaBundle/1.0";
     JuliaBundle.name := "JuliaBundle";
     JuliaBundle.julia_project_toml := None;
     JuliaBundle.julia_project_env := None;
     JuliaBundle.dirs_made := [] |}.

End Sample.

(** ** The properties, in the words of the specification *)

Module Spec.
Import Py Eff Framework.

(** The flag for MPI, by the truth value of [paranrn]. *)
Definition mpi_flag (paranrn : bool) : string :=
  if paranrn then "-DNRN_ENABLE_MPI=ON" else "-DNRN_ENABLE_MPI=OFF".

(** The flag for InterViews, by its installation root when it is a
    dependency. *)
Definition interviews_flag (root : option string) : string :=
  match root with
  | Some (String _ _ as r) => "-DIV_DIR=" +:+ r +:+ " -DNRN_ENABLE_INTERVIEWS=ON"
  | _ => "-DNRN_ENABLE_INTERVIEWS=OFF"
  end.

(** The flags for Python, by its installation root when it is a
    dependency. *)
Definition python_flags (root : option string) (installdir : string)
    : list string :=
  match root with
  | Some (String _ _ as r) =>
      ["-DNRN_ENABLE_PYTHON=ON -DPYTHON_EXECUTABLE=" +:+ r +:+ "/bin/python";
       "-DNRN_ENABLE_MODULE_INSTALL=ON -DNRN_MODULE_INSTALL_OPTIONS='--prefix="
         +:+ installdir +:+ "'"]
  | _ => ["-DNRN_ENABLE_PYTHON=OFF"]
  end.

(** The values that an option parameter such as [configopts] takes: a
    string of options or a list of them. *)
Definition option_value (v : val) : Prop :=
  (∃ s, v = VStr s) ∨ (∃ l, v = VList l).

(** The text by which a string of options grows when [items] are
    appended to it: each item between two spaces. *)
Definition spaced (items : list string) : string :=
  foldr (λ item rest, " " +:+ item +:+ " " +:+ rest) "" items.

(** The option parameter [v] after [items] have been appended to it, one
    after the other. *)
Definition extended (v : val) (items : list string) : val :=
  match v with
  | VStr s => VStr (s +:+ spaced items)
  | VList l => VList (l ++ (VStr <$> items))
  | _ => v
  end.

(** The state in which [EB_NEURON.configure_step] leaves the options:
    [opts] is the value of [configopts] before, [paranrn] the value of
    the parameter. *)
Definition neuron_configured (E : EB_NEURON.env) (st : EB_NEURON.state)
    (paranrn : val) (opts : val) : EB_NEURON.state :=
  let python_root := EB_NEURON.get_software_root E "Python" in
  let flags :=
    [mpi_flag (val_truthy paranrn);
     interviews_flag (EB_NEURON.get_software_root E "InterViews")] ++
    python_flags python_root (EB_NEURON.installdir st) in
  EB_NEURON.set_cfg
    (<["configopts" := extended opts flags]> (EB_NEURON.cfg st))
    (if truthy python_root then EB_NEURON.set_with_python true st else st).

(** The output of [neurondemo] matches the regular expression of
    [sanity_check_step], which is compiled with [re.M]. *)
Definition demo_matches (out : string) : bool :=
  match Re.compile EB_NEURON.validate_regexp_source with
  | Some p => Re.search true p out
  | None => false
  end.

(** The default options of the extensions after the keys [keys] have been
    filled in from the easyconfig [cfg]: a key that is present keeps its
    value, an absent one takes the value of the easyconfig parameter. *)
Definition fill_defaults (cfg : gmap string val) (keys : list string)
    (d : gmap string val) : gmap string val :=
  fold_left
    (λ d k, if bool_decide (k ∈ dom d) then d
            else match cfg !! k with
                 | Some v => <[k := v]> d
                 | None => d
                 end)
    keys d.

(** The default [sources] entry is added when there is none. *)
Definition with_default_sources (d : gmap string val) : gmap string val :=
  if bool_decide ("sources" ∈ dom d) then d
  else <["sources" := JuliaBundle.default_sources]> d.


(** The strings of [l] one after the other. *)
Definition concat_all (l : list string) : string :=
  foldr String.append "" l.

(** [needle] occurs in [s]. *)
Definition substring (needle s : string) : Prop :=
  ∃ pre post, s = pre +:+ needle +:+ post.


(** The character [/] occurs in [s]. *)
Fixpoint has_sep (s : string) : bool :=
  match s with
  | EmptyString => false
  | String a r => Ascii.eqb a sep || has_sep r
  end.

(** [p] is the path [q] or one of the directories above it, as a text:
    [q] begins with [p]. *)
Definition path_prefix (p q : string) : Prop := ∃ rest, q = p +:+ rest.

(** The object [s] after the directories [new] have been created, one
    after the other. *)
Definition with_dirs (new : list string) (s : JuliaBundle.state)
    : JuliaBundle.state :=
  {| JuliaBundle.cfg := JuliaBundle.cfg s;
     JuliaBundle.enable_templating := JuliaBundle.enable_templating s;
     JuliaBundle.installdir := JuliaBundle.installdir s;
     JuliaBundle.name := JuliaBundle.name s;
     JuliaBundle.julia_project_toml := JuliaBundle.julia_project_toml s;
     JuliaBundle.julia_project_env := JuliaBundle.julia_project_env s;
     JuliaBundle.dirs_made := JuliaBundle.dirs_made s ++ new |}.

End Spec.

(** ** Further properties: what they are stated with *)

Module Extra.
Import Py Eff Framework.

(** Surroundings of NEURON that differ from [Sample.neuron_env] in the
    MPI tests, the working directory calls, the MPI command, the shell
    and the parent class. *)
Definition neuron_env_with (mpi_tests : bool) (getcwd_err : option string)
    (chdir_err : string -> option string)
    (mpi : string -> val -> exc + string)
    (sh : string -> string -> option string -> RunShellCmdResult)
    (parent : easyblock_class EB_NEURON.state) : EB_NEURON.env :=
  {| EB_NEURON.get_software_root := EB_NEURON.get_software_root Sample.neuron_env;
     EB_NEURON.det_pylibdir := EB_NEURON.det_pylibdir Sample.neuron_env;
     EB_NEURON.get_shared_lib_ext := "so";
     EB_NEURON.build_option := fun k =>
       if String.eqb k "mpi_tests" then VBool mpi_tests else VNone;
     EB_NEURON.shell := sh;
     EB_NEURON.getcwd_error := getcwd_err;
     EB_NEURON.chdir_error := chdir_err;
     EB_NEURON.mpi_cmd_for := mpi;
     EB_NEURON.LooseVersion_lt := Sample.major_lt;
     EB_NEURON.getenv := EB_NEURON.getenv Sample.neuron_env;
     EB_NEURON.set_environment := EB_NEURON.set_environment Sample.neuron_env;
     EB_NEURON.CMakeMake := parent |}.

(** A parent class whose fake module fails to load. *)
Definition no_fake_module_class : easyblock_class EB_NEURON.state :=
  {| extra_options := fun o => default ∅ o;
     init := ret tt;
     prepare_step := ret tt;
     configure_step := ret VNone;
     sanity_check_step := fun _ => ret tt;
     make_module_step := ret VNone;
     make_module_extra := ret "";
     load_fake_module := raise (EasyBuildError "Can't load fake module");
     clean_up_fake_module := fun _ => ret tt;
     other_step := fun _ => ret VNone |}.

(** A shell in which every command fails. *)
Definition failing_shell (cwd cmd : string) (stdin : option string)
    : RunShellCmdResult :=
  {| exit_code := 1; output := "" |}.

(** Surroundings of JuliaBundle that differ from [Sample.julia_env] in the
    version of Julia, the syntax of the module generator and the snippets. *)
Definition julia_env_with (version : option string) (syntax : option string)
    (soft_init : gmap string string) : JuliaBundle.env :=
  {| JuliaBundle.get_software_root :=
       JuliaBundle.get_software_root (Sample.julia_env (Some "/sw/Julia"));
     JuliaBundle.get_software_version := fun n =>
       if String.eqb n "Julia" then version else None;
     JuliaBundle.path_exists :=
       JuliaBundle.path_exists (Sample.julia_env None);
     JuliaBundle.mkdir_error := fun _ => None;
     JuliaBundle.resolve_template := fun v => v;
     JuliaBundle.SYNTAX := syntax;
     JuliaBundle.append_paths :=
       JuliaBundle.append_paths (Sample.julia_env None);
     JuliaBundle.JuliaPackage_extra_options :=
       JuliaBundle.JuliaPackage_extra_options (Sample.julia_env None);
     JuliaBundle.EXTS_FILTER_JULIA_PACKAGES :=
       JuliaBundle.EXTS_FILTER_JULIA_PACKAGES (Sample.julia_env None);
     JuliaBundle.JULIA_PATHS_SOFT_INIT := soft_init;
     JuliaBundle.Bundle := Sample.idle_class JuliaBundle.state |}.

(** The sample state of NEURON with another value of [configopts]. *)
Definition neuron_state_with_configopts (v : val) : EB_NEURON.state :=
  EB_NEURON.set_cfg (<["configopts" := v]> Sample.neuron_cfg)
    Sample.neuron_state.



(** The sample state of NEURON with another number of processes. *)
Definition neuron_state_with_parallel (n : Z) : EB_NEURON.state :=
  EB_NEURON.set_cfg (<["parallel" := VInt n]> Sample.neuron_cfg)
    Sample.neuron_state.

(** The working directory of the sample state can be left but not
    entered again. *)
Definition no_way_back (path : string) : option string :=
  if String.eqb path "/build" then Some "No such file or directory" else None.

(** The sample state of JuliaBundle with [exts_default_options] set to
    [None]. *)
Definition julia_state_no_options : JuliaBundle.state :=
  JuliaBundle.set_cfg (<["exts_default_options" := VNone]> Sample.julia_cfg)
    Sample.julia_state.

(** The strings whose characters are all in [cs]. *)
Fixpoint all_in (cs : Re.charset) (s : string) : bool :=
  match s with
  | EmptyString => true
  | String c r => Re.cs_mem cs c && all_in cs r
  end.

(** The strings of whitespace, [\s*]. *)
Definition spaces : string -> bool := all_in Re.Space.

(** The end of a line. *)
Definition nl : string := String newline "".

(** The character before the position after [s], when [prev] is the one
    before [s]. *)
Fixpoint last_char (prev : option ascii) (s : string) : option ascii :=
  match s with
  | EmptyString => prev
  | String c r => last_char (Some c) r
  end.

(** The words that a pattern without [^] matches as a whole. *)
Fixpoint accepts (p : Re.pattern) (w : string) : Prop :=
  match p with
  | [] => w = ""
  | Re.Bol :: _ => False
  | Re.Atom cs Re.One :: r =>
      ∃ c w', w = String c w' ∧ Re.cs_mem cs c = true ∧ accepts r w'
  | Re.Atom cs Re.Star :: r =>
      ∃ u w', w = u +:+ w' ∧ all_in cs u = true ∧ accepts r w'
  | Re.Atom cs Re.Plus :: r =>
      ∃ u w', w = u +:+ w' ∧ u ≠ "" ∧ all_in cs u = true ∧ accepts r w'
  end.

Definition bol_free (p : Re.pattern) : bool :=
  forallb (λ it, match it with Re.Bol => false | _ => true end) p.

End Extra.

(** ** Proofs *)

Import Py Eff Framework.

#[local] Arguments String.append !_ _ / : simpl nomatch.

Ltac unfold_monad :=
  unfold mbind, M_bind, mret, M_ret, bind, ret, raise, gets, modify, lift in *.

Lemma bind_returned {S A B} (m : M S A) (k : A → M S B) s a s' :
  m s = (Returned a, s') → (m ≫= k) s = k a s'.
Proof. intros H. unfold mbind, M_bind, bind. by rewrite H. Qed.

Lemma bind_raised {S A B} (m : M S A) (k : A → M S B) s e s' :
  m s = (Raised e, s') → (m ≫= k) s = (Raised e, s').
Proof. intros H. unfold mbind, M_bind, bind. by rewrite H. Qed.

Lemma string_app_assoc (a b c : string) : (a +:+ b) +:+ c = a +:+ (b +:+ c).
Proof. induction a as [|x a IH]; simpl; [done | by rewrite IH]. Qed.

Lemma string_app_nil_r (a : string) : a +:+ "" = a.
Proof. induction a as [|x a IH]; simpl; [done | by rewrite IH]. Qed.

(** *** [EB_NEURON.configure_step] *)

Section neuron_configure.
Variable E : EB_NEURON.env.

Lemma cfg_getitem_Some (st : EB_NEURON.state) key v :
  EB_NEURON.cfg st !! key = Some v →
  EB_NEURON.cfg_getitem key st = (Returned v, st).
Proof.
  intros H. unfold EB_NEURON.cfg_getitem, getitem. unfold_monad.
  by rewrite H.
Qed.

Lemma spaced_app (a b : list string) :
  Spec.spaced (a ++ b) = Spec.spaced a +:+ Spec.spaced b.
Proof.
  induction a as [|x a IH]; [done|].
  change (Spec.spaced ((x :: a) ++ b))
    with (" " +:+ x +:+ " " +:+ Spec.spaced (a ++ b)).
  change (Spec.spaced (x :: a)) with (" " +:+ x +:+ " " +:+ Spec.spaced a).
  rewrite IH. by rewrite !string_app_assoc.
Qed.

Lemma spaced_concat_all (l : list string) :
  Spec.spaced l = Spec.concat_all ((λ item, " " +:+ item +:+ " ") <$> l).
Proof.
  induction l as [|x l IH]; [done|].
  change (Spec.spaced (x :: l)) with (" " +:+ x +:+ " " +:+ Spec.spaced l).
  change (Spec.concat_all ((λ item, " " +:+ item +:+ " ") <$> x :: l))
    with ((" " +:+ x +:+ " ") +:+
          Spec.concat_all ((λ item, " " +:+ item +:+ " ") <$> l)).
  rewrite IH. by rewrite !string_app_assoc.
Qed.

Lemma extended_app (cv : val) (a b : list string) :
  Spec.extended (Spec.extended cv a) b = Spec.extended cv (a ++ b).
Proof.
  destruct cv; try reflexivity; unfold Spec.extended.
  - by rewrite spaced_app, string_app_assoc.
  - by rewrite fmap_app, app_assoc.
Qed.

Lemma extended_option_value (cv : val) (items : list string) :
  Spec.option_value cv → Spec.option_value (Spec.extended cv items).
Proof. intros [[s ->]|[l ->]]; [left|right]; eexists; reflexivity. Qed.

(** [update] on a string or a list of options. *)
Lemma cfg_update_option (st : EB_NEURON.state) key item cv :
  EB_NEURON.cfg st !! key = Some cv →
  Spec.option_value cv →
  EB_NEURON.cfg_update key item st =
  (Returned tt,
   EB_NEURON.set_cfg (<[key := Spec.extended cv [item]]> (EB_NEURON.cfg st)) st).
Proof.
  intros H [[s ->]|[l ->]]; unfold EB_NEURON.cfg_update, update; unfold_monad;
    by rewrite H.
Qed.

Lemma truthy_Some_inv (o : option string) :
  truthy o = true → ∃ a r, o = Some (String a r).
Proof. destruct o as [[|a r]|]; simpl; try discriminate. eauto. Qed.

Lemma truthy_false_cases (o : option string) :
  truthy o = false → o = None ∨ o = Some "".
Proof. destruct o as [[|a r]|]; simpl; try discriminate; auto. Qed.

(** Closed form of the part of [configure_step] before the parent's. *)
Lemma configure_options_spec (st : EB_NEURON.state) v cv :
  EB_NEURON.cfg st !! "paranrn" = Some v →
  EB_NEURON.cfg st !! "configopts" = Some cv →
  Spec.option_value cv →
  EB_NEURON.configure_options E st =
  match EB_NEURON.det_pylibdir E with
  | inl e => (Raised e, Spec.neuron_configured E st v cv)
  | inr p => (Returned tt,
              EB_NEURON.set_pylibdir p (Spec.neuron_configured E st v cv))
  end.
Proof.
  intros Hp Ho Hov.
  unfold EB_NEURON.configure_options, Spec.neuron_configured.
  unfold mbind at 1, M_bind at 1, bind at 1.
  rewrite (cfg_getitem_Some _ _ _ Hp).
  assert (Hstep : ∀ (s : EB_NEURON.state) c item (k : M EB_NEURON.state unit),
    EB_NEURON.cfg s !! "configopts" = Some c →
    Spec.option_value c →
    (EB_NEURON.cfg_update "configopts" item ≫= λ _, k) s =
    k (EB_NEURON.set_cfg
         (<["configopts" := Spec.extended c [item]]> (EB_NEURON.cfg s)) s)).
  { intros s c item k Hs Hc. unfold mbind, M_bind, bind.
    by rewrite (cfg_update_option _ _ _ _ Hs Hc). }
  assert (Hmpi :
    (if val_truthy v
     then EB_NEURON.cfg_update "configopts" "-DNRN_ENABLE_MPI=ON"
     else EB_NEURON.cfg_update "configopts" "-DNRN_ENABLE_MPI=OFF") =
    EB_NEURON.cfg_update "configopts" (Spec.mpi_flag (val_truthy v))).
  { by destruct (val_truthy v). }
  rewrite Hmpi. rewrite (Hstep _ _ _ _ Ho Hov).
  set (iv := EB_NEURON.get_software_root E "InterViews").
  assert (Hiv :
    (if truthy iv
     then EB_NEURON.cfg_update "configopts"
            ("-DIV_DIR=" +:+ fstr iv +:+ " -DNRN_ENABLE_INTERVIEWS=ON")
     else EB_NEURON.cfg_update "configopts" "-DNRN_ENABLE_INTERVIEWS=OFF") =
    EB_NEURON.cfg_update "configopts" (Spec.interviews_flag iv)).
  { by destruct iv as [[|a r]|]. }
  rewrite Hiv.
  erewrite Hstep;
    [|simpl; apply lookup_insert_eq | by apply extended_option_value].
  simpl EB_NEURON.cfg. rewrite insert_insert_eq, extended_app.
  assert (Hov2 : Spec.option_value
            (Spec.extended cv ([Spec.mpi_flag (val_truthy v)] ++
                               [Spec.interviews_flag iv])))
    by (by apply extended_option_value).
  set (py := EB_NEURON.get_software_root E "Python").
  destruct py as [[|a r]|] eqn:Hpy; simpl truthy; cbv iota.
  - erewrite Hstep; [|simpl; apply lookup_insert_eq | exact Hov2].
    simpl EB_NEURON.cfg. rewrite insert_insert_eq, extended_app.
    unfold_monad. simpl.
    by destruct (EB_NEURON.det_pylibdir E).
  - unfold mbind at 1, M_bind at 1, bind at 1.
    unfold mbind at 1, M_bind at 1, bind at 1.
    unfold modify at 1.
    erewrite Hstep; [|simpl; apply lookup_insert_eq | exact Hov2].
    simpl EB_NEURON.cfg. rewrite insert_insert_eq, extended_app.
    unfold mbind at 1, M_bind at 1, bind at 1. unfold gets at 1.
    erewrite cfg_update_option;
      [|simpl; apply lookup_insert_eq | by apply extended_option_value].
    simpl EB_NEURON.cfg. rewrite insert_insert_eq, extended_app.
    unfold_monad. simpl.
    by destruct (EB_NEURON.det_pylibdir E).
  - erewrite Hstep; [|simpl; apply lookup_insert_eq | exact Hov2].
    simpl EB_NEURON.cfg. rewrite insert_insert_eq, extended_app.
    unfold_monad. simpl.
    by destruct (EB_NEURON.det_pylibdir E).
Qed.

End neuron_configure.

Section neuron_configure_claims.
Variable E : EB_NEURON.env.

(** How [configure_step] goes on after the options are set: with
    [det_pylibdir] and the method of [CMakeMake], from the state [st']. *)
Lemma configure_step_from_options (st : EB_NEURON.state) v cv :
  EB_NEURON.cfg st !! "paranrn" = Some v →
  EB_NEURON.cfg st !! "configopts" = Some cv →
  Spec.option_value cv →
  EB_NEURON.configure_step E st =
  match EB_NEURON.det_pylibdir E with
  | inl e => (Raised e, Spec.neuron_configured E st v cv)
  | inr p =>
      (configure_step (EB_NEURON.CMakeMake E) ≫= λ _, mret VNone)
        (EB_NEURON.set_pylibdir p (Spec.neuron_configured E st v cv))
  end.
Proof.
  intros Hp Ho Hov. unfold EB_NEURON.configure_step.
  unfold mbind at 1, M_bind at 1, bind at 1.
  rewrite (configure_options_spec E st v cv Hp Ho Hov).
  by destruct (EB_NEURON.det_pylibdir E).
Qed.

Lemma neuron_configured_cfg (st : EB_NEURON.state) v cv :
  EB_NEURON.cfg (Spec.neuron_configured E st v cv) =
  <["configopts" :=
      Spec.extended cv
        ([Spec.mpi_flag (val_truthy v);
          Spec.interviews_flag (EB_NEURON.get_software_root E "InterViews")] ++
         Spec.python_flags (EB_NEURON.get_software_root E "Python")
           (EB_NEURON.installdir st))]>
    (EB_NEURON.cfg st).
Proof. unfold Spec.neuron_configured. reflexivity. Qed.

(** C2.  Whether [configopts] is a string of options or a list of them,
    [configure_step] appends to it, first, the flag [-DNRN_ENABLE_MPI=ON]
    when [paranrn] is true and [-DNRN_ENABLE_MPI=OFF] when it is false,
    and second, [-DIV_DIR=<root> -DNRN_ENABLE_INTERVIEWS=ON] when
    InterViews is a dependency and [-DNRN_ENABLE_INTERVIEWS=OFF]
    otherwise; among all that it appends, each of these flags occurs
    exactly in its case.  To a string each item is appended between two
    spaces, to a list as an element.  [st'] is the state in which the
    step goes on to the parent's [configure_step]. *)
Theorem neuron_configure_mpi_interviews (st : EB_NEURON.state) v cv :
  EB_NEURON.cfg st !! "paranrn" = Some v →
  EB_NEURON.cfg st !! "configopts" = Some cv →
  (∃ s, cv = VStr s) ∨ (∃ l, cv = VList l) →
  ∃ st' appended,
    EB_NEURON.configure_step E st =
      match EB_NEURON.det_pylibdir E with
      | inl e => (Raised e, st')
      | inr p =>
          (configure_step (EB_NEURON.CMakeMake E) ≫= λ _, mret VNone)
            (EB_NEURON.set_pylibdir p st')
      end ∧
    EB_NEURON.cfg st' !! "configopts" =
      Some (match cv with
            | VStr s =>
                VStr (s +:+ Spec.concat_all
                              ((λ item, " " +:+ item +:+ " ") <$> appended))
            | VList l => VList (l ++ (VStr <$> appended))
            | _ => cv
            end) ∧
    appended !! 0%nat =
      Some (if val_truthy v then "-DNRN_ENABLE_MPI=ON"
            else "-DNRN_ENABLE_MPI=OFF") ∧
    appended !! 1%nat =
      Some (let root := EB_NEURON.get_software_root E "InterViews" in
            if truthy root
            then "-DIV_DIR=" +:+ fstr root +:+ " -DNRN_ENABLE_INTERVIEWS=ON"
            else "-DNRN_ENABLE_INTERVIEWS=OFF") ∧
    ("-DNRN_ENABLE_MPI=ON" ∈ appended ↔ val_truthy v = true) ∧
    ("-DNRN_ENABLE_MPI=OFF" ∈ appended ↔ val_truthy v = false) ∧
    ((∃ r, "-DIV_DIR=" +:+ r +:+ " -DNRN_ENABLE_INTERVIEWS=ON" ∈ appended)
       ↔ truthy (EB_NEURON.get_software_root E "InterViews") = true) ∧
    ("-DNRN_ENABLE_INTERVIEWS=OFF" ∈ appended
       ↔ truthy (EB_NEURON.get_software_root E "InterViews") = false).
Proof.
  intros Hp Ho Hov.
  eexists (Spec.neuron_configured E st v cv), _.
  split; [exact (configure_step_from_options st v cv Hp Ho Hov)|].
  split.
  { rewrite neuron_configured_cfg, lookup_insert_eq. f_equal.
    destruct cv; try reflexivity. unfold Spec.extended. do 2 f_equal.
    apply spaced_concat_all. }
  unfold Spec.mpi_flag, Spec.interviews_flag, Spec.python_flags.
  destruct (val_truthy v);
    destruct (EB_NEURON.get_software_root E "InterViews") as [[|a r]|];
    destruct (EB_NEURON.get_software_root E "Python") as [[|b q]|];
    simpl; repeat split;
    rewrite ?elem_of_cons, ?elem_of_nil;
    try (intros; exfalso; intuition discriminate);
    try (intros; intuition discriminate);
    try (intros [x Hx]; rewrite ?elem_of_cons, ?elem_of_nil in Hx;
         exfalso; intuition discriminate);
    try (intros _; exists (String a r); rewrite ?elem_of_cons; auto).
Qed.

(** C5.  Whether [configopts] is a string of options or a list of them,
    [configure_step] appends to it, after the two flags for MPI and
    InterViews, the two options that enable Python and the installation of
    the Python module and sets [with_python], when Python is a
    dependency, and [-DNRN_ENABLE_PYTHON=OFF] otherwise, leaving
    [with_python] as it is, which is false after [__init__].  No other
    easyconfig parameter changes.  [st'] is the state in which the step
    goes on to the parent's [configure_step]. *)
Theorem neuron_configure_python (st : EB_NEURON.state) v cv :
  EB_NEURON.cfg st !! "paranrn" = Some v →
  EB_NEURON.cfg st !! "configopts" = Some cv →
  (∃ s, cv = VStr s) ∨ (∃ l, cv = VList l) →
  ∃ st' mpi_iv,
    EB_NEURON.configure_step E st =
      match EB_NEURON.det_pylibdir E with
      | inl e => (Raised e, st')
      | inr p =>
          (configure_step (EB_NEURON.CMakeMake E) ≫= λ _, mret VNone)
            (EB_NEURON.set_pylibdir p st')
      end ∧
    length mpi_iv = 2%nat ∧
    (let root := EB_NEURON.get_software_root E "Python" in
     let python :=
       if truthy root
       then ["-DNRN_ENABLE_PYTHON=ON -DPYTHON_EXECUTABLE=" +:+
             fstr root +:+ "/bin/python";
             "-DNRN_ENABLE_MODULE_INSTALL=ON " +:+
             "-DNRN_MODULE_INSTALL_OPTIONS='--prefix=" +:+
             EB_NEURON.installdir st +:+ "'"]
       else ["-DNRN_ENABLE_PYTHON=OFF"] in
     EB_NEURON.cfg st' !! "configopts" =
       Some (match cv with
             | VStr s =>
                 VStr (s +:+ Spec.concat_all
                               ((λ item, " " +:+ item +:+ " ")
                                  <$> (mpi_iv ++ python)))
             | VList l => VList (l ++ (VStr <$> (mpi_iv ++ python)))
             | _ => cv
             end)) ∧
    EB_NEURON.with_python st' =
      (if truthy (EB_NEURON.get_software_root E "Python") then true
       else EB_NEURON.with_python st) ∧
    (∀ k, k ≠ "configopts" → EB_NEURON.cfg st' !! k = EB_NEURON.cfg st !! k) ∧
    (EB_NEURON.installdir st', EB_NEURON.version st', EB_NEURON.pylibdir st',
     EB_NEURON.module_load_environment st', EB_NEURON.cwd st',
     EB_NEURON.shell_log st') =
    (EB_NEURON.installdir st, EB_NEURON.version st, EB_NEURON.pylibdir st,
     EB_NEURON.module_load_environment st, EB_NEURON.cwd st,
     EB_NEURON.shell_log st) ∧
    (∀ s0 s1, EB_NEURON.__init__ E s0 = (Returned tt, s1) →
              EB_NEURON.with_python s1 = false).
Proof.
  intros Hp Ho Hov.
  exists (Spec.neuron_configured E st v cv),
    [Spec.mpi_flag (val_truthy v);
     Spec.interviews_flag (EB_NEURON.get_software_root E "InterViews")].
  split; [exact (configure_step_from_options st v cv Hp Ho Hov)|].
  split; [reflexivity|].
  split.
  { cbv zeta. rewrite neuron_configured_cfg, lookup_insert_eq. f_equal.
    assert (Hpy : Spec.python_flags (EB_NEURON.get_software_root E "Python")
                    (EB_NEURON.installdir st) =
                  if truthy (EB_NEURON.get_software_root E "Python")
                  then ["-DNRN_ENABLE_PYTHON=ON -DPYTHON_EXECUTABLE=" +:+
                        fstr (EB_NEURON.get_software_root E "Python") +:+
                        "/bin/python";
                        "-DNRN_ENABLE_MODULE_INSTALL=ON " +:+
                        "-DNRN_MODULE_INSTALL_OPTIONS='--prefix=" +:+
                        EB_NEURON.installdir st +:+ "'"]
                  else ["-DNRN_ENABLE_PYTHON=OFF"]).
    { by destruct (EB_NEURON.get_software_root E "Python") as [[|b q]|]. }
    rewrite Hpy.
    destruct cv; try reflexivity. unfold Spec.extended. do 2 f_equal.
    apply spaced_concat_all. }
  split; [|split; [|split]].
  - unfold Spec.neuron_configured.
    by destruct (truthy (EB_NEURON.get_software_root E "Python")).
  - intros k Hk. rewrite neuron_configured_cfg. by rewrite lookup_insert_ne.
  - unfold Spec.neuron_configured.
    by destruct (truthy (EB_NEURON.get_software_root E "Python")).
  - intros s0 s1. unfold EB_NEURON.__init__. unfold_monad.
    destruct (init (EB_NEURON.CMakeMake E) s0) as [[[]|e] s]; [|discriminate].
    intros [= <-]. reflexivity.
Qed.

End neuron_configure_claims.

Lemma neuron_configure_mpi_interviews_witness :
  let st := Extra.neuron_state_with_configopts (VStr "-DCMAKE_BUILD_TYPE=Release") in
  EB_NEURON.cfg st !! "paranrn" = Some (VBool true) ∧
  EB_NEURON.cfg st !! "configopts" = Some (VStr "-DCMAKE_BUILD_TYPE=Release") ∧
  ∃ st' appended,
    EB_NEURON.cfg st' !! "configopts" =
      Some (VStr ("-DCMAKE_BUILD_TYPE=Release" +:+
                  Spec.concat_all ((λ item, " " +:+ item +:+ " ") <$> appended))) ∧
    appended !! 0%nat = Some "-DNRN_ENABLE_MPI=ON" ∧
    appended !! 1%nat = Some "-DNRN_ENABLE_INTERVIEWS=OFF".
Proof.
  intros st.
  split; [reflexivity|]. split; [reflexivity|].
  destruct (neuron_configure_mpi_interviews Sample.neuron_env
              st (VBool true) (VStr "-DCMAKE_BUILD_TYPE=Release")
              eq_refl eq_refl (or_introl (ex_intro _ _ eq_refl)))
    as (st' & appended & _ & Hc & H0 & H1 & _).
  exists st', appended. split; [exact Hc|].
  split; [exact H0 | exact H1].
Defined.

Lemma neuron_configure_python_witness :
  let st := Extra.neuron_state_with_configopts (VStr "-DCMAKE_BUILD_TYPE=Release") in
  EB_NEURON.cfg st !! "paranrn" = Some (VBool true) ∧
  EB_NEURON.cfg st !! "configopts" = Some (VStr "-DCMAKE_BUILD_TYPE=Release") ∧
  ∃ st' mpi_iv,
    length mpi_iv = 2%nat ∧
    EB_NEURON.cfg st' !! "configopts" =
      Some (VStr
        ("-DCMAKE_BUILD_TYPE=Release" +:+
         Spec.concat_all
           ((λ item, " " +:+ item +:+ " ") <$>
            (mpi_iv ++
             ["-DNRN_ENABLE_PYTHON=ON -DPYTHON_EXECUTABLE=/sw/Python/3.11/bin/python";
              "-DNRN_ENABLE_MODULE_INSTALL=ON -DNRN_MODULE_INSTALL_OPTIONS='--prefix=/sw/NEURON/8.2.2'"])))) ∧
    EB_NEURON.with_python st' = true.
Proof.
  intros st.
  split; [reflexivity|]. split; [reflexivity|].
  destruct (neuron_configure_python Sample.neuron_env
              st (VBool true) (VStr "-DCMAKE_BUILD_TYPE=Release")
              eq_refl eq_refl (or_introl (ex_intro _ _ eq_refl)))
    as (st' & mpi_iv & _ & Hl & Hc & Hw & _).
  exists st', mpi_iv. split; [exact Hl|]. split; [exact Hc | exact Hw].
Defined.

(** [configure_step] on the sample easyconfig, with [configopts] a string
    and with [configopts] a list. *)
Example configure_step_on_string :
  EB_NEURON.cfg
    (EB_NEURON.configure_step Sample.neuron_env
       (Extra.neuron_state_with_configopts (VStr "-DCMAKE_BUILD_TYPE=Release"))).2
    !! "configopts" =
  Some (VStr ("-DCMAKE_BUILD_TYPE=Release -DNRN_ENABLE_MPI=ON " +:+
              " -DNRN_ENABLE_INTERVIEWS=OFF " +:+
              " -DNRN_ENABLE_PYTHON=ON -DPYTHON_EXECUTABLE=/sw/Python/3.11/bin/python " +:+
              " -DNRN_ENABLE_MODULE_INSTALL=ON -DNRN_MODULE_INSTALL_OPTIONS='--prefix=/sw/NEURON/8.2.2' ")).
Proof. reflexivity. Qed.

Example configure_step_on_list :
  EB_NEURON.cfg (EB_NEURON.configure_step Sample.neuron_env Sample.neuron_state).2
    !! "configopts" =
  Some (VList [VStr "-DCMAKE_BUILD_TYPE=Release";
               VStr "-DNRN_ENABLE_MPI=ON";
               VStr "-DNRN_ENABLE_INTERVIEWS=OFF";
               VStr "-DNRN_ENABLE_PYTHON=ON -DPYTHON_EXECUTABLE=/sw/Python/3.11/bin/python";
               VStr "-DNRN_ENABLE_MODULE_INSTALL=ON -DNRN_MODULE_INSTALL_OPTIONS='--prefix=/sw/NEURON/8.2.2'"]).
Proof. reflexivity. Qed.

(** A parameter that is neither a string nor a list cannot be updated:
    [configure_step] raises at the first option. *)
Example configure_step_on_none :
  (EB_NEURON.configure_step Sample.neuron_env
     (Extra.neuron_state_with_configopts VNone)).1 =
  Raised (EasyBuildError
            "Can't update configuration value for configopts, because it's not a string, list, tuple or dictionary.").
Proof. reflexivity. Qed.

(** *** Strings and literal patterns *)

Lemma plain_app (a b : string) :
  Re.plain (a +:+ b) = Re.plain a && Re.plain b.
Proof.
  induction a as [|x a IH]; simpl; [done|].
  rewrite IH. by rewrite andb_assoc.
Qed.

Lemma plain_string_of_uint (d : Decimal.uint) :
  Re.plain (NilEmpty.string_of_uint d) = true.
Proof. induction d; simpl; auto. Qed.

Lemma plain_format_d (z : Z) : 0 ≤ z → Re.plain (format_d z) = true.
Proof.
  intros Hz. unfold format_d. destruct z as [|p|p]; simpl.
  - reflexivity.
  - apply plain_string_of_uint.
  - lia.
Qed.

Lemma plain_rank_line (i n : Z) :
  0 ≤ i → 0 ≤ n → Re.plain (EB_NEURON.rank_line i n) = true.
Proof.
  intros Hi Hn. unfold EB_NEURON.rank_line.
  rewrite !plain_app, (plain_format_d i Hi), (plain_format_d n Hn).
  reflexivity.
Qed.

(** A string without special characters compiles to its literal pattern. *)
Lemma tokenize_plain (s : string) :
  Re.plain s = true →
  ∃ ts, Re.tokenize s = Some ts ∧ Re.group ts = Some (Re.literal s) ∧
        match ts with
        | [] | Re.TSet _ :: _ => True
        | _ => False
        end.
Proof.
  induction s as [|c r IH]; simpl.
  - intros _. by exists [].
  - intros [Hc Hr]%andb_true_iff. apply negb_true_iff in Hc.
    destruct (IH Hr) as (ts & Ht & Hg & Hhd).
    assert (Hsp := Hc). unfold Re.is_special in Hsp. simpl in Hsp.
    repeat (apply orb_false_elim in Hsp; destruct Hsp as [? Hsp]).
    replace (Ascii.eqb c "\") with false by done.
    replace (Ascii.eqb c "^") with false by done.
    replace (Ascii.eqb c ".") with false by done.
    replace (Ascii.eqb c "*") with false by done.
    replace (Ascii.eqb c "+") with false by done.
    rewrite Hc, Ht. eexists; split; [reflexivity|]. split; [|done].
    simpl. destruct ts as [|[] ts]; try done; by rewrite Hg.
Qed.

Lemma compile_plain (s : string) :
  Re.plain s = true → Re.compile s = Some (Re.literal s).
Proof.
  intros (ts & Ht & Hg & _)%tokenize_plain.
  unfold Re.compile. rewrite Ht. exact Hg.
Qed.

(** A literal pattern matches where the string is a prefix. *)
Lemma match_here_literal m (s : string) prev (out : string) :
  Re.match_here m (Re.literal s) prev out = true ↔ ∃ post, out = s +:+ post.
Proof.
  revert prev out. induction s as [|c r IH]; intros prev out; simpl.
  - split; [intros _; by exists out | done].
  - destruct out as [|a out']; [split; [done | by intros [? ?]]|].
    rewrite andb_true_iff, IH. split.
    + intros [->%Ascii.eqb_eq [post ->]]. by exists post.
    + intros [post [= -> ->]]. split; [apply Ascii.eqb_refl | by exists post].
Qed.

Lemma search_from_literal m (s : string) prev (out : string) :
  Re.search_from m (Re.literal s) prev out = true ↔ Spec.substring s out.
Proof.
  unfold Spec.substring. revert prev.
  induction out as [|a out IH]; intros prev; simpl.
  - rewrite orb_false_r, match_here_literal. split.
    + intros [post H]. by exists "", post.
    + intros (pre & post & H). destruct pre; [by exists post|discriminate].
  - rewrite orb_true_iff, match_here_literal, IH. split.
    + intros [[post H]|(pre & post & H)].
      * by exists "", post.
      * exists (String a pre), post. simpl. by rewrite H.
    + intros (pre & post & H). destruct pre as [|b pre]; simpl in H.
      * left. by exists post.
      * right. injection H as _ H. by exists pre, post.
Qed.

Lemma search_literal (s out : string) :
  Re.search false (Re.literal s) out = true ↔ Spec.substring s out.
Proof. apply search_from_literal. Qed.

Lemma elem_of_range (i n : Z) : i ∈ range n ↔ 0 ≤ i < n.
Proof.
  unfold range. rewrite list_elem_of_fmap. setoid_rewrite elem_of_seq. split.
  - intros (k & -> & Hk). lia.
  - intros H. exists (Z.to_nat i). lia.
Qed.

(** *** The words that the regular expression of the demo matches *)

Lemma star_iff cs (k : option ascii → string → bool) (P : string → Prop) :
  (∀ prev s, k prev s = true ↔ P s) →
  ∀ prev s, Re.star cs k prev s = true ↔
            ∃ u rest, s = u +:+ rest ∧ Extra.all_in cs u = true ∧ P rest.
Proof.
  intros Hk prev s. revert prev.
  induction s as [|c r IH]; intros prev; simpl.
  - rewrite orb_false_r, Hk. split.
    + intros HP. by exists "", "".
    + intros (u & rest & Hs & _ & HP). destruct u; [|discriminate].
      simpl in Hs. by subst.
  - rewrite orb_true_iff, andb_true_iff, Hk, IH. split.
    + intros [HP|[Hc (u & rest & -> & Hu & HP)]].
      * by exists "", (String c r).
      * exists (String c u), rest. simpl. by rewrite Hc, Hu.
    + intros (u & rest & Hs & Hu & HP). destruct u as [|c' u]; simpl in Hs.
      * left. by subst.
      * right. injection Hs as -> ->. simpl in Hu.
        apply andb_true_iff in Hu as [Hc Hu]. split; [done|].
        by exists u, rest.
Qed.

Lemma match_here_accepts m (p : Re.pattern) :
  Extra.bol_free p = true →
  ∀ prev s, Re.match_here m p prev s = true ↔
            ∃ w rest, s = w +:+ rest ∧ Extra.accepts p w.
Proof.
  induction p as [|[|cs q] r IH]; intros Hfree prev s.
  - simpl. split; [intros _; by exists "", s|done].
  - discriminate.
  - simpl in Hfree. specialize (IH Hfree). destruct q.
    + simpl. destruct s as [|c s'].
      * split; [done|]. intros (w & rest & Hs & c & w' & -> & _). discriminate.
      * rewrite andb_true_iff, IH. split.
        -- intros [Hc (w & rest & -> & Hw)].
           exists (String c w), rest. split; [done|]. by exists c, w.
        -- intros (w & rest & Hs & c' & w' & -> & Hc & Hw).
           simpl in Hs. injection Hs as -> ->. split; [done|]. by exists w', rest.
    + change (Re.match_here m (Re.Atom cs Re.Star :: r) prev s)
        with (Re.star cs (Re.match_here m r) prev s).
      rewrite (star_iff cs _ _ IH). split.
      * intros (u & rest & -> & Hu & w & rest' & -> & Hw).
        exists (u +:+ w), rest'. rewrite string_app_assoc. split; [done|].
        by exists u, w.
      * intros (w & rest & -> & u & w' & -> & Hu & Hw).
        exists u, (w' +:+ rest). rewrite string_app_assoc. split; [done|].
        split; [done|]. by exists w', rest.
    + simpl. destruct s as [|c s'].
      * split; [done|]. intros (w & rest & Hs & u & w' & -> & Hne & _).
        destruct u; [done|discriminate].
      * rewrite andb_true_iff, (star_iff cs _ _ IH). split.
        -- intros [Hc (u & rest & -> & Hu & w & rest' & -> & Hw)].
           exists (String c u +:+ w), rest'. simpl. rewrite string_app_assoc.
           split; [done|]. exists (String c u), w. simpl. by rewrite Hc, Hu.
        -- intros (w & rest & Hs & u & w' & -> & Hne & Hu & Hw).
           destruct u as [|c' u]; [done|]. simpl in Hs. injection Hs as -> ->.
           simpl in Hu. apply andb_true_iff in Hu as [Hc Hu]. split; [done|].
           exists u, (w' +:+ rest). rewrite string_app_assoc. split; [done|].
           split; [done|]. by exists w', rest.
Qed.

Lemma search_from_bol m (p : Re.pattern) prev (s : string) :
  Re.search_from m (Re.Bol :: p) prev s = true ↔
  ∃ pre rest, s = pre +:+ rest ∧
              Re.at_bol m (Extra.last_char prev pre) = true ∧
              Re.match_here m p (Extra.last_char prev pre) rest = true.
Proof.
  revert prev. induction s as [|c r IH]; intros prev.
  - simpl. rewrite orb_false_r, andb_true_iff. split.
    + intros [H1 H2]. by exists "", "".
    + intros (pre & rest & Hs & H1 & H2). destruct pre; [|discriminate].
      simpl in Hs. by subst.
  - change (Re.search_from m (Re.Bol :: p) prev (String c r))
      with (Re.match_here m (Re.Bol :: p) prev (String c r) ||
            Re.search_from m (Re.Bol :: p) (Some c) r).
    rewrite orb_true_iff, IH. simpl Re.match_here. rewrite andb_true_iff. split.
    + intros [[H1 H2]|(pre & rest & -> & H1 & H2)].
      * by exists "", (String c r).
      * by exists (String c pre), rest.
    + intros (pre & rest & Hs & H1 & H2). destruct pre as [|c' pre]; simpl in *.
      * left. by subst.
      * right. injection Hs as -> ->. by exists pre, rest.
Qed.

Lemma at_bol_last_char prev (pre : string) :
  Re.at_bol true (Extra.last_char prev pre) = true ↔
  (pre = "" ∧ Re.at_bol true prev = true) ∨
  ∃ pre', pre = pre' +:+ String newline "".
Proof.
  revert prev. induction pre as [|c pre IH]; intros prev; simpl.
  - split; [by left|]. intros [[_ H]|[pre' H]]; [done|].
    destruct pre'; discriminate.
  - rewrite IH. split.
    + intros [[-> H]|[pre' ->]].
      * right. exists "". simpl in H. by apply Ascii.eqb_eq in H as ->.
      * right. by exists (String c pre').
    + intros [[? _]|[pre' H]]; [done|].
      destruct pre' as [|c' pre']; simpl in H.
      * injection H as -> ->. by left.
      * injection H as -> ->. right. by exists pre'.
Qed.

Lemma accepts_demo (w : string) :
  Extra.accepts
    [Re.Atom Re.Space Re.Plus; Re.Atom (Re.Lit "-") Re.One;
     Re.Atom (Re.Lit "6") Re.One; Re.Atom (Re.Lit "5") Re.One;
     Re.Atom Re.Space Re.Star; Re.Atom (Re.Lit "010") Re.One;
     Re.Atom Re.Space Re.Plus; Re.Atom (Re.Lit "5") Re.One;
     Re.Atom Re.Space Re.Star; Re.Atom (Re.Lit "010") Re.One;
     Re.Atom Re.Space Re.Plus; Re.Atom (Re.Lit "-") Re.One;
     Re.Atom (Re.Lit "6") Re.One; Re.Atom (Re.Lit "8") Re.One;
     Re.Atom Re.AnyButNewline Re.One; Re.Atom (Re.Lit "1") Re.One;
     Re.Atom (Re.Lit "3") Re.One; Re.Atom (Re.Lit "4") Re.One;
     Re.Atom (Re.Lit "3") Re.One; Re.Atom (Re.Lit "3") Re.One;
     Re.Atom (Re.Lit "7") Re.One] w ↔
  ∃ ws1 ws2 ws3 ws4 ws5 c,
    w = ws1 +:+ "-65" +:+ ws2 +:+ Extra.nl +:+ ws3 +:+ "5" +:+ ws4 +:+ Extra.nl +:+
        ws5 +:+ "-68" +:+ String c "134337" ∧
    ws1 ≠ "" ∧ ws3 ≠ "" ∧ ws5 ≠ "" ∧
    Extra.spaces ws1 = true ∧ Extra.spaces ws2 = true ∧ Extra.spaces ws3 = true ∧
    Extra.spaces ws4 = true ∧ Extra.spaces ws5 = true ∧ c ≠ newline.
Proof.
  cbn [Extra.accepts Re.cs_mem]. split.
  - intros (ws1 & ? & -> & Hn1 & Hs1 &
            ? & ? & -> & <-%Ascii.eqb_eq & ? & ? & -> & <-%Ascii.eqb_eq &
            ? & ? & -> & <-%Ascii.eqb_eq &
            ws2 & ? & -> & Hs2 & ? & ? & -> & <-%Ascii.eqb_eq &
            ws3 & ? & -> & Hn3 & Hs3 & ? & ? & -> & <-%Ascii.eqb_eq &
            ws4 & ? & -> & Hs4 & ? & ? & -> & <-%Ascii.eqb_eq &
            ws5 & ? & -> & Hn5 & Hs5 &
            ? & ? & -> & <-%Ascii.eqb_eq & ? & ? & -> & <-%Ascii.eqb_eq &
            ? & ? & -> & <-%Ascii.eqb_eq &
            c & ? & -> & Hc &
            ? & ? & -> & <-%Ascii.eqb_eq & ? & ? & -> & <-%Ascii.eqb_eq &
            ? & ? & -> & <-%Ascii.eqb_eq & ? & ? & -> & <-%Ascii.eqb_eq &
            ? & ? & -> & <-%Ascii.eqb_eq & ? & ? & -> & <-%Ascii.eqb_eq & ->).
    exists ws1, ws2, ws3, ws4, ws5, c.
    unfold Extra.nl. split; [reflexivity|]. repeat (split; [assumption|]).
    simpl in Hc. apply negb_true_iff, Ascii.eqb_neq in Hc. exact Hc.
  - intros (ws1 & ws2 & ws3 & ws4 & ws5 & c & -> & Hn1 & Hn3 & Hn5 &
            Hs1 & Hs2 & Hs3 & Hs4 & Hs5 & Hc).
    unfold Extra.nl.
    eexists ws1, _. split; [reflexivity|]. split; [done|]. split; [done|].
    do 3 (eexists _, _; split; [reflexivity|]; split; [apply Ascii.eqb_refl|]).
    eexists ws2, _. split; [reflexivity|]. split; [done|].
    eexists _, _; split; [reflexivity|]; split; [apply Ascii.eqb_refl|].
    eexists ws3, _. split; [reflexivity|]. split; [done|]. split; [done|].
    eexists _, _; split; [reflexivity|]; split; [apply Ascii.eqb_refl|].
    eexists ws4, _. split; [reflexivity|]. split; [done|].
    eexists _, _; split; [reflexivity|]; split; [apply Ascii.eqb_refl|].
    eexists ws5, _. split; [reflexivity|]. split; [done|]. split; [done|].
    do 3 (eexists _, _; split; [reflexivity|]; split; [apply Ascii.eqb_refl|]).
    eexists c, _. split; [reflexivity|].
    split; [simpl; by apply negb_true_iff, Ascii.eqb_neq|].
    do 6 (eexists _, _; split; [reflexivity|]; split; [apply Ascii.eqb_refl|]).
    reflexivity.
Qed.

Lemma demo_matches_shape (out : string) :
  Spec.demo_matches out = true ↔
  ∃ pre ws1 ws2 ws3 ws4 ws5 c post,
    out = pre +:+ ws1 +:+ "-65" +:+ ws2 +:+ Extra.nl +:+ ws3 +:+ "5" +:+ ws4 +:+ Extra.nl +:+
          ws5 +:+ "-68" +:+ String c "134337" +:+ post ∧
    (pre = "" ∨ ∃ pre', pre = pre' +:+ Extra.nl) ∧
    ws1 ≠ "" ∧ ws3 ≠ "" ∧ ws5 ≠ "" ∧
    Extra.spaces ws1 = true ∧ Extra.spaces ws2 = true ∧ Extra.spaces ws3 = true ∧
    Extra.spaces ws4 = true ∧ Extra.spaces ws5 = true ∧ c ≠ newline.
Proof.
  unfold Spec.demo_matches.
  set (p := [Re.Atom Re.Space Re.Plus; Re.Atom (Re.Lit "-") Re.One;
     Re.Atom (Re.Lit "6") Re.One; Re.Atom (Re.Lit "5") Re.One;
     Re.Atom Re.Space Re.Star; Re.Atom (Re.Lit "010") Re.One;
     Re.Atom Re.Space Re.Plus; Re.Atom (Re.Lit "5") Re.One;
     Re.Atom Re.Space Re.Star; Re.Atom (Re.Lit "010") Re.One;
     Re.Atom Re.Space Re.Plus; Re.Atom (Re.Lit "-") Re.One;
     Re.Atom (Re.Lit "6") Re.One; Re.Atom (Re.Lit "8") Re.One;
     Re.Atom Re.AnyButNewline Re.One; Re.Atom (Re.Lit "1") Re.One;
     Re.Atom (Re.Lit "3") Re.One; Re.Atom (Re.Lit "4") Re.One;
     Re.Atom (Re.Lit "3") Re.One; Re.Atom (Re.Lit "3") Re.One;
     Re.Atom (Re.Lit "7") Re.One]).
  assert (Hc : Re.compile EB_NEURON.validate_regexp_source = Some (Re.Bol :: p))
    by reflexivity.
  rewrite Hc. unfold Re.search. rewrite search_from_bol.
  assert (Hfree : Extra.bol_free p = true) by reflexivity.
  split.
  - intros (pre & rest & -> & Hbol & Hm).
    apply at_bol_last_char in Hbol.
    apply (match_here_accepts true p Hfree) in Hm as (w & post & -> & Hw).
    apply accepts_demo in Hw
      as (ws1 & ws2 & ws3 & ws4 & ws5 & c & -> & Hrest).
    exists pre, ws1, ws2, ws3, ws4, ws5, c, post. split.
    + unfold Extra.nl. rewrite !string_app_assoc. reflexivity.
    + split; [|exact Hrest]. destruct Hbol as [[-> _]|H]; [by left | by right].
  - intros (pre & ws1 & ws2 & ws3 & ws4 & ws5 & c & post & -> & Hpre & Hrest).
    exists pre, ((ws1 +:+ "-65" +:+ ws2 +:+ Extra.nl +:+ ws3 +:+ "5" +:+ ws4 +:+ Extra.nl +:+
                  ws5 +:+ "-68" +:+ String c "134337") +:+ post).
    split; [unfold Extra.nl; by rewrite !string_app_assoc|]. split.
    + apply at_bol_last_char. destruct Hpre as [->|H]; [by left | by right].
    + apply (match_here_accepts true p Hfree). eexists _, post.
      split; [reflexivity|]. apply accepts_demo.
      by exists ws1, ws2, ws3, ws4, ws5, c.
Qed.

(** *** [EB_NEURON.sanity_check_step] *)

Lemma compile_validate_regexp :
  ∃ p, Re.compile EB_NEURON.validate_regexp_source = Some p.
Proof. eexists. vm_compute. reflexivity. Qed.

Section neuron_sanity.
Variable E : EB_NEURON.env.

(** Closed form of the test of the NEURON demo. *)
Lemma validate_demo_spec (st : EB_NEURON.state) :
  EB_NEURON.validate_demo E st =
  (let res := EB_NEURON.shell E (EB_NEURON.cwd st) "neurondemo"
                (Some EB_NEURON.neurondemo_input) in
   if negb (exit_code res =? 0) || negb (Spec.demo_matches (output res))
   then Raised (EasyBuildError "Validation of NEURON demo run failed.")
   else Returned tt,
   EB_NEURON.log_cmd ("neurondemo", Some EB_NEURON.neurondemo_input) st).
Proof.
  unfold EB_NEURON.validate_demo, EB_NEURON.run_shell_cmd,
    EB_NEURON.re_compile, Spec.demo_matches.
  destruct compile_validate_regexp as [p Hp]. rewrite Hp.
  unfold_monad. simpl.
  by destruct (_ || _).
Qed.

Lemma demo_failed_iff (res : RunShellCmdResult) :
  negb (exit_code res =? 0) || negb (Spec.demo_matches (output res)) = true ↔
  exit_code res ≠ 0 ∨ Spec.demo_matches (output res) = false.
Proof.
  rewrite orb_true_iff, !negb_true_iff, Z.eqb_neq. reflexivity.
Qed.

(** C1.  Once the parent's sanity check has returned and the fake module
    was loaded or failed to load with an [EasyBuildError], the step runs
    [neurondemo] on the fixed input and raises the error "Validation of
    NEURON demo run failed." if and only if the exit code is not zero or
    the output does not match the regular expression
    [^\s+-65\s*\n\s+5\s*\n\s+-68.134337], searched with [re.M]; otherwise
    this check raises nothing and the step goes on with the parallel
    test.  The output matches exactly when it has, from the start of
    some line on: whitespace, [-65], whitespace up to a newline,
    whitespace, [5], whitespace up to a newline, whitespace, [-68], one
    character that is no newline, and [134337]. *)
Theorem neuron_demo_validation (st st1 st2 : EB_NEURON.state) fake_mod_data :
  sanity_check_step (EB_NEURON.CMakeMake E)
    (Some (EB_NEURON.sanity_check_paths E st)) st = (Returned tt, st1) →
  EB_NEURON.try_load_fake_module E st1 = (Returned fake_mod_data, st2) →
  let res := EB_NEURON.shell E (EB_NEURON.cwd st2) "neurondemo"
               (Some EB_NEURON.neurondemo_input) in
  let st3 := EB_NEURON.log_cmd ("neurondemo", Some EB_NEURON.neurondemo_input) st2 in
  ∃ regexp,
    Re.compile "^\s+-65\s*\n\s+5\s*\n\s+-68.134337" = Some regexp ∧
    let matched := Re.search true regexp (output res) = true in
    let failed := exit_code res ≠ 0 ∨ ¬ matched in
    (matched ↔
     ∃ pre ws1 ws2 ws3 ws4 ws5 c post,
       output res =
         pre +:+ ws1 +:+ "-65" +:+ ws2 +:+ Extra.nl +:+
         ws3 +:+ "5" +:+ ws4 +:+ Extra.nl +:+
         ws5 +:+ "-68" +:+ String c "134337" +:+ post ∧
       (pre = "" ∨ ∃ pre', pre = pre' +:+ Extra.nl) ∧
       ws1 ≠ "" ∧ ws3 ≠ "" ∧ ws5 ≠ "" ∧
       Extra.spaces ws1 = true ∧ Extra.spaces ws2 = true ∧
       Extra.spaces ws3 = true ∧ Extra.spaces ws4 = true ∧
       Extra.spaces ws5 = true ∧ c ≠ newline) ∧
    (EB_NEURON.validate_demo E st2 =
       (Raised (EasyBuildError "Validation of NEURON demo run failed."), st3)
     ↔ failed) ∧
    (EB_NEURON.validate_demo E st2 = (Returned tt, st3) ↔ ¬ failed) ∧
    (failed →
     EB_NEURON.sanity_check_step E st =
       (Raised (EasyBuildError "Validation of NEURON demo run failed."), st3)) ∧
    (¬ failed →
     EB_NEURON.sanity_check_step E st =
       (EB_NEURON.validate_parallel E ≫= λ _,
        EB_NEURON.test_python E ≫= λ _,
        EB_NEURON.cleanup E fake_mod_data) st3) ∧
    EB_NEURON.shell_log st3 =
      EB_NEURON.shell_log st2 ++ [("neurondemo", Some EB_NEURON.neurondemo_input)].
Proof.
  intros Hparent Hfake res st3.
  destruct compile_validate_regexp as [regexp Hre].
  exists regexp. split; [exact Hre|].
  intros matched failed.
  cut ((EB_NEURON.validate_demo E st2 =
          (Raised (EasyBuildError "Validation of NEURON demo run failed."), st3)
        ↔ failed) ∧
       (EB_NEURON.validate_demo E st2 = (Returned tt, st3) ↔ ¬ failed) ∧
       (failed →
        EB_NEURON.sanity_check_step E st =
          (Raised (EasyBuildError "Validation of NEURON demo run failed."), st3)) ∧
       (¬ failed →
        EB_NEURON.sanity_check_step E st =
          (EB_NEURON.validate_parallel E ≫= λ _,
           EB_NEURON.test_python E ≫= λ _,
           EB_NEURON.cleanup E fake_mod_data) st3)).
  { intros (H1 & H2 & H3 & H4).
    assert (Hm : Spec.demo_matches (output res) =
                 Re.search true regexp (output res)).
    { unfold Spec.demo_matches. by rewrite Hre. }
    split; [unfold matched; rewrite <- Hm; apply demo_matches_shape|].
    repeat (split; [assumption|]). reflexivity. }
  assert (Hm : Spec.demo_matches (output res) = Re.search true regexp (output res)).
  { unfold Spec.demo_matches. by rewrite Hre. }
  assert (Hdemo := validate_demo_spec st2). cbv zeta in Hdemo.
  fold res st3 in Hdemo.
  assert (Hiff : negb (exit_code res =? 0) ||
                 negb (Spec.demo_matches (output res)) = true ↔ failed).
  { rewrite demo_failed_iff. unfold failed, matched. rewrite <- Hm.
    apply or_iff_compat_l. by destruct (Spec.demo_matches (output res)). }
  assert (Hstep : EB_NEURON.sanity_check_step E st =
    (EB_NEURON.validate_demo E ≫= λ _,
     EB_NEURON.validate_parallel E ≫= λ _,
     EB_NEURON.test_python E ≫= λ _,
     EB_NEURON.cleanup E fake_mod_data) st2).
  { unfold EB_NEURON.sanity_check_step.
    unfold mbind at 1, M_bind at 1, bind at 1, gets at 1.
    unfold mbind at 1, M_bind at 1, bind at 1. rewrite Hparent.
    unfold mbind at 1, M_bind at 1, bind at 1. rewrite Hfake. reflexivity. }
  destruct (negb (exit_code res =? 0) || negb (Spec.demo_matches (output res)))
    eqn:Hb.
  - assert (Hf : failed) by (by apply Hiff).
    repeat split; try done.
    + rewrite Hdemo. discriminate.
    + intros _. rewrite Hstep. unfold mbind at 1, M_bind at 1, bind at 1.
      by rewrite Hdemo.
  - assert (Hf : ¬ failed) by (rewrite <- Hiff; discriminate).
    repeat split; try done.
    + rewrite Hdemo. discriminate.
    + intros _. rewrite Hstep. unfold mbind at 1, M_bind at 1, bind at 1.
      by rewrite Hdemo.
Qed.

End neuron_sanity.

Lemma neuron_demo_validation_witness :
  sanity_check_step (EB_NEURON.CMakeMake Sample.neuron_env)
    (Some (EB_NEURON.sanity_check_paths Sample.neuron_env Sample.neuron_state))
    Sample.neuron_state = (Returned tt, Sample.neuron_state) ∧
  EB_NEURON.try_load_fake_module Sample.neuron_env Sample.neuron_state =
    (Returned (Some VNone), Sample.neuron_state) ∧
  EB_NEURON.validate_demo Sample.neuron_env Sample.neuron_state =
    (Returned tt,
     EB_NEURON.log_cmd ("neurondemo", Some EB_NEURON.neurondemo_input)
       Sample.neuron_state).
Proof.
  split; [reflexivity|]. split; [reflexivity|].
  destruct (neuron_demo_validation Sample.neuron_env
              Sample.neuron_state Sample.neuron_state
              Sample.neuron_state (Some VNone) eq_refl eq_refl)
    as (regexp & Hre & Hshape & _ & Hret & _).
  apply Hret.
  intros [H|H]; [by apply H|]. apply H, Hshape.
  exists ("  0 " +:+ Extra.nl), "  ", " ", "  ", " ", "  ", "."%char,
    (" " +:+ Extra.nl).
  split; [reflexivity|]. split; [right; by eexists|].
  repeat (split; [done|]). done.
Defined.

Section neuron_parallel.
Variable E : EB_NEURON.env.

(** The loop over the ranks ends with [valid] true exactly when every
    line is found. *)
Lemma ranks_valid_spec (n : Z) (out : string) (ranks : list Z)
    (st : EB_NEURON.state) :
  0 ≤ n → (∀ i, i ∈ ranks → 0 ≤ i) →
  EB_NEURON.ranks_valid n out ranks st =
  (Returned (forallb (λ i, Re.search false
                             (Re.literal (EB_NEURON.rank_line i n)) out) ranks),
   st).
Proof.
  intros Hn. induction ranks as [|i r IH]; intros Hr; simpl; [done|].
  unfold EB_NEURON.re_compile.
  rewrite (compile_plain _ (plain_rank_line i n (Hr i (list_elem_of_here _ _)) Hn)).
  unfold_monad.
  destruct (Re.search false _ out); simpl; [|done].
  apply IH. intros j Hj. apply Hr. by apply list_elem_of_further.
Qed.

Lemma forallb_false_iff {A} (f : A → bool) (l : list A) :
  forallb f l = false ↔ ∃ x, x ∈ l ∧ f x = false.
Proof.
  induction l as [|a l IH]; simpl.
  - split; [done|]. intros (x & Hx & _). by apply elem_of_nil in Hx.
  - rewrite andb_false_iff, IH. split.
    + intros [Ha|(x & Hx & Hf)].
      * exists a. split; [apply list_elem_of_here | done].
      * exists x. split; [by apply list_elem_of_further | done].
    + intros (x & [->|Hx]%elem_of_cons & Hf); [by left|].
      right. by exists x.
Qed.

Lemma getcwd_ok (st : EB_NEURON.state) :
  EB_NEURON.getcwd_error E = None →
  EB_NEURON.getcwd E st = (Returned (EB_NEURON.cwd st), st).
Proof. intros H. unfold EB_NEURON.getcwd. by rewrite H. Qed.

Lemma chdir_ok (st : EB_NEURON.state) p :
  EB_NEURON.chdir_error E p = None →
  EB_NEURON.chdir E p st =
  (Returned tt, EB_NEURON.set_cwd (path_join (EB_NEURON.cwd st) [p]) st).
Proof. intros H. unfold EB_NEURON.chdir. by rewrite H. Qed.

Lemma run_shell_cmd_no_fail (st : EB_NEURON.state) cmd stdin :
  EB_NEURON.run_shell_cmd E cmd stdin false st =
  (Returned (EB_NEURON.shell E (EB_NEURON.cwd st) cmd stdin),
   EB_NEURON.log_cmd (cmd, stdin) st).
Proof. reflexivity. Qed.

(** What [range] and the format [d] take out of the number of
    processes. *)
Lemma as_int_spec (st : EB_NEURON.state) pv nproc :
  pv = VInt nproc ∨ (∃ b : bool, pv = VBool b ∧ nproc = if b then 1 else 0) →
  EB_NEURON.as_int pv st = (Returned nproc, st).
Proof. by intros [->|(b & -> & ->)]. Qed.

(** C4.  With the MPI tests enabled, once the command has been run in
    [<start_dir>/src/parallel], the step raises the error "Validation of
    parallel hello world run failed." if and only if the exit code is not
    zero or, for some rank [i] with [0 <= i < nproc], the output does not
    contain [I am i of nproc], with [i] and [nproc] in decimal; [nproc] is
    the value of [parallel], an integer or a truth value counted as 1 or
    0.  With the MPI tests disabled the parallel test does nothing: no
    command is run and the state stays as it is. *)
Theorem neuron_parallel_validation (st : EB_NEURON.state) :
  (val_truthy (EB_NEURON.build_option E "mpi_tests") = false →
   EB_NEURON.validate_parallel E st = (Returned tt, st)) ∧
  (∀ parallel nproc start_dir cmd,
     val_truthy (EB_NEURON.build_option E "mpi_tests") = true →
     EB_NEURON.cfg st !! "parallel" = Some parallel →
     parallel = VInt nproc ∨
       (∃ b : bool, parallel = VBool b ∧ nproc = if b then 1 else 0) →
     EB_NEURON.cfg st !! "start_dir" = Some (VStr start_dir) →
     EB_NEURON.getcwd_error E = None →
     EB_NEURON.chdir_error E (path_join start_dir ["src"; "parallel"]) = None →
     EB_NEURON.chdir_error E (EB_NEURON.cwd st) = None →
     EB_NEURON.mpi_cmd_for E "nrniv -mpi test0.hoc" parallel = inr cmd →
     let dir := path_join (EB_NEURON.cwd st)
                  [path_join start_dir ["src"; "parallel"]] in
     let res := EB_NEURON.shell E dir cmd None in
     let st' := EB_NEURON.set_cwd (path_join dir [EB_NEURON.cwd st])
                  (EB_NEURON.log_cmd (cmd, None) (EB_NEURON.set_cwd dir st)) in
     let failed :=
       exit_code res ≠ 0 ∨
       ∃ i, 0 ≤ i < nproc ∧
            ¬ ∃ pre post,
                output res =
                  pre +:+ ("I am " +:+ format_d i +:+ " of " +:+ format_d nproc)
                      +:+ post in
     (EB_NEURON.validate_parallel E st =
        (Raised (EasyBuildError "Validation of parallel hello world run failed."),
         st') ↔ failed) ∧
     (EB_NEURON.validate_parallel E st = (Returned tt, st') ↔ ¬ failed) ∧
     EB_NEURON.shell_log st' = EB_NEURON.shell_log st ++ [(cmd, None)]).
Proof.
  split.
  { intros Hoff. unfold EB_NEURON.validate_parallel. by rewrite Hoff. }
  intros pv nproc start_dir cmd Hon Hpar Hint Hdir Hcwd Hchdir Hback Hcmd
    dir res st' failed.
  assert (Hrun : EB_NEURON.validate_parallel E st =
    (if negb (exit_code res =? 0) ||
        negb (forallb (λ i, Re.search false
                (Re.literal (EB_NEURON.rank_line i nproc)) (output res))
                (range nproc))
     then Raised (EasyBuildError "Validation of parallel hello world run failed.")
     else Returned tt, st')).
  { unfold EB_NEURON.validate_parallel. rewrite Hon.
    unfold mbind at 1, M_bind at 1, bind at 1.
    rewrite (cfg_getitem_Some _ _ _ Hpar).
    unfold mbind at 1, M_bind at 1, bind at 1.
    unfold try_except.
    rewrite (bind_returned _ _ _ _ _ (getcwd_ok _ Hcwd)).
    rewrite (bind_returned _ _ _ _ _ (cfg_getitem_Some _ _ _ Hdir)).
    rewrite (bind_returned _ _ _ (path_join start_dir ["src"; "parallel"]) st
               eq_refl).
    rewrite (bind_returned _ _ _ _ _ (chdir_ok _ _ Hchdir)). fold dir.
    rewrite Hcmd.
    rewrite (bind_returned _ _ _ cmd (EB_NEURON.set_cwd dir st) eq_refl).
    rewrite (bind_returned _ _ _ _ _ (run_shell_cmd_no_fail _ _ _)).
    simpl EB_NEURON.cwd at 1. fold res.
    rewrite (bind_returned _ _ _ _ _
               (chdir_ok (EB_NEURON.log_cmd (cmd, None) (EB_NEURON.set_cwd dir st))
                  _ Hback)).
    simpl EB_NEURON.cwd. fold st'.
    unfold ret at 1.
    rewrite (bind_returned _ _ _ _ _ (as_int_spec st' pv nproc Hint)).
    destruct (Z_le_gt_dec nproc 0) as [Hn|Hn].
    - unfold range. replace (Z.to_nat nproc) with 0%nat by lia. simpl.
      rewrite orb_false_r.
      by destruct (negb (exit_code res =? 0)).
    - rewrite (bind_returned _ _ _ _ _
                 (ranks_valid_spec nproc (output res) (range nproc) st'
                    ltac:(lia) ltac:(intros i Hi%elem_of_range; lia))).
      by destruct (_ || _). }
  assert (Hiff :
    negb (exit_code res =? 0) ||
    negb (forallb (λ i, Re.search false
            (Re.literal (EB_NEURON.rank_line i nproc)) (output res))
            (range nproc)) = true ↔ failed).
  { unfold failed. rewrite orb_true_iff, !negb_true_iff, Z.eqb_neq.
    apply or_iff_compat_l. rewrite forallb_false_iff. split.
    - intros (i & Hin%elem_of_range & Hs). exists i. split; [done|].
      intros Hsub. apply (search_literal (EB_NEURON.rank_line i nproc)) in Hsub.
      by rewrite Hs in Hsub.
    - intros (i & Hi & Hs). exists i. split; [by apply elem_of_range|].
      apply not_true_iff_false. intros Hsub. apply Hs.
      by apply (search_literal (EB_NEURON.rank_line i nproc)). }
  rewrite Hrun.
  destruct (negb (exit_code res =? 0) || _) eqn:Hb.
  - assert (Hf : failed) by (by apply Hiff).
    split; [|split]; [split; done..|reflexivity].
  - assert (Hf : ¬ failed) by (rewrite <- Hiff; discriminate).
    split; [|split]; [split; done..|reflexivity].
Qed.

End neuron_parallel.

Lemma neuron_parallel_validation_witness :
  EB_NEURON.validate_parallel Sample.neuron_env_no_mpi Sample.neuron_state =
    (Returned tt, Sample.neuron_state) ∧
  EB_NEURON.validate_parallel Sample.neuron_env Sample.neuron_state =
    (Returned tt,
     EB_NEURON.log_cmd ("mpirun -np 2 nrniv -mpi test0.hoc", None)
       Sample.neuron_state).
Proof.
  split.
  - exact (proj1 (neuron_parallel_validation Sample.neuron_env_no_mpi
                    Sample.neuron_state) eq_refl).
  - apply (proj2 (neuron_parallel_validation Sample.neuron_env
                    Sample.neuron_state) (VInt 2) 2 "/build/nrn-8.2.2"
             "mpirun -np 2 nrniv -mpi test0.hoc"
             eq_refl eq_refl (or_introl eq_refl)
             eq_refl eq_refl eq_refl eq_refl eq_refl).
    intros [H|(i & Hi & Hs)]; [by apply H|].
    apply Hs. assert (i = 0 ∨ i = 1) as [-> | ->] by lia.
    + by exists ("I am 1 of 2" +:+ Sample.nl), Sample.nl.
    + by exists "", (Sample.nl +:+ "I am 0 of 2" +:+ Sample.nl).
Defined.

(** The lines that the parallel test looks for, for two processes and
    for twelve. *)
Example rank_lines_sample :
  EB_NEURON.rank_line 0 2 = "I am 0 of 2" ∧
  EB_NEURON.rank_line 1 2 = "I am 1 of 2" ∧
  EB_NEURON.rank_line 11 12 = "I am 11 of 12".
Proof. repeat split. Qed.

(** *** The module file of NEURON *)

Section neuron_module.
Variable E : EB_NEURON.env.

(** C7.  [make_module_step] sets [PYTHONPATH] in the module load
    environment only when [with_python] is true, to the one entry
    [lib/python*/site-packages] for a version below 8 and [lib/python]
    otherwise; when [with_python] is false the environment is handed to
    the parent's [make_module_step] as it is. *)
Theorem neuron_make_module_step_pythonpath (st : EB_NEURON.state) :
  ∃ st',
    EB_NEURON.make_module_step E st =
      make_module_step (EB_NEURON.CMakeMake E) st' ∧
    (EB_NEURON.with_python st = true →
     EB_NEURON.module_load_environment st' =
       <["PYTHONPATH" :=
           [if EB_NEURON.LooseVersion_lt E (EB_NEURON.version st) "8"
            then "lib/python*/site-packages" else "lib/python"]]>
         (EB_NEURON.module_load_environment st)) ∧
    (EB_NEURON.with_python st = false → st' = st) ∧
    (∀ k, k ≠ "PYTHONPATH" →
          EB_NEURON.module_load_environment st' !! k =
          EB_NEURON.module_load_environment st !! k) ∧
    (EB_NEURON.cfg st', EB_NEURON.installdir st', EB_NEURON.version st',
     EB_NEURON.with_python st', EB_NEURON.pylibdir st', EB_NEURON.cwd st',
     EB_NEURON.shell_log st') =
    (EB_NEURON.cfg st, EB_NEURON.installdir st, EB_NEURON.version st,
     EB_NEURON.with_python st, EB_NEURON.pylibdir st, EB_NEURON.cwd st,
     EB_NEURON.shell_log st).
Proof.
  unfold EB_NEURON.make_module_step, EB_NEURON.set_PYTHONPATH.
  destruct (EB_NEURON.with_python st) eqn:Hw.
  - destruct (EB_NEURON.LooseVersion_lt E (EB_NEURON.version st) "8") eqn:Hv.
    + eexists. split.
      { unfold_monad. rewrite Hw. simpl. rewrite Hv. reflexivity. }
      simpl. repeat split; try done; try (by rewrite Hw).
      intros k Hk. by rewrite lookup_insert_ne.
    + eexists. split.
      { unfold_monad. rewrite Hw. simpl. rewrite Hv. reflexivity. }
      simpl. repeat split; try done; try (by rewrite Hw).
      intros k Hk. by rewrite lookup_insert_ne.
  - exists st. split.
    { unfold_monad. rewrite Hw. reflexivity. }
    repeat split; try done. by rewrite Hw.
Qed.

Lemma fold_add_compiler_var (vars : list string) (txt : string) :
  fold_left (EB_NEURON.add_compiler_var E) vars txt =
  txt +:+
  Spec.concat_all
    (omap (λ var,
             match EB_NEURON.getenv E var with
             | Some (String a r) =>
                 Some (EB_NEURON.set_environment E var (String a r))
             | _ => None
             end) vars).
Proof.
  revert txt. induction vars as [|var vars IH]; intros txt; simpl.
  - by rewrite string_app_nil_r.
  - rewrite IH. unfold EB_NEURON.add_compiler_var.
    destruct (EB_NEURON.getenv E var) as [[|a r]|]; simpl; try done.
    by rewrite string_app_assoc.
Qed.

(** C10.  [make_module_extra] returns the parent's text followed by one
    [set_environment] entry, with the value of the variable, for each of
    [CC], [CXX], [MPICC], [MPICXX], [MPICH_CC], [MPICH_CXX] that is set to
    a non-empty value, in that order, and by nothing for the others; when
    the parent raises, so does the method. *)
Theorem neuron_make_module_extra_compilers (st : EB_NEURON.state) :
  EB_NEURON.make_module_extra E st =
  match make_module_extra (EB_NEURON.CMakeMake E) st with
  | (Returned txt, st') =>
      (Returned
         (txt +:+
          Spec.concat_all
            (omap (λ var,
                     match EB_NEURON.getenv E var with
                     | Some (String a r) =>
                         Some (EB_NEURON.set_environment E var (String a r))
                     | _ => None
                     end)
               ["CC"; "CXX"; "MPICC"; "MPICXX"; "MPICH_CC"; "MPICH_CXX"])),
       st')
  | (Raised e, st') => (Raised e, st')
  end.
Proof.
  unfold EB_NEURON.make_module_extra. unfold_monad.
  destruct (make_module_extra (EB_NEURON.CMakeMake E) st) as [[txt|e] st'];
    [|done].
  by rewrite fold_add_compiler_var.
Qed.

End neuron_module.

(** *** Paths *)

Lemma endswith_sep_app (a b : string) :
  b ≠ "" → endswith_sep (a +:+ b) = endswith_sep b.
Proof.
  intros Hb. induction a as [|x a IH]; simpl; [done|].
  rewrite <- IH. destruct (a +:+ b) eqn:Hab; [|done].
  destruct a; simpl in Hab; [done | discriminate].
Qed.

Lemma all_sep_app (a b : string) :
  all_sep (a +:+ b) = all_sep a && all_sep b.
Proof.
  induction a as [|x a IH]; simpl; [done|]. by rewrite IH, andb_assoc.
Qed.

Lemma rstrip_sep_app_sep (a : string) :
  rstrip_sep (a +:+ "/") = rstrip_sep a.
Proof.
  induction a as [|x a IH]; simpl; [done|].
  rewrite all_sep_app, IH. simpl. by rewrite andb_true_r.
Qed.

Lemma all_sep_endswith (a : string) :
  a ≠ "" → all_sep a = true → endswith_sep a = true.
Proof.
  induction a as [|x a IH]; [done|]. intros _. simpl.
  intros [Hx Ha]%andb_true_iff. destruct a; [done|]. by apply IH.
Qed.

Lemma rstrip_sep_id (a : string) :
  endswith_sep a = false → rstrip_sep a = a.
Proof.
  induction a as [|x a IH]; [done|]. intros He.
  change (rstrip_sep (String x a))
    with (if all_sep (String x a) then "" else String x (rstrip_sep a)).
  destruct (all_sep (String x a)) eqn:Hall.
  - apply all_sep_endswith in Hall; [congruence | done].
  - f_equal. destruct a; [done|]. by apply IH.
Qed.

Lemma rfind_sep_from_app (a b : string) (i last : Z) :
  rfind_sep_from i last (a +:+ b) =
  rfind_sep_from (i + Z.of_nat (String.length a)) (rfind_sep_from i last a) b.
Proof.
  revert i last. induction a as [|x a IH]; intros i last; simpl.
  - f_equal. lia.
  - rewrite IH. f_equal. lia.
Qed.

Lemma rfind_sep_from_endswith (a : string) (i last : Z) :
  endswith_sep a = true →
  rfind_sep_from i last a = i + Z.of_nat (String.length a) - 1.
Proof.
  revert i last. induction a as [|x a IH]; intros i last; [done|].
  destruct a as [|y a].
  - simpl. intros ->. lia.
  - intros He. change (endswith_sep (String y a) = true) in He.
    change (rfind_sep_from i last (String x (String y a)))
      with (rfind_sep_from (i + 1) (if Ascii.eqb x sep then i else last)
              (String y a)).
    rewrite (IH _ _ He). simpl String.length. lia.
Qed.

Lemma slice_to_app (a b : string) :
  slice_to (Z.of_nat (String.length a)) (a +:+ b) = a.
Proof.
  unfold slice_to. rewrite Nat2Z.id.
  induction a as [|x a IH]; simpl.
  - by destruct b.
  - by rewrite IH.
Qed.

(** The directory of a file, whose name has no separator, below a path
    that ends in a separator. *)
Lemma dirname_file (X : string) :
  endswith_sep X = true → all_sep X = false →
  dirname (X +:+ "Project.toml") = rstrip_sep X.
Proof.
  intros He Hall. unfold dirname, rfind_sep.
  rewrite rfind_sep_from_app, (rfind_sep_from_endswith _ _ _ He).
  simpl rfind_sep_from.
  replace (0 + Z.of_nat (String.length X) - 1 + 1)
    with (Z.of_nat (String.length X)) by lia.
  rewrite slice_to_app, Hall.
  destruct X; [done|]. reflexivity.
Qed.

(** The installation directory as a prefix of what is joined to it. *)
Lemma path_join_relative (d rel : string) :
  startswith_sep rel = false →
  path_join d [rel] =
  (if (String.eqb d "" || endswith_sep d)%bool then d else d +:+ "/") +:+ rel.
Proof.
  intros Hr. unfold path_join. simpl. unfold join_component. rewrite Hr.
  destruct (String.eqb d "" || endswith_sep d)%bool; [done|].
  by rewrite string_app_assoc.
Qed.

Lemma path_join_environments (e : string) :
  startswith_sep e = false →
  path_join "environments" [e] = "environments/" +:+ e.
Proof. intros He. by rewrite path_join_relative. Qed.

Lemma path_join_project_toml (e : string) :
  startswith_sep e = false → e ≠ "" →
  path_join "environments" [e; "Project.toml"] =
  "environments/" +:+ e +:+ (if endswith_sep e then "" else "/") +:+ "Project.toml".
Proof.
  intros He Hne. unfold path_join. simpl fold_left.
  change (join_component "environments" e) with (path_join "environments" [e]).
  rewrite (path_join_environments e He).
  unfold join_component at 1. simpl startswith_sep.
  replace (String.eqb ("environments/" +:+ e) "") with false by done.
  rewrite (endswith_sep_app "environments/" e Hne). simpl orb.
  destruct (endswith_sep e); by rewrite ?string_app_assoc.
Qed.

(** The directory of the project file of the environment [e] is the
    directory [environments/e] of the installation, without trailing
    separators. *)
Lemma dirname_project_toml (d e : string) :
  startswith_sep e = false → e ≠ "" →
  dirname (path_join d [path_join "environments" [e; "Project.toml"]]) =
  rstrip_sep (path_join d ["environments"; e]).
Proof.
  intros He Hne.
  assert (Hje : path_join d ["environments"; e] =
                path_join d [path_join "environments" [e]]).
  { rewrite (path_join_environments e He).
    rewrite (path_join_relative d ("environments/" +:+ e)) by done.
    unfold path_join. simpl fold_left.
    change (join_component d "environments")
      with (path_join d ["environments"]).
    rewrite (path_join_relative d "environments") by done.
    unfold join_component. rewrite He.
    rewrite (endswith_sep_app _ "environments") by done.
    replace (String.eqb (_ +:+ "environments") "") with false.
    - simpl orb. cbv iota.
      destruct (String.eqb d "" || endswith_sep d)%bool;
        by rewrite ?string_app_assoc.
    - symmetry. apply String.eqb_neq.
      destruct (if (String.eqb d "" || endswith_sep d)%bool then d else d +:+ "/");
        discriminate. }
  rewrite Hje, (path_join_environments e He), (path_join_project_toml e He Hne).
  rewrite !path_join_relative by done.
  set (d' := if (String.eqb d "" || endswith_sep d)%bool then d else d +:+ "/").
  set (s := if endswith_sep e then "" else "/").
  replace (d' +:+ "environments/" +:+ e +:+ s +:+ "Project.toml")
    with ((d' +:+ "environments/" +:+ e +:+ s) +:+ "Project.toml")
    by (by rewrite !string_app_assoc).
  rewrite dirname_file.
  - subst s. destruct (endswith_sep e).
    + by rewrite string_app_nil_r.
    + replace (d' +:+ "environments/" +:+ e +:+ "/")
        with ((d' +:+ "environments/" +:+ e) +:+ "/")
        by (by rewrite !string_app_assoc).
      apply rstrip_sep_app_sep.
  - subst s. destruct (endswith_sep e) eqn:Hee.
    + rewrite string_app_nil_r.
      rewrite endswith_sep_app; [|by destruct e].
      by rewrite endswith_sep_app.
    + replace (d' +:+ "environments/" +:+ e +:+ "/")
        with ((d' +:+ "environments/" +:+ e) +:+ "/")
        by (by rewrite !string_app_assoc).
      by rewrite endswith_sep_app.
  - rewrite all_sep_app. simpl. by rewrite andb_false_r.
Qed.

Lemma rstrip_sep_app_keep (a b : string) :
  all_sep b = false → rstrip_sep (a +:+ b) = a +:+ rstrip_sep b.
Proof.
  intros Hb. induction a as [|x a IH]; [done|].
  change (rstrip_sep (String x a +:+ b))
    with (if all_sep (String x (a +:+ b)) then ""
          else String x (rstrip_sep (a +:+ b))).
  replace (all_sep (String x (a +:+ b))) with false.
  - by rewrite IH.
  - simpl. by rewrite all_sep_app, Hb, !andb_false_r.
Qed.

Lemma path_join_installdir_env (d e : string) :
  startswith_sep e = false →
  path_join d ["environments"; e] =
  (if (String.eqb d "" || endswith_sep d)%bool then d else d +:+ "/")
    +:+ "environments/" +:+ e.
Proof.
  intros He. unfold path_join. simpl fold_left.
  change (join_component d "environments") with (path_join d ["environments"]).
  rewrite (path_join_relative d "environments") by done.
  unfold join_component. rewrite He.
  rewrite (endswith_sep_app _ "environments") by done.
  replace (String.eqb (_ +:+ "environments") "") with false.
  - simpl orb. cbv iota.
    destruct (String.eqb d "" || endswith_sep d)%bool;
      by rewrite ?string_app_assoc.
  - symmetry. apply String.eqb_neq.
    destruct (if (String.eqb d "" || endswith_sep d)%bool then d else d +:+ "/");
      discriminate.
Qed.

Lemma has_sep_app (a b : string) :
  Spec.has_sep (a +:+ b) = Spec.has_sep a || Spec.has_sep b.
Proof.
  induction a as [|x a IH]; simpl; [done|]. by rewrite IH, orb_assoc.
Qed.

Lemma endswith_sep_has_sep (a : string) :
  endswith_sep a = true → Spec.has_sep a = true.
Proof.
  induction a as [|x a IH]; [done|]. destruct a as [|y a].
  - simpl. intros ->. reflexivity.
  - intros He. change (endswith_sep (String y a) = true) in He.
    change (Spec.has_sep (String x (String y a)))
      with (Ascii.eqb x sep || Spec.has_sep (String y a)).
    rewrite (IH He). apply orb_true_r.
Qed.

Lemma rfind_sep_from_no_sep (a : string) (i last : Z) :
  Spec.has_sep a = false → rfind_sep_from i last a = last.
Proof.
  revert i last. induction a as [|x a IH]; intros i last; simpl; [done|].
  intros [Hx Ha]%orb_false_elim. rewrite Hx. by apply IH.
Qed.

Lemma substring_all (a : string) : String.substring 0 (String.length a) a = a.
Proof. induction a as [|x a IH]; simpl; [done | by rewrite IH]. Qed.

Lemma slice_from_app (a b : string) :
  slice_from (Z.of_nat (String.length a)) (a +:+ b) = b.
Proof.
  unfold slice_from. rewrite Nat2Z.id.
  induction a as [|x a IH]; simpl.
  - rewrite Nat.sub_0_r. apply substring_all.
  - exact IH.
Qed.

(** The two parts of a path whose last component [b] has no separator. *)
Lemma path_split_app (a b : string) :
  endswith_sep a = true → Spec.has_sep b = false →
  path_split (a +:+ b) =
  (if (negb (String.eqb a "") && negb (all_sep a))%bool then rstrip_sep a else a,
   b).
Proof.
  intros Ha Hb. unfold path_split, rfind_sep.
  rewrite rfind_sep_from_app, (rfind_sep_from_endswith _ _ _ Ha),
    (rfind_sep_from_no_sep _ _ _ Hb).
  replace (0 + Z.of_nat (String.length a) - 1 + 1)
    with (Z.of_nat (String.length a)) by lia.
  by rewrite slice_to_app, slice_from_app.
Qed.

Lemma string_length_app (a b : string) :
  String.length (a +:+ b) = (String.length a + String.length b)%nat.
Proof. induction a as [|x a IH]; simpl; [done | by rewrite IH]. Qed.

Lemma path_prefix_refl (a : string) : Spec.path_prefix a a.
Proof. exists "". by rewrite string_app_nil_r. Qed.

Lemma path_prefix_trans (a b c : string) :
  Spec.path_prefix a b → Spec.path_prefix b c → Spec.path_prefix a c.
Proof.
  intros [r1 ->] [r2 ->]. exists (r1 +:+ r2). by rewrite string_app_assoc.
Qed.

Lemma substring_prefix (n : nat) (a : string) :
  Spec.path_prefix (String.substring 0 n a) a.
Proof.
  revert a. induction n as [|n IH]; intros [|x a]; simpl.
  - by exists "".
  - by exists (String x a).
  - by exists "".
  - destruct (IH a) as [r Hr]. exists r. simpl. by rewrite <- Hr.
Qed.

Lemma rstrip_sep_prefix (a : string) : Spec.path_prefix (rstrip_sep a) a.
Proof.
  induction a as [|x a IH].
  - by exists "".
  - change (rstrip_sep (String x a))
      with (if all_sep (String x a) then "" else String x (rstrip_sep a)).
    destruct (all_sep (String x a)).
    + by exists (String x a).
    + destruct IH as [r Hr]. exists r. simpl. by rewrite <- Hr.
Qed.

Lemma path_split_prefix (a : string) : Spec.path_prefix (path_split a).1 a.
Proof.
  unfold path_split. simpl. destruct (_ && _)%bool.
  - eapply path_prefix_trans; [apply rstrip_sep_prefix | apply substring_prefix].
  - apply substring_prefix.
Qed.

(** What [os.makedirs] creates is the path or lies above it. *)
Lemma makedirs_from_prefix (rounds : nat) (ex : string → bool) (a d : string) :
  d ∈ makedirs_from rounds ex a → Spec.path_prefix d a.
Proof.
  revert a. induction rounds as [|r IH]; intros a; cbn [makedirs_from].
  - intros ->%list_elem_of_singleton. apply path_prefix_refl.
  - assert (Hh := path_split_prefix a).
    destruct (path_split a) as [head tail] eqn:Hsplit. simpl in Hh.
    assert (Hh' : Spec.path_prefix
                    (if String.eqb tail "" then path_split head
                     else (head, tail)).1 a).
    { destruct (String.eqb tail ""); [|done].
      eapply path_prefix_trans; [apply path_split_prefix | done]. }
    destruct (if String.eqb tail "" then path_split head else (head, tail))
      as [head' tail']. simpl in Hh'.
    destruct (_ && _)%bool.
    + intros [Hd|Hd]%elem_of_app.
      * eapply path_prefix_trans; [by apply IH | done].
      * destruct (String.eqb tail' "."); [by apply elem_of_nil in Hd|].
        apply list_elem_of_singleton in Hd as ->. apply path_prefix_refl.
    + intros ->%list_elem_of_singleton. apply path_prefix_refl.
Qed.

(** *** [JuliaBundle.prepare_step] and [make_module_extra] *)

Section julia_prepare.
Variable E : JuliaBundle.env.

Lemma env_dir_shape (major minor : string) :
  startswith_sep ("v" +:+ major +:+ "." +:+ minor) = false ∧
  "v" +:+ major +:+ "." +:+ minor ≠ "" ∧
  endswith_sep ("v" +:+ major +:+ "." +:+ minor) = endswith_sep minor.
Proof.
  repeat split; [done|].
  replace ("v" +:+ major +:+ "." +:+ minor)
    with (("v" +:+ major) +:+ "." +:+ minor) by (by rewrite string_app_assoc).
  destruct minor as [|c minor].
  - by rewrite endswith_sep_app.
  - rewrite endswith_sep_app by done.
    by rewrite (endswith_sep_app "." (String c minor)).
Qed.

Lemma with_dirs_nil (s : JuliaBundle.state) : Spec.with_dirs [] s = s.
Proof. destruct s. unfold Spec.with_dirs. simpl. by rewrite app_nil_r. Qed.

Lemma with_dirs_app (a b : list string) (s : JuliaBundle.state) :
  Spec.with_dirs b (Spec.with_dirs a s) = Spec.with_dirs (a ++ b) s.
Proof. unfold Spec.with_dirs. simpl. by rewrite app_assoc. Qed.

Lemma make_each_cons_ok (path d : string) (r : list string)
    (s : JuliaBundle.state) :
  JuliaBundle.mkdir_error E d = None →
  JuliaBundle.make_each E path (d :: r) s =
  JuliaBundle.make_each E path r (JuliaBundle.add_dir d s).
Proof. intros H. cbn [JuliaBundle.make_each]. by rewrite H. Qed.

Lemma make_each_cons_error (path d : string) (r : list string) m
    (s : JuliaBundle.state) :
  JuliaBundle.mkdir_error E d = Some m →
  JuliaBundle.make_each E path (d :: r) s =
  (Raised (EasyBuildError ("Failed to create directory " +:+ path +:+ ": " +:+ m)),
   s).
Proof. intros H. cbn [JuliaBundle.make_each]. by rewrite H. Qed.

(** When [make_each] returns, no directory failed. *)
Lemma make_each_returned (path : string) (todo : list string)
    (s s' : JuliaBundle.state) :
  JuliaBundle.make_each E path todo s = (Returned tt, s') →
  ∀ d, d ∈ todo → JuliaBundle.mkdir_error E d = None.
Proof.
  revert s. induction todo as [|x r IH]; intros s Hret d Hd;
    [by apply elem_of_nil in Hd|].
  destruct (JuliaBundle.mkdir_error E x) as [m|] eqn:Hx.
  - by rewrite (make_each_cons_error _ _ _ _ _ Hx) in Hret.
  - rewrite (make_each_cons_ok _ _ _ _ Hx) in Hret.
    apply elem_of_cons in Hd as [->|Hd]; [done|].
    by apply (IH _ Hret).
Qed.

(** [make_each] stops at the first directory that cannot be created. *)
Lemma make_each_ok (path : string) (todo : list string) (s : JuliaBundle.state) :
  (∀ d, d ∈ todo → JuliaBundle.mkdir_error E d = None) →
  JuliaBundle.make_each E path todo s = (Returned tt, Spec.with_dirs todo s).
Proof.
  revert s. induction todo as [|d r IH]; intros s Hok.
  - simpl. by rewrite with_dirs_nil.
  - rewrite (make_each_cons_ok _ _ _ _ (Hok d (list_elem_of_here _ _))).
    rewrite IH by (intros x Hx; apply Hok; by apply list_elem_of_further).
    f_equal. apply (with_dirs_app [d] r).
Qed.

Lemma make_each_error (path : string) (made : list string) d later m
    (s : JuliaBundle.state) :
  (∀ x, x ∈ made → JuliaBundle.mkdir_error E x = None) →
  JuliaBundle.mkdir_error E d = Some m →
  JuliaBundle.make_each E path (made ++ d :: later) s =
  (Raised (EasyBuildError ("Failed to create directory " +:+ path +:+ ": " +:+ m)),
   Spec.with_dirs made s).
Proof.
  revert s. induction made as [|x made IH]; intros s Hok Hd.
  - simpl app. by rewrite (make_each_cons_error _ _ _ _ _ Hd), with_dirs_nil.
  - change ((x :: made) ++ d :: later) with (x :: (made ++ d :: later)).
    rewrite (make_each_cons_ok _ _ _ _ (Hok x (list_elem_of_here _ _))).
    rewrite IH; [|intros y Hy; apply Hok; by apply list_elem_of_further|done].
    f_equal. apply (with_dirs_app [x] made).
Qed.

(** Whatever happens, [make_each] changes nothing but the directories
    made, which are among those it was asked for. *)
Lemma make_each_cases (path : string) (todo : list string)
    (s : JuliaBundle.state) :
  ∃ o made,
    JuliaBundle.make_each E path todo s = (o, Spec.with_dirs made s) ∧
    (∀ d, d ∈ made → d ∈ todo) ∧
    (o = Returned tt ∨
     ∃ m, o = Raised (EasyBuildError
                        ("Failed to create directory " +:+ path +:+ ": " +:+ m))).
Proof.
  revert s. induction todo as [|d r IH]; intros s.
  - exists (Returned tt), []. rewrite with_dirs_nil. split; [done|].
    split; [done | by left].
  - destruct (JuliaBundle.mkdir_error E d) as [m|] eqn:Hd.
    + exists (Raised (EasyBuildError
                ("Failed to create directory " +:+ path +:+ ": " +:+ m))), [].
      rewrite with_dirs_nil, (make_each_cons_error _ _ _ _ _ Hd).
      split; [done|]. split; [|right; by exists m].
      intros x Hx. by apply elem_of_nil in Hx.
    + destruct (IH (JuliaBundle.add_dir d s)) as (o & made & Hrun & Hsub & Ho).
      exists o, (d :: made).
      rewrite (make_each_cons_ok _ _ _ _ Hd).
      rewrite Hrun. split; [f_equal; apply (with_dirs_app [d] made)|].
      split; [|done].
      intros x [->|Hx]%elem_of_cons;
        [apply list_elem_of_here | by apply list_elem_of_further, Hsub].
Qed.

Lemma mkdir_spec (path : string) (s : JuliaBundle.state) :
  JuliaBundle.mkdir E path s =
  if JuliaBundle.exists_now E s path then (Returned tt, s)
  else JuliaBundle.make_each E path
         (makedirs (JuliaBundle.exists_now E s) path) s.
Proof.
  unfold JuliaBundle.mkdir. unfold_monad. simpl.
  by destruct (JuliaBundle.exists_now E s path).
Qed.

(** Whatever happens, [mkdir] changes nothing but the directories made,
    which are the path or lie above it. *)
Lemma mkdir_cases (path : string) (s : JuliaBundle.state) :
  ∃ o made,
    JuliaBundle.mkdir E path s = (o, Spec.with_dirs made s) ∧
    (∀ d, d ∈ made → Spec.path_prefix d path) ∧
    (o = Returned tt ∨
     ∃ m, o = Raised (EasyBuildError
                        ("Failed to create directory " +:+ path +:+ ": " +:+ m))).
Proof.
  rewrite mkdir_spec. destruct (JuliaBundle.exists_now E s path).
  - exists (Returned tt), []. rewrite with_dirs_nil. split; [done|].
    split; [|by left]. intros d Hd. by apply elem_of_nil in Hd.
  - destruct (make_each_cases path (makedirs (JuliaBundle.exists_now E s) path) s)
      as (o & made & Hrun & Hsub & Ho).
    exists o, made. split; [done|]. split; [|done].
    intros d Hd. by apply (makedirs_from_prefix _ _ _ _ (Hsub d Hd)).
Qed.

(** The directory [environments] of the installation is among what
    [os.makedirs] creates for it. *)
Lemma makedirs_from_environments (rounds : nat) (ex : string → bool) (d : string) :
  let d' := if (String.eqb d "" || endswith_sep d)%bool then d else d +:+ "/" in
  d' +:+ "environments" ∈ makedirs_from rounds ex (d' +:+ "environments").
Proof.
  intros d'. destruct rounds as [|n]; [apply list_elem_of_here|].
  cbn [makedirs_from].
  assert (Hsplit : ∃ head, path_split (d' +:+ "environments") =
                           (head, "environments")).
  { subst d'. destruct (String.eqb d "" || endswith_sep d)%bool eqn:Hd.
    - apply orb_true_iff in Hd as [->%String.eqb_eq|Hd].
      + by eexists.
      + eexists. by apply path_split_app.
    - eexists. apply path_split_app; [|done]. by apply endswith_sep_app. }
  destruct Hsplit as [head ->]. simpl String.eqb. cbv iota.
  destruct (_ && _)%bool; [|apply list_elem_of_here].
  apply elem_of_app. right. apply list_elem_of_here.
Qed.

(** The path of the environment when the two components of the version
    have no separator, and what [os.makedirs] creates for it: the
    directory last, and before it the directory [environments] when that
    is missing. *)
Lemma project_env_shape (d major minor : string) (ex : string → bool) :
  Spec.has_sep major = false → Spec.has_sep minor = false →
  let env_dir := "v" +:+ major +:+ "." +:+ minor in
  let project_env := path_join d ["environments"; env_dir] in
  rstrip_sep project_env = project_env ∧
  ∃ parents, makedirs ex project_env = parents ++ [project_env] ∧
             (ex (path_join d ["environments"]) = false →
              path_join d ["environments"] ∈ parents).
Proof.
  intros Hmajor Hminor env_dir project_env.
  assert (He : Spec.has_sep env_dir = false).
  { unfold env_dir. change ("v" +:+ major +:+ "." +:+ minor)
      with ("v" +:+ (major +:+ "." +:+ minor)).
    by rewrite !has_sep_app, Hmajor, Hminor. }
  assert (Hend : endswith_sep env_dir = false).
  { destruct (endswith_sep env_dir) eqn:Hee; [|done].
    apply endswith_sep_has_sep in Hee. congruence. }
  unfold project_env. rewrite (path_join_installdir_env d env_dir) by done.
  rewrite (path_join_relative d "environments") by done.
  assert (Hin := makedirs_from_environments).
  set (d' := if (String.eqb d "" || endswith_sep d)%bool then d else d +:+ "/")
    in *.
  replace (d' +:+ "environments/" +:+ env_dir)
    with ((d' +:+ "environments/") +:+ env_dir)
    by (by rewrite string_app_assoc).
  set (Y := d' +:+ "environments/").
  assert (HY : endswith_sep Y = true) by (unfold Y; by rewrite endswith_sep_app).
  assert (Hstrip : rstrip_sep Y = d' +:+ "environments").
  { unfold Y. replace (d' +:+ "environments/")
      with ((d' +:+ "environments") +:+ "/") by (by rewrite string_app_assoc).
    rewrite rstrip_sep_app_sep. apply rstrip_sep_id. by rewrite endswith_sep_app. }
  assert (Hall : all_sep Y = false).
  { unfold Y. rewrite all_sep_app. simpl. apply andb_false_r. }
  split.
  - apply rstrip_sep_id. by rewrite endswith_sep_app.
  - unfold makedirs.
    destruct (String.length (Y +:+ env_dir)) as [|n] eqn:Hlen.
    { exfalso. unfold Y in Hlen. rewrite !string_length_app in Hlen.
      simpl in Hlen. lia. }
    cbn [makedirs_from]. rewrite (path_split_app Y env_dir HY He).
    replace (String.eqb env_dir "") with false by done.
    replace (String.eqb env_dir ".") with false by done.
    replace (String.eqb Y "") with false
      by (symmetry; apply String.eqb_neq; unfold Y; by destruct d').
    rewrite Hall, Hstrip. simpl negb. simpl andb.
    replace (String.eqb (d' +:+ "environments") "") with false
      by (symmetry; apply String.eqb_neq; by destruct d').
    simpl negb. simpl andb.
    destruct (ex (d' +:+ "environments")) eqn:Hex.
    + exists []. split; [done|]. discriminate.
    + eexists. split; [reflexivity|]. intros _. apply Hin.
Qed.

(** Closed form of [prepare_step]. *)
Lemma prepare_step_spec (st : JuliaBundle.state) :
  JuliaBundle.prepare_step E st =
  match prepare_step (JuliaBundle.Bundle E) st with
  | (Raised e, st1) => (Raised e, st1)
  | (Returned _, st1) =>
      match JuliaBundle.get_software_root E "Julia" with
      | None => (Raised (EasyBuildError "Julia not included as dependency!"), st1)
      | Some _ =>
          match JuliaBundle.get_software_version E "Julia" with
          | None =>
              (Raised (AttributeError "'NoneType' object has no attribute 'split'"),
               st1)
          | Some v =>
              match split "." v with
              | major :: minor :: _ =>
                  let env_dir := "v" +:+ major +:+ "." +:+ minor in
                  let toml := path_join "environments" [env_dir; "Project.toml"] in
                  let project_env :=
                    rstrip_sep (path_join (JuliaBundle.installdir st1)
                                  ["environments"; env_dir]) in
                  JuliaBundle.mkdir E project_env
                    (JuliaBundle.set_julia_project_env project_env
                       (JuliaBundle.set_julia_project_toml toml st1))
              | _ =>
                  (Raised (IndexError
                     "Replacement index out of range for positional args tuple"),
                   st1)
              end
          end
      end
  end.
Proof.
  unfold JuliaBundle.prepare_step.
  unfold mbind at 1, M_bind at 1, bind at 1.
  destruct (prepare_step (JuliaBundle.Bundle E) st) as [[[]|e] st1]; [|done].
  destruct (JuliaBundle.get_software_root E "Julia") as [root|]; [|done].
  unfold mbind at 1, M_bind at 1, bind at 1, ret at 1.
  destruct (JuliaBundle.get_software_version E "Julia") as [v|]; [|done].
  unfold mbind at 1, M_bind at 1, bind at 1, ret at 1.
  destruct (split "." v) as [|major [|minor rest]]; [done..|].
  unfold JuliaBundle.julia_env_dir.
  destruct (env_dir_shape major minor) as (Hs & Hne & _).
  rewrite <- (dirname_project_toml _ _ Hs Hne).
  reflexivity.
Qed.

(** C9.  After the parent's [prepare_step] has returned, [prepare_step]
    raises the error "Julia not included as dependency!" if and only if
    Julia is not a dependency.  When Julia is a dependency whose version
    has the components [major], [minor] and possibly more, the step sets
    the project file to [environments/v<major>.<minor>/Project.toml] and
    the project environment to the directory [environments/v<major>.<minor>]
    of the installation directory, and creates that directory together
    with the directories above it that are missing, unless it exists
    already; it raises when one of them cannot be created, with those
    before it created.  [todo] are the directories to create, outermost
    first: when the two components have no separator in them, the last of
    them is the directory of the environment, and the directory
    [environments] is among those before it when it is missing. *)
Theorem julia_prepare_step (st st1 : JuliaBundle.state) :
  prepare_step (JuliaBundle.Bundle E) st = (Returned tt, st1) →
  ((JuliaBundle.prepare_step E st).1 =
     Raised (EasyBuildError "Julia not included as dependency!")
   ↔ JuliaBundle.get_software_root E "Julia" = None) ∧
  (∀ root v major minor rest,
     JuliaBundle.get_software_root E "Julia" = Some root →
     JuliaBundle.get_software_version E "Julia" = Some v →
     split "." v = major :: minor :: rest →
     let env_dir := "v" +:+ major +:+ "." +:+ minor in
     let toml := path_join "environments" [env_dir; "Project.toml"] in
     let project_env :=
       rstrip_sep (path_join (JuliaBundle.installdir st1)
                     ["environments"; env_dir]) in
     let exists_ p :=
       JuliaBundle.path_exists E p || bool_decide (p ∈ JuliaBundle.dirs_made st1) in
     let todo := if exists_ project_env then [] else makedirs exists_ project_env in
     (∀ st',
        JuliaBundle.prepare_step E st = (Returned tt, st') ↔
        (∀ d, d ∈ todo → JuliaBundle.mkdir_error E d = None) ∧
        st' = {| JuliaBundle.cfg := JuliaBundle.cfg st1;
                 JuliaBundle.enable_templating := JuliaBundle.enable_templating st1;
                 JuliaBundle.installdir := JuliaBundle.installdir st1;
                 JuliaBundle.name := JuliaBundle.name st1;
                 JuliaBundle.julia_project_toml := Some toml;
                 JuliaBundle.julia_project_env := Some project_env;
                 JuliaBundle.dirs_made := JuliaBundle.dirs_made st1 ++ todo |}) ∧
     (∀ made d later m,
        todo = made ++ d :: later →
        (∀ x, x ∈ made → JuliaBundle.mkdir_error E x = None) →
        JuliaBundle.mkdir_error E d = Some m →
        JuliaBundle.prepare_step E st =
        (Raised (EasyBuildError
                   ("Failed to create directory " +:+ project_env +:+ ": " +:+ m)),
         {| JuliaBundle.cfg := JuliaBundle.cfg st1;
            JuliaBundle.enable_templating := JuliaBundle.enable_templating st1;
            JuliaBundle.installdir := JuliaBundle.installdir st1;
            JuliaBundle.name := JuliaBundle.name st1;
            JuliaBundle.julia_project_toml := Some toml;
            JuliaBundle.julia_project_env := Some project_env;
            JuliaBundle.dirs_made := JuliaBundle.dirs_made st1 ++ made |})) ∧
     (endswith_sep minor = false →
      toml = "environments/" +:+ env_dir +:+ "/Project.toml" ∧
      project_env =
        path_join (JuliaBundle.installdir st1) ["environments"; env_dir]) ∧
     (Spec.has_sep major = false → Spec.has_sep minor = false →
      exists_ project_env = false →
      ∃ parents,
        todo = parents ++ [project_env] ∧
        (exists_ (path_join (JuliaBundle.installdir st1) ["environments"]) = false →
         path_join (JuliaBundle.installdir st1) ["environments"] ∈ parents))).
Proof.
  intros Hparent. split.
  - rewrite prepare_step_spec, Hparent.
    destruct (JuliaBundle.get_software_root E "Julia") as [root|]; [|done].
    split; [|done].
    destruct (JuliaBundle.get_software_version E "Julia") as [v|]; [|done].
    destruct (split "." v) as [|major [|minor rest]]; [done..|].
    cbv zeta.
    destruct (mkdir_cases
                (rstrip_sep (path_join (JuliaBundle.installdir st1)
                   ["environments"; "v" +:+ major +:+ "." +:+ minor]))
                (JuliaBundle.set_julia_project_env
                   (rstrip_sep (path_join (JuliaBundle.installdir st1)
                      ["environments"; "v" +:+ major +:+ "." +:+ minor]))
                   (JuliaBundle.set_julia_project_toml
                      (path_join "environments"
                         ["v" +:+ major +:+ "." +:+ minor; "Project.toml"]) st1)))
      as (o & made & -> & _ & [->|[m ->]]); simpl; discriminate.
  - intros root v major minor rest Hroot Hv Hsplit env_dir toml project_env
      exists_ todo.
    destruct (env_dir_shape major minor) as (Hs & Hne & He). fold env_dir in Hs, Hne, He.
    set (st2 := JuliaBundle.set_julia_project_env project_env
                  (JuliaBundle.set_julia_project_toml toml st1)).
    assert (Hrun : JuliaBundle.prepare_step E st =
                   if exists_ project_env then (Returned tt, st2)
                   else JuliaBundle.make_each E project_env
                          (makedirs exists_ project_env) st2).
    { rewrite prepare_step_spec, Hparent, Hroot, Hv, Hsplit. cbv zeta.
      fold env_dir. fold toml. fold project_env. fold st2.
      apply mkdir_spec. }
    assert (Hst2 : ∀ l, Spec.with_dirs l st2 =
              {| JuliaBundle.cfg := JuliaBundle.cfg st1;
                 JuliaBundle.enable_templating := JuliaBundle.enable_templating st1;
                 JuliaBundle.installdir := JuliaBundle.installdir st1;
                 JuliaBundle.name := JuliaBundle.name st1;
                 JuliaBundle.julia_project_toml := Some toml;
                 JuliaBundle.julia_project_env := Some project_env;
                 JuliaBundle.dirs_made := JuliaBundle.dirs_made st1 ++ l |})
      by reflexivity.
    assert (Hrun' : JuliaBundle.prepare_step E st =
                    JuliaBundle.make_each E project_env todo st2).
    { rewrite Hrun. unfold todo. by destruct (exists_ project_env). }
    split; [|split; [|split]].
    + intros st'. rewrite <- Hst2. split.
      * intros Hret. rewrite Hrun' in Hret.
        assert (Hok := make_each_returned _ _ _ _ Hret).
        split; [exact Hok|].
        rewrite (make_each_ok _ _ _ Hok) in Hret. by injection Hret.
      * intros [Hok ->]. rewrite Hrun'. by apply make_each_ok.
    + intros made d later m Htodo Hok Hd.
      rewrite Hrun', Htodo, <- Hst2. by apply make_each_error.
    + intros Hminor. rewrite <- He in Hminor. split.
      * unfold toml. rewrite (path_join_project_toml _ Hs Hne), Hminor.
        reflexivity.
      * unfold project_env. apply rstrip_sep_id.
        unfold path_join. simpl fold_left. unfold join_component at 1.
        rewrite Hs.
        destruct (String.eqb _ "" || endswith_sep _)%bool.
        -- by rewrite endswith_sep_app.
        -- rewrite endswith_sep_app by done.
           by rewrite (endswith_sep_app "/" env_dir).
    + intros Hmajor Hminor Hnew. unfold todo. rewrite Hnew.
      destruct (project_env_shape (JuliaBundle.installdir st1) major minor
                  exists_ Hmajor Hminor) as [Hid [parents [Hparents Habove]]].
      fold env_dir in Hid, Hparents.
      exists parents. unfold project_env. rewrite Hid. by split.
Qed.


End julia_prepare.

Lemma julia_prepare_step_witness :
  prepare_step (JuliaBundle.Bundle (Sample.julia_env None)) Sample.julia_state =
    (Returned tt, Sample.julia_state) ∧
  (JuliaBundle.prepare_step (Sample.julia_env None) Sample.julia_state).1 =
    Raised (EasyBuildError "Julia not included as dependency!") ∧
  JuliaBundle.prepare_step (Sample.julia_env (Some "/sw/Julia")) Sample.julia_state =
    (Returned tt,
     {| JuliaBundle.cfg := Sample.julia_cfg;
        JuliaBundle.enable_templating := true;
        JuliaBundle.installdir := "/sw/JuliaBundle/1.0";
        JuliaBundle.name := "JuliaBundle";
        JuliaBundle.julia_project_toml := Some "environments/v1.9/Project.toml";
        JuliaBundle.julia_project_env :=
          Some "/sw/JuliaBundle/1.0/environments/v1.9";
        JuliaBundle.dirs_made :=
          ["/sw/JuliaBundle/1.0/environments";
           "/sw/JuliaBundle/1.0/environments/v1.9"] |}).
Proof.
  split; [reflexivity|]. split.
  - apply (proj1 (julia_prepare_step (Sample.julia_env None)
                    Sample.julia_state Sample.julia_state eq_refl)).
    reflexivity.
  - apply (proj1 (proj2 (julia_prepare_step (Sample.julia_env (Some "/sw/Julia"))
                           Sample.julia_state Sample.julia_state eq_refl)
                    "/sw/Julia" "1.9.3" "1" "9" ["3"] eq_refl eq_refl eq_refl)).
    split; [intros d _; reflexivity | reflexivity].
Defined.

Section julia_module.
Variable E : JuliaBundle.env.

(** The project file that [prepare_step] leaves when it returns. *)
Lemma prepare_step_returned (st0 st : JuliaBundle.state) v major minor rest :
  JuliaBundle.get_software_version E "Julia" = Some v →
  split "." v = major :: minor :: rest →
  JuliaBundle.prepare_step E st0 = (Returned tt, st) →
  JuliaBundle.julia_project_toml st =
  Some (path_join "environments"
          ["v" +:+ major +:+ "." +:+ minor; "Project.toml"]).
Proof.
  intros Hv Hsplit. rewrite prepare_step_spec.
  destruct (prepare_step (JuliaBundle.Bundle E) st0) as [[[]|e] st1]; [|done].
  destruct (JuliaBundle.get_software_root E "Julia"); [|done].
  rewrite Hv, Hsplit. cbv zeta.
  match goal with
  | |- JuliaBundle.mkdir _ ?p ?s = _ → _ =>
      destruct (mkdir_cases E p s) as (o & made & Hrun & _ & _); rewrite Hrun
  end.
  by intros [= -> <-].
Qed.

(** C6.  After [prepare_step], for a Julia version with the components
    [major], [minor] and possibly more, [make_module_extra] returns the
    parent's text followed, in this order, by the snippet of
    [JULIA_PATHS_SOFT_INIT] for the syntax of the module generator when
    the syntax is set, by the entry that appends the empty relative path
    to [JULIA_DEPOT_PATH], and by the entry that appends
    [environments/v<major>.<minor>/Project.toml] to [JULIA_LOAD_PATH]. *)
Theorem julia_make_module_extra (st0 st st' : JuliaBundle.state)
    v major minor rest txt :
  JuliaBundle.get_software_version E "Julia" = Some v →
  split "." v = major :: minor :: rest →
  JuliaBundle.prepare_step E st0 = (Returned tt, st) →
  make_module_extra (JuliaBundle.Bundle E) st = (Returned txt, st') →
  JuliaBundle.julia_project_toml st' = JuliaBundle.julia_project_toml st →
  (truthy (JuliaBundle.SYNTAX E) = true →
   is_Some (JuliaBundle.JULIA_PATHS_SOFT_INIT E !! fstr (JuliaBundle.SYNTAX E))) →
  let toml := path_join "environments"
                ["v" +:+ major +:+ "." +:+ minor; "Project.toml"] in
  let soft_init :=
    if truthy (JuliaBundle.SYNTAX E)
    then default "" (JuliaBundle.JULIA_PATHS_SOFT_INIT E
                       !! fstr (JuliaBundle.SYNTAX E))
    else "" in
  JuliaBundle.make_module_extra E st =
    (Returned
       (((txt +:+ soft_init)
           +:+ JuliaBundle.append_paths E "JULIA_DEPOT_PATH" [""])
           +:+ JuliaBundle.append_paths E "JULIA_LOAD_PATH" [toml]),
     st') ∧
  (endswith_sep minor = false →
   toml = "environments/v" +:+ major +:+ "." +:+ minor +:+ "/Project.toml").
Proof.
  intros Hv Hsplit Hprep Hparent Hkeep Hsyntax toml soft_init.
  assert (Htoml := prepare_step_returned st0 st v major minor rest Hv Hsplit Hprep).
  fold toml in Htoml. rewrite <- Hkeep in Htoml.
  split.
  - unfold JuliaBundle.make_module_extra.
    rewrite (bind_returned _ _ _ _ _ Hparent).
    unfold soft_init.
    destruct (truthy (JuliaBundle.SYNTAX E)) eqn:Hsyn.
    + destruct (Hsyntax eq_refl) as [snippet Hsn]. rewrite Hsn. simpl default.
      rewrite (bind_returned _ _ _ (txt +:+ snippet) st' eq_refl).
      unfold JuliaBundle.get_julia_project_toml.
      unfold_monad. by rewrite Htoml.
    + rewrite (bind_returned _ _ _ txt st' eq_refl).
      unfold JuliaBundle.get_julia_project_toml.
      unfold_monad. rewrite Htoml. by rewrite string_app_nil_r.
  - intros Hminor.
    destruct (env_dir_shape major minor) as (Hs & Hne & He).
    unfold toml. rewrite (path_join_project_toml _ Hs Hne), He, Hminor.
    simpl. by rewrite !string_app_assoc.
Qed.

End julia_module.

Lemma julia_make_module_extra_witness :
  JuliaBundle.make_module_extra (Sample.julia_env (Some "/sw/Julia"))
    (JuliaBundle.prepare_step (Sample.julia_env (Some "/sw/Julia"))
       Sample.julia_state).2 =
  (Returned
     ("-- soft init" +:+ Sample.nl +:+
      "append_path(JULIA_DEPOT_PATH, )" +:+ Sample.nl +:+
      "append_path(JULIA_LOAD_PATH, environments/v1.9/Project.toml)" +:+ Sample.nl),
   (JuliaBundle.prepare_step (Sample.julia_env (Some "/sw/Julia"))
      Sample.julia_state).2).
Proof.
  exact (proj1 (julia_make_module_extra (Sample.julia_env (Some "/sw/Julia"))
                  Sample.julia_state _ _ "1.9.3" "1" "9" ["3"] ""
                  eq_refl eq_refl eq_refl eq_refl eq_refl
                  (λ _, ex_intro _ _ eq_refl))).
Defined.

(** *** [JuliaBundle.__init__] *)

Section julia_init.
Variable E : JuliaBundle.env.




Lemma julia_cfg_getitem_raw (s : JuliaBundle.state) k v :
  JuliaBundle.enable_templating s = false →
  JuliaBundle.cfg s !! k = Some v →
  JuliaBundle.cfg_getitem E k s = (Returned v, s).
Proof.
  intros Ht Hk. unfold JuliaBundle.cfg_getitem, getitem. unfold_monad.
  rewrite Hk. simpl. by rewrite Ht.
Qed.

Lemma exts_default_options_get (s : JuliaBundle.state) d :
  JuliaBundle.enable_templating s = false →
  JuliaBundle.cfg s !! "exts_default_options" = Some (VDict d) →
  JuliaBundle.exts_default_options E s = (Returned d, s).
Proof.
  intros Ht Hk. unfold JuliaBundle.exts_default_options.
  by rewrite (bind_returned _ _ _ _ _ (julia_cfg_getitem_raw _ _ _ Ht Hk)).
Qed.

Lemma set_exts_default_option_spec (s : JuliaBundle.state) d k v :
  JuliaBundle.enable_templating s = false →
  JuliaBundle.cfg s !! "exts_default_options" = Some (VDict d) →
  JuliaBundle.set_exts_default_option E k v s =
  (Returned tt,
   JuliaBundle.set_cfg
     (<["exts_default_options" := VDict (<[k := v]> d)]> (JuliaBundle.cfg s)) s).
Proof.
  intros Ht Hk. unfold JuliaBundle.set_exts_default_option.
  by rewrite (bind_returned _ _ _ _ _ (exts_default_options_get _ _ Ht Hk)).
Qed.

Lemma set_cfg_id (s : JuliaBundle.state) :
  JuliaBundle.set_cfg (JuliaBundle.cfg s) s = s.
Proof. by destruct s. Qed.

(** One round of the loop of [__init__]. *)
Lemma default_option_step cfg1 (s : JuliaBundle.state) d k v :
  JuliaBundle.enable_templating s = false →
  JuliaBundle.cfg s = <["exts_default_options" := VDict d]> cfg1 →
  k ≠ "exts_default_options" → cfg1 !! k = Some v →
  JuliaBundle.default_option_from_cfg E k s =
  (Returned tt,
   JuliaBundle.set_cfg
     (<["exts_default_options" :=
          VDict (if bool_decide (k ∈ dom d) then d else <[k := v]> d)]> cfg1) s).
Proof.
  intros Ht Hc Hne Hv.
  assert (Hd : JuliaBundle.cfg s !! "exts_default_options" = Some (VDict d))
    by (rewrite Hc; apply lookup_insert_eq).
  unfold JuliaBundle.default_option_from_cfg.
  rewrite (bind_returned _ _ _ _ _ (exts_default_options_get _ _ Ht Hd)).
  case_bool_decide as Hin.
  - unfold ret. by rewrite <- Hc, set_cfg_id.
  - assert (Hkv : JuliaBundle.cfg s !! k = Some v)
      by (rewrite Hc, lookup_insert_ne; done).
    rewrite (bind_returned _ _ _ _ _ (julia_cfg_getitem_raw _ _ _ Ht Hkv)).
    rewrite (set_exts_default_option_spec _ _ _ _ Ht Hd).
    by rewrite Hc, insert_insert_eq.
Qed.

(** The loop of [__init__], from a state without templating whose
    default options are [d]. *)
Lemma fill_loop cfg1 keys (s : JuliaBundle.state) d :
  JuliaBundle.enable_templating s = false →
  JuliaBundle.cfg s = <["exts_default_options" := VDict d]> cfg1 →
  (∀ k, k ∈ keys → is_Some (cfg1 !! k) ∧ k ≠ "exts_default_options") →
  for_each keys (JuliaBundle.default_option_from_cfg E) s =
  (Returned tt,
   JuliaBundle.set_cfg
     (<["exts_default_options" := VDict (Spec.fill_defaults cfg1 keys d)]> cfg1) s).
Proof.
  revert s d. induction keys as [|k keys IH]; intros s d Ht Hc Hkeys.
  - simpl. unfold ret. by rewrite <- Hc, set_cfg_id.
  - destruct (Hkeys k (list_elem_of_here _ _)) as [[v Hv] Hne].
    assert (Hrest : ∀ k', k' ∈ keys →
              is_Some (cfg1 !! k') ∧ k' ≠ "exts_default_options")
      by (intros k' Hk'; apply Hkeys; by apply list_elem_of_further).
    change (for_each (k :: keys) (JuliaBundle.default_option_from_cfg E) s)
      with (bind (JuliaBundle.default_option_from_cfg E k)
              (λ _, for_each keys (JuliaBundle.default_option_from_cfg E)) s).
    unfold bind. rewrite (default_option_step cfg1 s d k v Ht Hc Hne Hv).
    rewrite (IH _ (if bool_decide (k ∈ dom d) then d else <[k := v]> d));
      [|done|done|done].
    unfold Spec.fill_defaults. simpl fold_left. by rewrite Hv.
Qed.

Lemma cfg_setitem_spec (s : JuliaBundle.state) k v :
  JuliaBundle.cfg_setitem k v s =
  (Returned tt, JuliaBundle.set_cfg (<[k := v]> (JuliaBundle.cfg s)) s).
Proof. reflexivity. Qed.

(** Closed form of [__init__]. *)
Lemma julia_init_spec (st st0 : JuliaBundle.state) d0 :
  init (JuliaBundle.Bundle E) st = (Returned tt, st0) →
  JuliaBundle.cfg st0 !! "exts_default_options" = Some (VDict d0) →
  (∀ k, k ∈ JuliaBundle.jlpkg_keys E → is_Some (JuliaBundle.cfg st0 !! k)) →
  "exts_default_options" ∉ JuliaBundle.jlpkg_keys E →
  let cfg1 :=
    <["exts_filter" := JuliaBundle.EXTS_FILTER_JULIA_PACKAGES E]>
      (<["exts_defaultclass" := VStr "JuliaPackage"]> (JuliaBundle.cfg st0)) in
  JuliaBundle.__init__ E st =
  (Returned tt,
   JuliaBundle.set_cfg
     (<["exts_default_options" :=
          VDict (Spec.with_default_sources
                   (Spec.fill_defaults cfg1 (JuliaBundle.jlpkg_keys E) d0))]>
        cfg1) st0).
Proof.
  intros Hinit Hd0 Hkeys Hself cfg1.
  set (d1 := Spec.fill_defaults cfg1 (JuliaBundle.jlpkg_keys E) d0).
  assert (Hc1 : cfg1 !! "exts_default_options" = Some (VDict d0)).
  { unfold cfg1. by rewrite !lookup_insert_ne. }
  assert (Hkeys1 : ∀ k, k ∈ JuliaBundle.jlpkg_keys E →
            is_Some (cfg1 !! k) ∧ k ≠ "exts_default_options").
  { intros k Hk. split; [|by intros ->].
    unfold cfg1. rewrite !lookup_insert_is_Some'. auto. }
  set (s2 := JuliaBundle.set_enable_templating false
               (JuliaBundle.set_cfg cfg1 st0)).
  assert (Hbody :
    (for_each (JuliaBundle.jlpkg_keys E) (JuliaBundle.default_option_from_cfg E)
       ≫= λ _, JuliaBundle.exts_default_options E
       ≫= λ d, if bool_decide ("sources" ∈ dom d) then ret tt
               else JuliaBundle.set_exts_default_option E "sources"
                      JuliaBundle.default_sources) s2 =
    (Returned tt,
     JuliaBundle.set_cfg
       (<["exts_default_options" := VDict (Spec.with_default_sources d1)]> cfg1)
       s2)).
  { rewrite (bind_returned _ _ _ _ _
               (fill_loop cfg1 (JuliaBundle.jlpkg_keys E) s2 d0 eq_refl
                  (eq_sym (insert_id _ _ _ Hc1)) Hkeys1)).
    fold d1.
    set (s3 := JuliaBundle.set_cfg
                 (<["exts_default_options" := VDict d1]> cfg1) s2).
    assert (Hd1 : JuliaBundle.cfg s3 !! "exts_default_options" = Some (VDict d1))
      by apply lookup_insert_eq.
    rewrite (bind_returned _ _ _ _ _ (exts_default_options_get s3 d1 eq_refl Hd1)).
    unfold Spec.with_default_sources. case_bool_decide.
    - reflexivity.
    - rewrite (set_exts_default_option_spec s3 d1 _ _ eq_refl Hd1).
      unfold s3. simpl. by rewrite insert_insert_eq. }
  unfold JuliaBundle.__init__.
  rewrite (bind_returned _ _ _ _ _ Hinit).
  rewrite (bind_returned _ _ _ _ _ (cfg_setitem_spec st0 _ _)).
  rewrite (bind_returned _ _ _ _ _ (cfg_setitem_spec _ _ _)).
  simpl JuliaBundle.cfg. fold cfg1.
  change (JuliaBundle.set_cfg cfg1 (JuliaBundle.set_cfg _ st0))
    with (JuliaBundle.set_cfg cfg1 st0).
  unfold JuliaBundle.disable_templating.
  rewrite (bind_returned (gets JuliaBundle.enable_templating) _
             (JuliaBundle.set_cfg cfg1 st0)
             (JuliaBundle.enable_templating st0)
             (JuliaBundle.set_cfg cfg1 st0) eq_refl).
  rewrite (bind_returned (modify (JuliaBundle.set_enable_templating false)) _
             (JuliaBundle.set_cfg cfg1 st0) tt s2 eq_refl).
  unfold try_finally. rewrite Hbody. unfold modify.
  by destruct st0.
Qed.


End julia_init.


Lemma neuron_make_module_step_pythonpath_witness :
  ∃ st',
    EB_NEURON.make_module_step Sample.neuron_env
      (EB_NEURON.set_with_python true Sample.neuron_state) =
      make_module_step (EB_NEURON.CMakeMake Sample.neuron_env) st' ∧
    EB_NEURON.module_load_environment st' !! "PYTHONPATH" = Some ["lib/python"].
Proof.
  destruct (neuron_make_module_step_pythonpath Sample.neuron_env
              (EB_NEURON.set_with_python true Sample.neuron_state))
    as (st' & Hstep & Hpath & _).
  exists st'. split; [exact Hstep|].
  rewrite (Hpath eq_refl). reflexivity.
Defined.

(** *** Which methods the easyblocks override *)







(** *** The regular expression on sample outputs *)

Example demo_matches_expected_output :
  Spec.demo_matches
    ("first instance of j" +:+ Sample.nl +:+ "  0 " +:+ Sample.nl +:+
     "  -65 " +:+ Sample.nl +:+ "  5 " +:+ Sample.nl +:+
     "  -68.134337 " +:+ Sample.nl) = true.
Proof. lazy. reflexivity. Qed.

Example demo_rejects_other_potential :
  Spec.demo_matches
    ("  -65 " +:+ Sample.nl +:+ "  5 " +:+ Sample.nl +:+
     "  -65 " +:+ Sample.nl) = false.
Proof. lazy. reflexivity. Qed.

Example demo_rejects_unindented_line :
  Spec.demo_matches
    ("-65 " +:+ Sample.nl +:+ "  5 " +:+ Sample.nl +:+
     "  -68.134337 " +:+ Sample.nl) = false.
Proof. lazy. reflexivity. Qed.

Example demo_dot_matches_any_character :
  Spec.demo_matches
    ("  -65" +:+ Sample.nl +:+ "  5" +:+ Sample.nl +:+ "  -68x134337") = true.
Proof. lazy. reflexivity. Qed.

(** ** Further properties of [EB_NEURON] *)

Section neuron_sanity_more.
Variable E : EB_NEURON.env.

Lemma try_load_fake_module_failed (st1 st2 : EB_NEURON.state) msg :
  load_fake_module (EB_NEURON.CMakeMake E) st1 =
    (Raised (EasyBuildError msg), st2) →
  EB_NEURON.try_load_fake_module E st1 = (Returned None, st2).
Proof.
  intros H. unfold EB_NEURON.try_load_fake_module, try_except.
  by rewrite (bind_raised _ _ _ _ _ H).
Qed.

(** When the fake module fails to load with an [EasyBuildError], which
    the step catches, [fake_mod_data] stays unbound: the step cannot
    return, and once the three tests have passed it raises
    [UnboundLocalError] at the final clean-up. *)
Theorem neuron_sanity_check_unbound_fake_module
    (st st1 st2 : EB_NEURON.state) msg :
  sanity_check_step (EB_NEURON.CMakeMake E)
    (Some (EB_NEURON.sanity_check_paths E st)) st = (Returned tt, st1) →
  load_fake_module (EB_NEURON.CMakeMake E) st1 =
    (Raised (EasyBuildError msg), st2) →
  (EB_NEURON.sanity_check_step E st).1 ≠ Returned tt ∧
  (∀ st3,
     (EB_NEURON.validate_demo E ≫= λ _,
      EB_NEURON.validate_parallel E ≫= λ _,
      EB_NEURON.test_python E) st2 = (Returned tt, st3) →
     EB_NEURON.sanity_check_step E st =
       (Raised (UnboundLocalError "fake_mod_data"), st3)).
Proof.
  intros Hparent Hload.
  assert (Hstep : EB_NEURON.sanity_check_step E st =
    (EB_NEURON.validate_demo E ≫= λ _,
     EB_NEURON.validate_parallel E ≫= λ _,
     EB_NEURON.test_python E ≫= λ _,
     EB_NEURON.cleanup E None) st2).
  { unfold EB_NEURON.sanity_check_step.
    rewrite (bind_returned (gets _) _ st (EB_NEURON.sanity_check_paths E st) st
               eq_refl).
    rewrite (bind_returned _ _ _ _ _ Hparent).
    by rewrite (bind_returned _ _ _ _ _ (try_load_fake_module_failed _ _ _ Hload)). }
  rewrite Hstep. split.
  - unfold mbind, M_bind, bind.
    destruct (EB_NEURON.validate_demo E st2) as [[[]|e] s3]; [|done].
    destruct (EB_NEURON.validate_parallel E s3) as [[[]|e] s4]; [|done].
    destruct (EB_NEURON.test_python E s4) as [[[]|e] s5]; done.
  - intros st3. unfold mbind, M_bind, bind.
    destruct (EB_NEURON.validate_demo E st2) as [[[]|e] s3]; [|done].
    destruct (EB_NEURON.validate_parallel E s3) as [[[]|e] s4]; [|done].
    destruct (EB_NEURON.test_python E s4) as [[[]|e] s5]; [|done].
    by intros [= <-].
Qed.

(** The test of the Python module runs no command without Python; with
    Python it runs the one import command and raises exactly when that
    command exits with a code other than zero. *)
Theorem neuron_test_python (st : EB_NEURON.state) :
  (EB_NEURON.with_python st = false →
   EB_NEURON.test_python E st = (Returned tt, st)) ∧
  (EB_NEURON.with_python st = true →
   let cmd := "python -c 'import neuron; neuron.test()'" in
   let code := exit_code (EB_NEURON.shell E (EB_NEURON.cwd st) cmd None) in
   EB_NEURON.test_python E st =
     (if code =? 0 then Returned tt else Raised (RunShellCmdError cmd code),
      EB_NEURON.log_cmd (cmd, None) st)).
Proof.
  unfold EB_NEURON.test_python, EB_NEURON.run_shell_cmd. unfold_monad.
  split; intros Hw; rewrite Hw; [done|]. simpl.
  by destruct (exit_code _ =? 0).
Qed.

(** Closed form of the parallel test when nothing raises [OSError]. *)
Lemma validate_parallel_closed (st : EB_NEURON.state) nproc start_dir cmd :
  val_truthy (EB_NEURON.build_option E "mpi_tests") = true →
  EB_NEURON.cfg st !! "parallel" = Some (VInt nproc) →
  EB_NEURON.cfg st !! "start_dir" = Some (VStr start_dir) →
  EB_NEURON.getcwd_error E = None →
  EB_NEURON.chdir_error E (path_join start_dir ["src"; "parallel"]) = None →
  EB_NEURON.chdir_error E (EB_NEURON.cwd st) = None →
  EB_NEURON.mpi_cmd_for E "nrniv -mpi test0.hoc" (VInt nproc) = inr cmd →
  let dir := path_join (EB_NEURON.cwd st)
               [path_join start_dir ["src"; "parallel"]] in
  let res := EB_NEURON.shell E dir cmd None in
  EB_NEURON.validate_parallel E st =
  (if negb (exit_code res =? 0) ||
      negb (forallb (λ i, Re.search false
              (Re.literal (EB_NEURON.rank_line i nproc)) (output res))
              (range nproc))
   then Raised (EasyBuildError "Validation of parallel hello world run failed.")
   else Returned tt,
   EB_NEURON.set_cwd (path_join dir [EB_NEURON.cwd st])
     (EB_NEURON.log_cmd (cmd, None) (EB_NEURON.set_cwd dir st))).
Proof.
  intros Hon Hpar Hdir Hcwd Hchdir Hback Hcmd dir res.
  set (st' := EB_NEURON.set_cwd (path_join dir [EB_NEURON.cwd st])
                (EB_NEURON.log_cmd (cmd, None) (EB_NEURON.set_cwd dir st))).
  unfold EB_NEURON.validate_parallel. rewrite Hon.
  rewrite (bind_returned _ _ _ _ _ (cfg_getitem_Some _ _ _ Hpar)).
  unfold mbind at 1, M_bind at 1, bind at 1.
  unfold try_except.
  rewrite (bind_returned _ _ _ _ _ (getcwd_ok _ _ Hcwd)).
  rewrite (bind_returned _ _ _ _ _ (cfg_getitem_Some _ _ _ Hdir)).
  rewrite (bind_returned _ _ _ (path_join start_dir ["src"; "parallel"]) st
             eq_refl).
  rewrite (bind_returned _ _ _ _ _ (chdir_ok _ _ _ Hchdir)). fold dir.
  rewrite Hcmd.
  rewrite (bind_returned _ _ _ cmd (EB_NEURON.set_cwd dir st) eq_refl).
  rewrite (bind_returned _ _ _ _ _ (run_shell_cmd_no_fail _ _ _ _)).
  simpl EB_NEURON.cwd at 1. fold res.
  rewrite (bind_returned _ _ _ _ _
             (chdir_ok _ (EB_NEURON.log_cmd (cmd, None) (EB_NEURON.set_cwd dir st))
                _ Hback)).
  simpl EB_NEURON.cwd. fold st'.
  unfold ret at 1.
  rewrite (bind_returned _ _ _ nproc st' eq_refl).
  destruct (Z_le_gt_dec nproc 0) as [Hn|Hn].
  - unfold range. replace (Z.to_nat nproc) with 0%nat by lia. simpl.
    rewrite orb_false_r.
    by destruct (negb (exit_code res =? 0)).
  - rewrite (bind_returned _ _ _ _ _
               (ranks_valid_spec nproc (output res) (range nproc) st'
                  ltac:(lia) ltac:(intros i Hi%elem_of_range; lia))).
    by destruct (_ || _).
Qed.

(** With no process to ask for ([parallel] zero or below) the loop over
    the ranks checks nothing: the parallel test looks at the exit code
    only and accepts any output. *)
Theorem neuron_parallel_no_ranks (st : EB_NEURON.state) nproc start_dir cmd :
  val_truthy (EB_NEURON.build_option E "mpi_tests") = true →
  EB_NEURON.cfg st !! "parallel" = Some (VInt nproc) →
  EB_NEURON.cfg st !! "start_dir" = Some (VStr start_dir) →
  EB_NEURON.getcwd_error E = None →
  EB_NEURON.chdir_error E (path_join start_dir ["src"; "parallel"]) = None →
  EB_NEURON.chdir_error E (EB_NEURON.cwd st) = None →
  EB_NEURON.mpi_cmd_for E "nrniv -mpi test0.hoc" (VInt nproc) = inr cmd →
  nproc ≤ 0 →
  let dir := path_join (EB_NEURON.cwd st)
               [path_join start_dir ["src"; "parallel"]] in
  (EB_NEURON.validate_parallel E st).1 =
  if exit_code (EB_NEURON.shell E dir cmd None) =? 0
  then Returned tt
  else Raised (EasyBuildError "Validation of parallel hello world run failed.").
Proof.
  intros Hon Hpar Hdir Hcwd Hchdir Hback Hcmd Hn dir.
  rewrite (validate_parallel_closed st nproc start_dir cmd
             Hon Hpar Hdir Hcwd Hchdir Hback Hcmd).
  fold dir. unfold range. replace (Z.to_nat nproc) with 0%nat by lia.
  simpl. rewrite orb_false_r.
  by destruct (exit_code _ =? 0).
Qed.

End neuron_sanity_more.

Section neuron_parallel_errors.
Variable E : EB_NEURON.env.

(** An [OSError] from [os.getcwd] or from entering [<start_dir>/src/parallel]
    becomes the error "Failed to run parallel hello world: ..." with the
    message of the [OSError]; no command has been run and the working
    directory is the one from before. *)
Theorem neuron_parallel_oserror_before_run (st : EB_NEURON.state) nproc :
  val_truthy (EB_NEURON.build_option E "mpi_tests") = true →
  EB_NEURON.cfg st !! "parallel" = Some nproc →
  (∀ m, EB_NEURON.getcwd_error E = Some m →
        EB_NEURON.validate_parallel E st =
        (Raised (EasyBuildError ("Failed to run parallel hello world: " +:+ m)),
         st)) ∧
  (∀ m start_dir,
     EB_NEURON.getcwd_error E = None →
     EB_NEURON.cfg st !! "start_dir" = Some (VStr start_dir) →
     EB_NEURON.chdir_error E (path_join start_dir ["src"; "parallel"]) = Some m →
     EB_NEURON.validate_parallel E st =
     (Raised (EasyBuildError ("Failed to run parallel hello world: " +:+ m)),
      st)).
Proof.
  intros Hon Hpar. split.
  - intros m Hcwd. unfold EB_NEURON.validate_parallel. rewrite Hon.
    rewrite (bind_returned _ _ _ _ _ (cfg_getitem_Some _ _ _ Hpar)).
    unfold mbind at 1, M_bind at 1, bind at 1. unfold try_except.
    assert (Hg : EB_NEURON.getcwd E st = (Raised (OSError m), st))
      by (unfold EB_NEURON.getcwd; by rewrite Hcwd).
    by rewrite (bind_raised _ _ _ _ _ Hg).
  - intros m start_dir Hcwd Hdir Hchdir.
    unfold EB_NEURON.validate_parallel. rewrite Hon.
    rewrite (bind_returned _ _ _ _ _ (cfg_getitem_Some _ _ _ Hpar)).
    unfold mbind at 1, M_bind at 1, bind at 1. unfold try_except.
    rewrite (bind_returned _ _ _ _ _ (getcwd_ok _ _ Hcwd)).
    rewrite (bind_returned _ _ _ _ _ (cfg_getitem_Some _ _ _ Hdir)).
    rewrite (bind_returned _ _ _ (path_join start_dir ["src"; "parallel"]) st
               eq_refl).
    assert (Hc : EB_NEURON.chdir E (path_join start_dir ["src"; "parallel"]) st =
                 (Raised (OSError m), st))
      by (unfold EB_NEURON.chdir; by rewrite Hchdir).
    by rewrite (bind_raised _ _ _ _ _ Hc).
Qed.

(** The working directory is restored only on the path without
    exception: when [mpi_cmd_for] raises, or when going back fails with an
    [OSError] after the command has been run, the step raises with the
    working directory left in [<start_dir>/src/parallel]. *)
Theorem neuron_parallel_cwd_not_restored (st : EB_NEURON.state)
    nproc start_dir :
  val_truthy (EB_NEURON.build_option E "mpi_tests") = true →
  EB_NEURON.cfg st !! "parallel" = Some nproc →
  EB_NEURON.cfg st !! "start_dir" = Some (VStr start_dir) →
  EB_NEURON.getcwd_error E = None →
  EB_NEURON.chdir_error E (path_join start_dir ["src"; "parallel"]) = None →
  let dir := path_join (EB_NEURON.cwd st)
               [path_join start_dir ["src"; "parallel"]] in
  (∀ e, EB_NEURON.mpi_cmd_for E "nrniv -mpi test0.hoc" nproc = inl e →
        is_OSError e = false →
        EB_NEURON.validate_parallel E st =
        (Raised e, EB_NEURON.set_cwd dir st)) ∧
  (∀ cmd m,
     EB_NEURON.mpi_cmd_for E "nrniv -mpi test0.hoc" nproc = inr cmd →
     EB_NEURON.chdir_error E (EB_NEURON.cwd st) = Some m →
     EB_NEURON.validate_parallel E st =
     (Raised (EasyBuildError ("Failed to run parallel hello world: " +:+ m)),
      EB_NEURON.log_cmd (cmd, None) (EB_NEURON.set_cwd dir st))).
Proof.
  intros Hon Hpar Hdir Hcwd Hchdir dir.
  split.
  - intros e Hcmd Hnot. unfold EB_NEURON.validate_parallel. rewrite Hon.
    rewrite (bind_returned _ _ _ _ _ (cfg_getitem_Some _ _ _ Hpar)).
    unfold mbind at 1, M_bind at 1, bind at 1. unfold try_except.
    rewrite (bind_returned _ _ _ _ _ (getcwd_ok _ _ Hcwd)).
    rewrite (bind_returned _ _ _ _ _ (cfg_getitem_Some _ _ _ Hdir)).
    rewrite (bind_returned _ _ _ (path_join start_dir ["src"; "parallel"]) st
               eq_refl).
    rewrite (bind_returned _ _ _ _ _ (chdir_ok _ _ _ Hchdir)). fold dir.
    rewrite Hcmd.
    rewrite (bind_raised (lift (inl e)) _ (EB_NEURON.set_cwd dir st) e
               (EB_NEURON.set_cwd dir st) eq_refl).
    by rewrite Hnot.
  - intros cmd m Hcmd Hback. unfold EB_NEURON.validate_parallel. rewrite Hon.
    rewrite (bind_returned _ _ _ _ _ (cfg_getitem_Some _ _ _ Hpar)).
    unfold mbind at 1, M_bind at 1, bind at 1. unfold try_except.
    rewrite (bind_returned _ _ _ _ _ (getcwd_ok _ _ Hcwd)).
    rewrite (bind_returned _ _ _ _ _ (cfg_getitem_Some _ _ _ Hdir)).
    rewrite (bind_returned _ _ _ (path_join start_dir ["src"; "parallel"]) st
               eq_refl).
    rewrite (bind_returned _ _ _ _ _ (chdir_ok _ _ _ Hchdir)). fold dir.
    rewrite Hcmd.
    rewrite (bind_returned _ _ _ cmd (EB_NEURON.set_cwd dir st) eq_refl).
    rewrite (bind_returned _ _ _ _ _ (run_shell_cmd_no_fail _ _ _ _)).
    assert (Hc : EB_NEURON.chdir E (EB_NEURON.cwd st)
                   (EB_NEURON.log_cmd (cmd, None) (EB_NEURON.set_cwd dir st)) =
                 (Raised (OSError m),
                  EB_NEURON.log_cmd (cmd, None) (EB_NEURON.set_cwd dir st)))
      by (unfold EB_NEURON.chdir; by rewrite Hback).
    by rewrite (bind_raised _ _ _ _ _ Hc).
Qed.

End neuron_parallel_errors.

Lemma neuron_sanity_check_unbound_fake_module_witness :
  EB_NEURON.sanity_check_step
    (Extra.neuron_env_with false None (λ _, None)
       (EB_NEURON.mpi_cmd_for Sample.neuron_env) Sample.neuron_shell
       Extra.no_fake_module_class)
    Sample.neuron_state =
  (Raised (UnboundLocalError "fake_mod_data"),
   EB_NEURON.log_cmd ("neurondemo", Some EB_NEURON.neurondemo_input)
     Sample.neuron_state).
Proof.
  apply (proj2 (neuron_sanity_check_unbound_fake_module
                  (Extra.neuron_env_with false None (λ _, None)
                     (EB_NEURON.mpi_cmd_for Sample.neuron_env)
                     Sample.neuron_shell Extra.no_fake_module_class)
                  Sample.neuron_state Sample.neuron_state Sample.neuron_state
                  "Can't load fake module" eq_refl eq_refl)).
  vm_compute. reflexivity.
Defined.

Lemma neuron_test_python_witness :
  EB_NEURON.test_python
    (Extra.neuron_env_with false None (λ _, None)
       (EB_NEURON.mpi_cmd_for Sample.neuron_env) Extra.failing_shell
       (Sample.idle_class EB_NEURON.state))
    (EB_NEURON.set_with_python true Sample.neuron_state) =
  (Raised (RunShellCmdError "python -c 'import neuron; neuron.test()'" 1),
   EB_NEURON.log_cmd ("python -c 'import neuron; neuron.test()'", None)
     (EB_NEURON.set_with_python true Sample.neuron_state)).
Proof.
  exact (proj2 (neuron_test_python
                  (Extra.neuron_env_with false None (λ _, None)
                     (EB_NEURON.mpi_cmd_for Sample.neuron_env)
                     Extra.failing_shell (Sample.idle_class EB_NEURON.state))
                  (EB_NEURON.set_with_python true Sample.neuron_state))
           eq_refl).
Defined.

Lemma neuron_parallel_no_ranks_witness :
  (EB_NEURON.validate_parallel Sample.neuron_env
     (Extra.neuron_state_with_parallel 0)).1 = Returned tt.
Proof.
  exact (neuron_parallel_no_ranks Sample.neuron_env
           (Extra.neuron_state_with_parallel 0) 0 "/build/nrn-8.2.2"
           "mpirun -np 0 nrniv -mpi test0.hoc"
           eq_refl eq_refl eq_refl eq_refl eq_refl eq_refl eq_refl
           ltac:(lia)).
Defined.

Lemma neuron_parallel_oserror_before_run_witness :
  EB_NEURON.validate_parallel
    (Extra.neuron_env_with true (Some "No such file or directory") (λ _, None)
       (EB_NEURON.mpi_cmd_for Sample.neuron_env) Sample.neuron_shell
       (Sample.idle_class EB_NEURON.state))
    Sample.neuron_state =
  (Raised (EasyBuildError
     "Failed to run parallel hello world: No such file or directory"),
   Sample.neuron_state).
Proof.
  exact (proj1 (neuron_parallel_oserror_before_run
                  (Extra.neuron_env_with true (Some "No such file or directory")
                     (λ _, None) (EB_NEURON.mpi_cmd_for Sample.neuron_env)
                     Sample.neuron_shell (Sample.idle_class EB_NEURON.state))
                  Sample.neuron_state (VInt 2) eq_refl eq_refl)
           "No such file or directory" eq_refl).
Defined.

Lemma neuron_parallel_cwd_not_restored_witness :
  EB_NEURON.validate_parallel
    (Extra.neuron_env_with true None Extra.no_way_back
       (EB_NEURON.mpi_cmd_for Sample.neuron_env) Sample.neuron_shell
       (Sample.idle_class EB_NEURON.state))
    Sample.neuron_state =
  (Raised (EasyBuildError
     "Failed to run parallel hello world: No such file or directory"),
   EB_NEURON.log_cmd ("mpirun -np 2 nrniv -mpi test0.hoc", None)
     (EB_NEURON.set_cwd "/build/nrn-8.2.2/src/parallel" Sample.neuron_state)).
Proof.
  exact (proj2 (neuron_parallel_cwd_not_restored
                  (Extra.neuron_env_with true None Extra.no_way_back
                     (EB_NEURON.mpi_cmd_for Sample.neuron_env)
                     Sample.neuron_shell (Sample.idle_class EB_NEURON.state))
                  Sample.neuron_state (VInt 2) "/build/nrn-8.2.2"
                  eq_refl eq_refl eq_refl eq_refl eq_refl)
           "mpirun -np 2 nrniv -mpi test0.hoc" "No such file or directory"
           eq_refl eq_refl).
Defined.

Section neuron_paths_and_module.
Variable E : EB_NEURON.env.


(** [with_python] is decided in [configure_step] only.  Right after
    [__init__], whatever the dependencies are, [make_module_step] is the
    parent's and leaves [PYTHONPATH] alone, and the sanity check asks for
    no Python directory. *)
Theorem neuron_module_step_without_configure (st st1 : EB_NEURON.state) :
  EB_NEURON.__init__ E st = (Returned tt, st1) →
  EB_NEURON.make_module_step E st1 =
    make_module_step (EB_NEURON.CMakeMake E) st1 ∧
  dirs (EB_NEURON.sanity_check_paths E st1) = ["include"; "share/nrn"] ∧
  EB_NEURON.test_python E st1 = (Returned tt, st1).
Proof.
  intros Hinit.
  assert (Hw : EB_NEURON.with_python st1 = false).
  { revert Hinit. unfold EB_NEURON.__init__. unfold_monad.
    destruct (init (EB_NEURON.CMakeMake E) st) as [[[]|e] s]; [|discriminate].
    by intros [= <-]. }
  split; [|split].
  - unfold EB_NEURON.make_module_step. unfold_monad. by rewrite Hw.
  - unfold EB_NEURON.sanity_check_paths. by rewrite Hw.
  - unfold EB_NEURON.test_python. unfold_monad. by rewrite Hw.
Qed.

(** After the options of [configure_step] have been set from a state in
    which [with_python] is false, [make_module_step] sets [PYTHONPATH]
    exactly when Python is a dependency; [configopts] is a string or a
    list of options. *)
Theorem neuron_configure_then_module_step (st st1 : EB_NEURON.state) v cv :
  EB_NEURON.cfg st !! "paranrn" = Some v →
  EB_NEURON.cfg st !! "configopts" = Some cv →
  (∃ s, cv = VStr s) ∨ (∃ l, cv = VList l) →
  EB_NEURON.with_python st = false →
  EB_NEURON.configure_options E st = (Returned tt, st1) →
  ∃ st2,
    EB_NEURON.make_module_step E st1 =
      make_module_step (EB_NEURON.CMakeMake E) st2 ∧
    EB_NEURON.module_load_environment st2 !! "PYTHONPATH" =
      if truthy (EB_NEURON.get_software_root E "Python")
      then Some [if EB_NEURON.LooseVersion_lt E (EB_NEURON.version st) "8"
                 then "lib/python*/site-packages" else "lib/python"]
      else EB_NEURON.module_load_environment st !! "PYTHONPATH".
Proof.
  intros Hp Ho Hov Hw Hconf.
  rewrite (configure_options_spec E st v cv Hp Ho Hov) in Hconf.
  destruct (EB_NEURON.det_pylibdir E) as [e|p]; [discriminate|].
  injection Hconf as <-.
  unfold EB_NEURON.make_module_step, EB_NEURON.set_PYTHONPATH,
    Spec.neuron_configured.
  destruct (truthy (EB_NEURON.get_software_root E "Python")).
  - destruct (EB_NEURON.LooseVersion_lt E (EB_NEURON.version st) "8") eqn:Hv.
    + eexists. split.
      { unfold_monad. simpl. rewrite Hv. reflexivity. }
      simpl. apply lookup_insert_eq.
    + eexists. split.
      { unfold_monad. simpl. rewrite Hv. reflexivity. }
      simpl. apply lookup_insert_eq.
  - eexists. split.
    { unfold_monad. simpl. rewrite Hw. reflexivity. }
    reflexivity.
Qed.

(** [configure_step] is not idempotent on the options: setting them a
    second time appends the same flags once more, to a string of options
    as to a list of them. *)
Theorem neuron_configure_options_twice (st : EB_NEURON.state) v cv p :
  EB_NEURON.cfg st !! "paranrn" = Some v →
  EB_NEURON.cfg st !! "configopts" = Some cv →
  (∃ s, cv = VStr s) ∨ (∃ l, cv = VList l) →
  EB_NEURON.det_pylibdir E = inr p →
  ∃ flags st1 st2,
    (3 ≤ length flags)%nat ∧
    EB_NEURON.configure_options E st = (Returned tt, st1) ∧
    EB_NEURON.cfg st1 !! "configopts" = Some (Spec.extended cv flags) ∧
    EB_NEURON.configure_options E st1 = (Returned tt, st2) ∧
    EB_NEURON.cfg st2 !! "configopts" = Some (Spec.extended cv (flags ++ flags)).
Proof.
  intros Hp Ho Hov Hdet.
  set (flags := [Spec.mpi_flag (val_truthy v);
                 Spec.interviews_flag (EB_NEURON.get_software_root E "InterViews")] ++
                Spec.python_flags (EB_NEURON.get_software_root E "Python")
                  (EB_NEURON.installdir st)).
  set (st1 := EB_NEURON.set_pylibdir p (Spec.neuron_configured E st v cv)).
  assert (H1 : EB_NEURON.configure_options E st = (Returned tt, st1)).
  { rewrite (configure_options_spec E st v cv Hp Ho Hov). by rewrite Hdet. }
  assert (Hc1 : EB_NEURON.cfg st1 !! "configopts" =
                Some (Spec.extended cv flags)).
  { change (EB_NEURON.cfg st1)
      with (EB_NEURON.cfg (Spec.neuron_configured E st v cv)).
    rewrite neuron_configured_cfg. apply lookup_insert_eq. }
  assert (Hp1 : EB_NEURON.cfg st1 !! "paranrn" = Some v).
  { change (EB_NEURON.cfg st1)
      with (EB_NEURON.cfg (Spec.neuron_configured E st v cv)).
    rewrite neuron_configured_cfg. by rewrite lookup_insert_ne. }
  assert (Hi1 : EB_NEURON.installdir st1 = EB_NEURON.installdir st).
  { unfold st1, Spec.neuron_configured. simpl.
    by destruct (truthy (EB_NEURON.get_software_root E "Python")). }
  assert (Hov1 : (∃ s, Spec.extended cv flags = VStr s) ∨
                 (∃ l, Spec.extended cv flags = VList l))
    by (by apply extended_option_value).
  exists flags, st1,
    (EB_NEURON.set_pylibdir p
       (Spec.neuron_configured E st1 v (Spec.extended cv flags))).
  split.
  { unfold flags, Spec.python_flags.
    destruct (EB_NEURON.get_software_root E "Python") as [[|a r]|];
      simpl; lia. }
  split; [exact H1|]. split; [exact Hc1|]. split.
  - rewrite (configure_options_spec E st1 v _ Hp1 Hc1 Hov1). by rewrite Hdet.
  - change (EB_NEURON.cfg (EB_NEURON.set_pylibdir p ?s)) with (EB_NEURON.cfg s).
    rewrite neuron_configured_cfg, lookup_insert_eq, Hi1.
    fold flags. by rewrite extended_app.
Qed.

End neuron_paths_and_module.

Lemma neuron_module_step_without_configure_witness :
  EB_NEURON.__init__ Sample.neuron_env
    (EB_NEURON.set_with_python true Sample.neuron_state) =
    (Returned tt, Sample.neuron_state) ∧
  EB_NEURON.get_software_root Sample.neuron_env "Python" = Some "/sw/Python/3.11" ∧
  EB_NEURON.make_module_step Sample.neuron_env Sample.neuron_state =
    (Returned VNone, Sample.neuron_state).
Proof.
  split; [reflexivity|]. split; [reflexivity|].
  exact (proj1 (neuron_module_step_without_configure Sample.neuron_env
                  (EB_NEURON.set_with_python true Sample.neuron_state)
                  Sample.neuron_state eq_refl)).
Defined.

Lemma neuron_configure_then_module_step_witness :
  let st := Extra.neuron_state_with_configopts (VStr "-DCMAKE_BUILD_TYPE=Release") in
  ∃ st2,
    EB_NEURON.make_module_step Sample.neuron_env
      (EB_NEURON.configure_options Sample.neuron_env st).2 =
      make_module_step (EB_NEURON.CMakeMake Sample.neuron_env) st2 ∧
    EB_NEURON.module_load_environment st2 !! "PYTHONPATH" = Some ["lib/python"].
Proof.
  intros st.
  assert (Hrun : EB_NEURON.configure_options Sample.neuron_env st =
                 (Returned tt,
                  (EB_NEURON.configure_options Sample.neuron_env st).2))
    by (vm_compute; reflexivity).
  exact (neuron_configure_then_module_step Sample.neuron_env st
           _ (VBool true) (VStr "-DCMAKE_BUILD_TYPE=Release")
           eq_refl eq_refl (or_introl (ex_intro _ _ eq_refl)) eq_refl Hrun).
Defined.

Lemma neuron_configure_options_twice_witness :
  let st := Extra.neuron_state_with_configopts (VStr "-DCMAKE_BUILD_TYPE=Release") in
  ∃ flags st1 st2,
    (3 ≤ length flags)%nat ∧
    EB_NEURON.configure_options Sample.neuron_env st = (Returned tt, st1) ∧
    EB_NEURON.cfg st1 !! "configopts" =
      Some (VStr ("-DCMAKE_BUILD_TYPE=Release" +:+ Spec.spaced flags)) ∧
    EB_NEURON.configure_options Sample.neuron_env st1 = (Returned tt, st2) ∧
    EB_NEURON.cfg st2 !! "configopts" =
      Some (VStr ("-DCMAKE_BUILD_TYPE=Release" +:+ Spec.spaced (flags ++ flags))).
Proof.
  exact (neuron_configure_options_twice Sample.neuron_env
           (Extra.neuron_state_with_configopts (VStr "-DCMAKE_BUILD_TYPE=Release"))
           (VBool true) (VStr "-DCMAKE_BUILD_TYPE=Release")
           "lib/python3.11/site-packages" eq_refl eq_refl
           (or_introl (ex_intro _ _ eq_refl)) eq_refl).
Defined.

(** ** Further properties of [JuliaBundle] *)

Lemma split_no_separator (c : ascii) (s : string) :
  ¬ Spec.substring (String c "") s → split c s = [s].
Proof.
  induction s as [|a s IH]; intros Hno; simpl; [done|].
  destruct (Ascii.eqb a c) eqn:Hac.
  - apply Ascii.eqb_eq in Hac as ->. exfalso. apply Hno. by exists "", s.
  - rewrite IH; [done|]. intros (pre & post & ->). apply Hno.
    by exists (String a pre), post.
Qed.

Lemma split_nonempty (c : ascii) (s : string) : split c s ≠ [].
Proof.
  induction s as [|a s IH]; simpl; [done|].
  destruct (Ascii.eqb a c); [done|]. by destruct (split c s).
Qed.

Lemma split_with_separator (c : ascii) (s : string) :
  Spec.substring (String c "") s → ∃ a b r, split c s = a :: b :: r.
Proof.
  induction s as [|x s IH]; intros (pre & post & Hs).
  - destruct pre; discriminate.
  - simpl. destruct (Ascii.eqb x c) eqn:Hxc.
    + destruct (split c s) as [|b r] eqn:Hsp; [by apply split_nonempty in Hsp|].
      by exists "", b, r.
    + destruct pre as [|y pre]; simpl in Hs.
      * injection Hs as -> _. by rewrite Ascii.eqb_refl in Hxc.
      * injection Hs as _ Hs.
        destruct IH as (a & b & r & ->); [by exists pre, post|].
        by exists (String x a), b, r.
Qed.

Section julia_more.
Variable E : JuliaBundle.env.

(** With Julia as a dependency, [prepare_step] still fails when the
    version of Julia is not known ([AttributeError]) or has no dot in it
    ([IndexError]); in both cases nothing has been set or created after
    the parent's step.  With a dot in the version the project file is
    set. *)
Theorem julia_prepare_bad_version (st st1 : JuliaBundle.state) root :
  prepare_step (JuliaBundle.Bundle E) st = (Returned tt, st1) →
  JuliaBundle.get_software_root E "Julia" = Some root →
  (JuliaBundle.get_software_version E "Julia" = None →
   ∃ msg, JuliaBundle.prepare_step E st = (Raised (AttributeError msg), st1)) ∧
  (∀ v, JuliaBundle.get_software_version E "Julia" = Some v →
        ¬ Spec.substring "." v →
        ∃ msg, JuliaBundle.prepare_step E st = (Raised (IndexError msg), st1)) ∧
  (∀ v, JuliaBundle.get_software_version E "Julia" = Some v →
        Spec.substring "." v →
        ∃ major minor,
          JuliaBundle.julia_project_toml (JuliaBundle.prepare_step E st).2 =
          Some (path_join "environments"
                  ["v" +:+ major +:+ "." +:+ minor; "Project.toml"])).
Proof.
  intros Hparent Hroot. rewrite prepare_step_spec, Hparent, Hroot.
  split; [|split].
  - intros ->. by eexists.
  - intros v -> Hno. rewrite (split_no_separator "." v Hno). by eexists.
  - intros v -> Hdot.
    destruct (split_with_separator "." v Hdot) as (major & minor & rest & ->).
    exists major, minor. cbv zeta.
    match goal with
    | |- context [JuliaBundle.mkdir _ ?p ?s] =>
        destruct (mkdir_cases E p s) as (o & made & Hrun & _ & _); rewrite Hrun
    end.
    reflexivity.
Qed.

(** For a version of Julia with at least two components, the project
    file is a relative path, the directory of the environment has the
    installation directory, then [environments/v], as the start of its
    name, and every directory that [prepare_step] creates, whether it
    returns or raises, is that directory or one above it. *)
Theorem julia_project_env_under_installdir (st st1 : JuliaBundle.state)
    root v major minor rest :
  prepare_step (JuliaBundle.Bundle E) st = (Returned tt, st1) →
  JuliaBundle.get_software_root E "Julia" = Some root →
  JuliaBundle.get_software_version E "Julia" = Some v →
  split "." v = major :: minor :: rest →
  let st2 := (JuliaBundle.prepare_step E st).2 in
  let d := JuliaBundle.installdir st1 in
  (∃ toml, JuliaBundle.julia_project_toml st2 = Some toml ∧
           startswith_sep toml = false) ∧
  (∃ tail, JuliaBundle.julia_project_env st2 =
           Some ((if (String.eqb d "" || endswith_sep d)%bool
                  then d else d +:+ "/")
                 +:+ "environments/v" +:+ tail)) ∧
  (∃ project_env made,
     JuliaBundle.julia_project_env st2 = Some project_env ∧
     JuliaBundle.dirs_made st2 = JuliaBundle.dirs_made st1 ++ made ∧
     ∀ p, p ∈ made → ∃ below, project_env = p +:+ below).
Proof.
  intros Hparent Hroot Hv Hsplit st2 d. unfold st2.
  rewrite prepare_step_spec, Hparent, Hroot, Hv, Hsplit. cbv zeta.
  destruct (env_dir_shape major minor) as (Hs & Hne & _).
  set (e := "v" +:+ major +:+ "." +:+ minor) in *.
  rewrite (path_join_installdir_env _ e Hs). fold d.
  set (d' := if (String.eqb d "" || endswith_sep d)%bool then d else d +:+ "/").
  assert (Hstrip : rstrip_sep (d' +:+ "environments/" +:+ e) =
                   d' +:+ "environments/v" +:+
                   rstrip_sep (major +:+ "." +:+ minor)).
  { by rewrite rstrip_sep_app_keep. }
  rewrite Hstrip.
  set (toml := path_join "environments" [e; "Project.toml"]).
  assert (Htoml : startswith_sep toml = false)
    by (unfold toml; by rewrite (path_join_project_toml e Hs Hne)).
  match goal with
  | |- context [JuliaBundle.mkdir _ ?p ?s] =>
      destruct (mkdir_cases E p s) as (o & made & Hrun & Hpre & _); rewrite Hrun
  end.
  simpl. split; [|split].
  - by exists toml.
  - by eexists.
  - eexists _, made. split; [reflexivity|]. split; [reflexivity|]. exact Hpre.
Qed.

(** [make_module_extra] needs what [prepare_step] leaves: when the
    attribute [julia_project_toml] has not been set, it raises
    [AttributeError] instead of returning a module text. *)
Theorem julia_module_extra_before_prepare
    (st st' : JuliaBundle.state) txt :
  make_module_extra (JuliaBundle.Bundle E) st = (Returned txt, st') →
  JuliaBundle.julia_project_toml st' = None →
  (truthy (JuliaBundle.SYNTAX E) = true →
   is_Some (JuliaBundle.JULIA_PATHS_SOFT_INIT E !! fstr (JuliaBundle.SYNTAX E))) →
  ∃ msg, JuliaBundle.make_module_extra E st = (Raised (AttributeError msg), st').
Proof.
  intros Hparent Hnone Hsyntax.
  unfold JuliaBundle.make_module_extra.
  rewrite (bind_returned _ _ _ _ _ Hparent).
  destruct (truthy (JuliaBundle.SYNTAX E)) eqn:Hsyn.
  - destruct (Hsyntax eq_refl) as [snippet Hsn]. rewrite Hsn.
    rewrite (bind_returned _ _ _ (txt +:+ snippet) st' eq_refl).
    unfold JuliaBundle.get_julia_project_toml. unfold_monad.
    rewrite Hnone. by eexists.
  - rewrite (bind_returned _ _ _ txt st' eq_refl).
    unfold JuliaBundle.get_julia_project_toml. unfold_monad.
    rewrite Hnone. by eexists.
Qed.

(** A syntax of the module generator for which [JULIA_PATHS_SOFT_INIT]
    has no snippet makes [make_module_extra] raise [KeyError] with that
    syntax, after the parent's text has been made. *)
Theorem julia_module_extra_unknown_syntax
    (st st' : JuliaBundle.state) txt syntax :
  make_module_extra (JuliaBundle.Bundle E) st = (Returned txt, st') →
  JuliaBundle.SYNTAX E = Some syntax → syntax ≠ "" →
  JuliaBundle.JULIA_PATHS_SOFT_INIT E !! syntax = None →
  JuliaBundle.make_module_extra E st = (Raised (KeyError syntax), st').
Proof.
  intros Hparent Hsyn Hne Hnone.
  unfold JuliaBundle.make_module_extra.
  rewrite (bind_returned _ _ _ _ _ Hparent). rewrite Hsyn.
  destruct syntax as [|a r]; [done|]. simpl. by rewrite Hnone.
Qed.

End julia_more.

Set Warnings "-clear-no-such-hyp".

Section julia_init_more.
Variable E : JuliaBundle.env.

Lemma fill_defaults_cons cfg1 k keys (d : gmap string val) :
  Spec.fill_defaults cfg1 (k :: keys) d =
  Spec.fill_defaults cfg1 keys
    (if bool_decide (k ∈ dom d) then d
     else match cfg1 !! k with
          | Some v => <[k := v]> d
          | None => d
          end).
Proof. reflexivity. Qed.

Lemma fill_defaults_dom cfg1 keys (d : gmap string val) :
  (∀ k, k ∈ keys → is_Some (cfg1 !! k)) →
  dom (Spec.fill_defaults cfg1 keys d) = dom d ∪ list_to_set keys.
Proof.
  revert d. induction keys as [|k keys IH]; intros d Hkeys.
  - simpl. set_solver.
  - destruct (Hkeys k (list_elem_of_here _ _)) as [v Hv].
    rewrite fill_defaults_cons.
    rewrite IH by (intros k' Hk'; apply Hkeys; by apply list_elem_of_further).
    case_bool_decide as Hin.
    + simpl. set_solver.
    + rewrite Hv, dom_insert_L. simpl. set_solver.
Qed.

Lemma fill_defaults_id cfg1 keys (d : gmap string val) :
  (∀ k, k ∈ keys → k ∈ dom d) → Spec.fill_defaults cfg1 keys d = d.
Proof.
  induction keys as [|k keys IH]; intros Hkeys; [done|].
  rewrite fill_defaults_cons.
  rewrite bool_decide_eq_true_2 by (apply Hkeys, list_elem_of_here).
  apply IH. intros k' Hk'. by apply Hkeys, list_elem_of_further.
Qed.

Lemma with_default_sources_dom (d : gmap string val) :
  dom (Spec.with_default_sources d) = dom d ∪ {["sources"]}.
Proof.
  unfold Spec.with_default_sources. case_bool_decide.
  - set_solver.
  - rewrite dom_insert_L. set_solver.
Qed.


(** [__init__] is idempotent: run again on the state it has left, with a
    parent's [__init__] that leaves that state alone, it changes
    nothing. *)
Theorem julia_init_idempotent (st st0 st' : JuliaBundle.state) d0 :
  init (JuliaBundle.Bundle E) st = (Returned tt, st0) →
  JuliaBundle.cfg st0 !! "exts_default_options" = Some (VDict d0) →
  (∀ k, k ∈ JuliaBundle.jlpkg_keys E → is_Some (JuliaBundle.cfg st0 !! k)) →
  "exts_default_options" ∉ JuliaBundle.jlpkg_keys E →
  JuliaBundle.__init__ E st = (Returned tt, st') →
  init (JuliaBundle.Bundle E) st' = (Returned tt, st') →
  JuliaBundle.__init__ E st' = (Returned tt, st').
Proof.
  intros Hinit Hd0 Hkeys Hself Hrun Hinit'.
  rewrite (julia_init_spec E st st0 d0 Hinit Hd0 Hkeys Hself) in Hrun.
  cbv zeta in Hrun. injection Hrun as Hst'.
  set (cfg1 := <["exts_filter" := JuliaBundle.EXTS_FILTER_JULIA_PACKAGES E]>
      (<["exts_defaultclass" := VStr "JuliaPackage"]> (JuliaBundle.cfg st0)))
    in *.
  set (d' := Spec.with_default_sources
               (Spec.fill_defaults cfg1 (JuliaBundle.jlpkg_keys E) d0)) in *.
  assert (Hcfg : JuliaBundle.cfg st' = <["exts_default_options" := VDict d']> cfg1)
    by (by rewrite <- Hst').
  assert (Hd' : JuliaBundle.cfg st' !! "exts_default_options" = Some (VDict d'))
    by (rewrite Hcfg; apply lookup_insert_eq).
  assert (Hkeys' : ∀ k, k ∈ JuliaBundle.jlpkg_keys E →
                        is_Some (JuliaBundle.cfg st' !! k)).
  { intros k Hk. rewrite Hcfg. unfold cfg1.
    rewrite !lookup_insert_is_Some'. auto. }
  assert (Hdom : dom d' = dom d0 ∪ list_to_set (JuliaBundle.jlpkg_keys E)
                          ∪ {["sources"]}).
  { unfold d'. rewrite with_default_sources_dom, fill_defaults_dom; [done|].
    intros k Hk. unfold cfg1. rewrite !lookup_insert_is_Some'. auto. }
  rewrite (julia_init_spec E st' st' d' Hinit' Hd' Hkeys' Hself). cbv zeta.
  assert (Hsame :
    <["exts_filter" := JuliaBundle.EXTS_FILTER_JULIA_PACKAGES E]>
      (<["exts_defaultclass" := VStr "JuliaPackage"]> (JuliaBundle.cfg st')) =
    JuliaBundle.cfg st').
  { rewrite (insert_id (JuliaBundle.cfg st') "exts_defaultclass").
    - apply insert_id. rewrite Hcfg. unfold cfg1.
      by rewrite lookup_insert_ne, lookup_insert_eq.
    - rewrite Hcfg. unfold cfg1.
      by rewrite lookup_insert_ne, lookup_insert_ne, lookup_insert_eq. }
  rewrite Hsame.
  rewrite fill_defaults_id by (intros k Hk; rewrite Hdom; set_solver).
  unfold Spec.with_default_sources at 1.
  rewrite bool_decide_eq_true_2 by (rewrite Hdom; set_solver).
  rewrite (insert_id _ _ _ Hd'). by rewrite set_cfg_id.
Qed.

(** When [exts_default_options] is [None], [__init__] raises [TypeError]
    at the first test for a key; [exts_defaultclass] and [exts_filter]
    have been set by then, and templating is switched back to what it
    was. *)
Theorem julia_init_options_none (st st0 : JuliaBundle.state) :
  init (JuliaBundle.Bundle E) st = (Returned tt, st0) →
  JuliaBundle.cfg st0 !! "exts_default_options" = Some VNone →
  ∃ msg,
    JuliaBundle.__init__ E st =
    (Raised (TypeError msg),
     JuliaBundle.set_cfg
       (<["exts_filter" := JuliaBundle.EXTS_FILTER_JULIA_PACKAGES E]>
          (<["exts_defaultclass" := VStr "JuliaPackage"]> (JuliaBundle.cfg st0)))
       st0).
Proof.
  intros Hinit Hnone.
  set (cfg1 := <["exts_filter" := JuliaBundle.EXTS_FILTER_JULIA_PACKAGES E]>
      (<["exts_defaultclass" := VStr "JuliaPackage"]> (JuliaBundle.cfg st0))).
  set (s2 := JuliaBundle.set_enable_templating false
               (JuliaBundle.set_cfg cfg1 st0)).
  assert (Hget : JuliaBundle.exts_default_options E s2 =
                 (Raised (TypeError "argument is not a dictionary"), s2)).
  { unfold JuliaBundle.exts_default_options.
    assert (Hc : JuliaBundle.cfg s2 !! "exts_default_options" = Some VNone)
      by (simpl; unfold cfg1; by rewrite !lookup_insert_ne).
    by rewrite (bind_returned _ _ _ _ _ (julia_cfg_getitem_raw E s2 _ _ eq_refl Hc)). }
  assert (Hbody :
    (for_each (JuliaBundle.jlpkg_keys E) (JuliaBundle.default_option_from_cfg E)
       ≫= λ _, JuliaBundle.exts_default_options E
       ≫= λ d, if bool_decide ("sources" ∈ dom d) then ret tt
               else JuliaBundle.set_exts_default_option E "sources"
                      JuliaBundle.default_sources) s2 =
    (Raised (TypeError "argument is not a dictionary"), s2)).
  { destruct (JuliaBundle.jlpkg_keys E) as [|k keys].
    - rewrite (bind_returned (for_each [] _) _ s2 tt s2 eq_refl).
      by rewrite (bind_raised _ _ _ _ _ Hget).
    - apply bind_raised.
      change (for_each (k :: keys) (JuliaBundle.default_option_from_cfg E) s2)
        with (bind (JuliaBundle.default_option_from_cfg E k)
                (λ _, for_each keys (JuliaBundle.default_option_from_cfg E)) s2).
      unfold bind, JuliaBundle.default_option_from_cfg.
      by rewrite (bind_raised _ _ _ _ _ Hget). }
  exists "argument is not a dictionary".
  unfold JuliaBundle.__init__.
  rewrite (bind_returned _ _ _ _ _ Hinit).
  rewrite (bind_returned _ _ _ _ _ (cfg_setitem_spec st0 _ _)).
  rewrite (bind_returned _ _ _ _ _ (cfg_setitem_spec _ _ _)).
  simpl JuliaBundle.cfg. fold cfg1.
  change (JuliaBundle.set_cfg cfg1 (JuliaBundle.set_cfg _ st0))
    with (JuliaBundle.set_cfg cfg1 st0).
  unfold JuliaBundle.disable_templating.
  rewrite (bind_returned (gets JuliaBundle.enable_templating) _
             (JuliaBundle.set_cfg cfg1 st0)
             (JuliaBundle.enable_templating st0)
             (JuliaBundle.set_cfg cfg1 st0) eq_refl).
  rewrite (bind_returned (modify (JuliaBundle.set_enable_templating false)) _
             (JuliaBundle.set_cfg cfg1 st0) tt s2 eq_refl).
  unfold try_finally. rewrite Hbody. unfold modify.
  by destruct st0.
Qed.

End julia_init_more.

Lemma julia_prepare_bad_version_witness :
  ∃ msg,
    JuliaBundle.prepare_step
      (Extra.julia_env_with (Some "1") (Some "Lua") ∅) Sample.julia_state =
    (Raised (IndexError msg), Sample.julia_state).
Proof.
  apply (proj1 (proj2 (julia_prepare_bad_version
                         (Extra.julia_env_with (Some "1") (Some "Lua") ∅)
                         Sample.julia_state Sample.julia_state "/sw/Julia"
                         eq_refl eq_refl)) "1" eq_refl).
  intros (pre & post & H).
  destruct pre as [|a [|b pre]]; simpl in H; try discriminate;
    destruct post; discriminate.
Defined.

Lemma julia_project_env_under_installdir_witness :
  ∃ tail,
    JuliaBundle.julia_project_env
      (JuliaBundle.prepare_step (Sample.julia_env (Some "/sw/Julia"))
         Sample.julia_state).2 =
    Some ("/sw/JuliaBundle/1.0/" +:+ "environments/v" +:+ tail).
Proof.
  exact (proj1 (proj2 (julia_project_env_under_installdir
                         (Sample.julia_env (Some "/sw/Julia"))
                         Sample.julia_state Sample.julia_state
                         "/sw/Julia" "1.9.3" "1" "9" ["3"]
                         eq_refl eq_refl eq_refl eq_refl))).
Defined.

Lemma julia_module_extra_before_prepare_witness :
  ∃ msg,
    JuliaBundle.make_module_extra (Sample.julia_env (Some "/sw/Julia"))
      Sample.julia_state =
    (Raised (AttributeError msg), Sample.julia_state).
Proof.
  exact (julia_module_extra_before_prepare
           (Sample.julia_env (Some "/sw/Julia"))
           Sample.julia_state Sample.julia_state "" eq_refl eq_refl
           (λ _, ex_intro _ _ eq_refl)).
Defined.

Lemma julia_module_extra_unknown_syntax_witness :
  JuliaBundle.make_module_extra
    (Extra.julia_env_with (Some "1.9.3") (Some "YAML")
       (JuliaBundle.JULIA_PATHS_SOFT_INIT (Sample.julia_env None)))
    Sample.julia_state =
  (Raised (KeyError "YAML"), Sample.julia_state).
Proof.
  exact (julia_module_extra_unknown_syntax
           (Extra.julia_env_with (Some "1.9.3") (Some "YAML")
              (JuliaBundle.JULIA_PATHS_SOFT_INIT (Sample.julia_env None)))
           Sample.julia_state Sample.julia_state "" "YAML"
           eq_refl eq_refl ltac:(discriminate) eq_refl).
Defined.

Lemma julia_keys_sample :
  JuliaBundle.jlpkg_keys (Sample.julia_env None) = ["download_pkg_deps"].
Proof. vm_compute. reflexivity. Qed.


Lemma julia_init_idempotent_witness :
  JuliaBundle.__init__ (Sample.julia_env None)
    (JuliaBundle.__init__ (Sample.julia_env None) Sample.julia_state).2 =
  (Returned tt,
   (JuliaBundle.__init__ (Sample.julia_env None) Sample.julia_state).2).
Proof.
  apply (julia_init_idempotent (Sample.julia_env None)
           Sample.julia_state Sample.julia_state _
           (<["source_urls" := VList [VStr "https://github.com/"]]> ∅)
           eq_refl eq_refl).
  - intros k Hk. rewrite julia_keys_sample in Hk.
    apply list_elem_of_singleton in Hk as ->. by eexists.
  - rewrite julia_keys_sample. by intros ?%list_elem_of_singleton.
  - vm_compute. reflexivity.
  - reflexivity.
Defined.

Lemma julia_init_options_none_witness :
  ∃ msg,
    (JuliaBundle.__init__ (Sample.julia_env None)
       Extra.julia_state_no_options).1 = Raised (TypeError msg) ∧
    JuliaBundle.enable_templating
      (JuliaBundle.__init__ (Sample.julia_env None)
         Extra.julia_state_no_options).2 = true.
Proof.
  destruct (julia_init_options_none (Sample.julia_env None)
              Extra.julia_state_no_options Extra.julia_state_no_options
              eq_refl eq_refl) as [msg H].
  exists msg. rewrite H. split; reflexivity.
Defined.

(** ** What the regular expression of the demo accepts *)

(** The test of the demo passes exactly when [neurondemo] exits with
    code zero and its output has, from the start of some line on, three
    lines: whitespace and [-65]; whitespace and [5]; whitespace and [-68],
    any character but a newline, and [134337].  The whitespace at the
    start of each of the three lines is not empty and, like the
    whitespace at the end of the first two, may contain newlines. *)
Theorem neuron_demo_accepted_outputs (E : EB_NEURON.env) (st : EB_NEURON.state) :
  let res := EB_NEURON.shell E (EB_NEURON.cwd st) "neurondemo"
               (Some EB_NEURON.neurondemo_input) in
  (EB_NEURON.validate_demo E st).1 = Returned tt ↔
  exit_code res = 0 ∧
  ∃ pre ws1 ws2 ws3 ws4 ws5 c post,
    output res =
      pre +:+ ws1 +:+ "-65" +:+ ws2 +:+ Extra.nl +:+
      ws3 +:+ "5" +:+ ws4 +:+ Extra.nl +:+
      ws5 +:+ "-68" +:+ String c "134337" +:+ post ∧
    (pre = "" ∨ ∃ pre', pre = pre' +:+ Extra.nl) ∧
    ws1 ≠ "" ∧ ws3 ≠ "" ∧ ws5 ≠ "" ∧
    Extra.spaces ws1 = true ∧ Extra.spaces ws2 = true ∧
    Extra.spaces ws3 = true ∧ Extra.spaces ws4 = true ∧
    Extra.spaces ws5 = true ∧ c ≠ newline.
Proof.
  intros res. rewrite validate_demo_spec. cbv zeta. fold res.
  rewrite <- demo_matches_shape. simpl fst.
  destruct (exit_code res =? 0) eqn:Hcode; simpl.
  - apply Z.eqb_eq in Hcode.
    destruct (Spec.demo_matches (output res)); simpl; split; try done.
    by intros [_ ?].
  - apply Z.eqb_neq in Hcode. split; [done|]. by intros [? _].
Qed.

(** The whitespace of the pattern includes the newline: blank lines
    between the three values do not make the test fail. *)
Example demo_accepts_blank_lines :
  Spec.demo_matches
    ("  -65 " +:+ Extra.nl +:+ Extra.nl +:+ Extra.nl +:+ "  5" +:+ Extra.nl +:+
     Extra.nl +:+ "  -68.134337") = true.
Proof. lazy. reflexivity. Qed.
